(** * Datto backup check: a shallow embedding of [Datto_backup_check.py]

    The script polls the Datto REST API, evaluates every visible device and
    its protected assets against fixed thresholds, prints a report and
    optionally mails it.  This development embeds the script's functions
    ([display_time], [printErrors], [Datto.getDevices], the main loop) and
    proves the properties the specification states about them. *)

From stdpp Require Import gmap strings list.
From Stdlib Require Import ZArith Lia Bool Ascii String DecimalString.
From Stdlib Require Import Permutation Sorted.

Local Open Scope Z_scope.

(** ** Python numbers

    Python integers are unbounded: they are [Z].  Python floats are IEEE-754
    binary64 numbers.  A finite float is kept as a dyadic number
    [fnum * 2 ^ fexp]; every arithmetic operation the script performs on
    floats is the correctly rounded (nearest, ties to even) image of the exact
    result, which is what [rnd_div] computes on exact integer data. *)

Record float := mkFloat { fnum : Z; fexp : Z }.

(** Powers of two with a clamped exponent: [pow2 k] is [2 ^ k] for [0 <= k]
    and [1] below.  A binary scaling by [2 ^ E] of a ratio [n / d] is then the
    ratio [(n * pow2 (- E)) / (d * pow2 E)] for every sign of [E]. *)
Definition pow2 (k : Z) : Z := 2 ^ Z.max 0 k.

(** Integer nearest to [a / b] for [0 < b], ties to the even integer. *)
Definition rhe_div (a b : Z) : Z :=
  let q := a / b in
  match (2 * (a mod b)) ?= b with
  | Lt => q
  | Gt => q + 1
  | Eq => if Z.even q then q else q + 1
  end.

(** [floor_log2_ratio n d], for positive [n] and [d], is the exponent [e]
    with [2 ^ e <= n / d < 2 ^ (e + 1)]. *)
Definition floor_log2_ratio (n d : Z) : Z :=
  let e0 := Z.log2 n - Z.log2 d in
  if n * pow2 (- e0) <? d * pow2 e0 then e0 - 1 else e0.

(** binary64: 53 bits of precision, least exponent of the unit in the last
    place -1074 (subnormal numbers). *)
Definition prec : Z := 53.
Definition emin : Z := -1074.

(** Correct rounding of the positive ratio [n / d]. *)
Definition rnd_pos (n d : Z) : float :=
  let E := Z.max (floor_log2_ratio n d - (prec - 1)) emin in
  mkFloat (rhe_div (n * pow2 (- E)) (d * pow2 E)) E.

Definition fopp (f : float) : float := mkFloat (- fnum f) (fexp f).

(** Correct rounding of [n / d] for [0 < d] and any [n].  (Results beyond
    the binary64 range, above [2 ^ 1024], do not occur in the script: every
    quotient it forms is a storage ratio in [0, 1], a two-decimal fraction, a
    percentage or a difference of two [datetime] instants.) *)
Definition rnd_div (n d : Z) : float :=
  match n ?= 0 with
  | Eq => mkFloat 0 0
  | Gt => rnd_pos n d
  | Lt => fopp (rnd_pos (- n) d)
  end.

(** [float(z)] for an integer, and the float product. *)
Definition float_of_Z (z : Z) : float := rnd_div z 1.

Definition fmul (a b : float) : float :=
  let E := fexp a + fexp b in
  rnd_div (fnum a * fnum b * pow2 E) (pow2 (- E)).

(** Comparison of a float with an integer is exact in Python. *)
Definition fcompare_Z (f : float) (c : Z) : comparison :=
  (fnum f * pow2 (fexp f)) ?= (c * pow2 (- fexp f)).

Definition fgtb_Z (f : float) (c : Z) : bool :=
  match fcompare_Z f c with Gt => true | _ => false end.

Definition fgeb_Z (f : float) (c : Z) : bool :=
  match fcompare_Z f c with Lt => false | _ => true end.

(** [int(f)]: truncation towards zero. *)
Definition int_of_float (f : float) : Z :=
  Z.quot (fnum f * pow2 (fexp f)) (pow2 (- fexp f)).

(** ["{0:.2f}".format(f)]: the decimal with two fractional digits nearest to
    the exact value of [f] (ties to even); [format_2f f] is that decimal
    counted in hundredths.  [float] of the resulting string is the float
    nearest to that decimal. *)
Definition format_2f (f : float) : Z :=
  rhe_div (100 * fnum f * pow2 (fexp f)) (pow2 (- fexp f)).

Definition float_of_hundredths (k : Z) : float := rnd_div k 100.

(** A numeric argument of [display_time]: the script passes floats
    ([timedelta.total_seconds()]); the function accepts integers too. *)
Inductive pynum := PyInt (z : Z) | PyFloat (f : float).

Definition py_int (x : pynum) : Z :=
  match x with PyInt z => z | PyFloat f => int_of_float f end.

(** ** Python strings *)

Local Open Scope string_scope.

Definition nl : string := String "010"%char EmptyString.
Definition dq : string := String "034"%char EmptyString.

(** [str(z)] and ["{}".format(z)] for an integer. *)
Definition str_of_Z (z : Z) : string := NilZero.string_of_int (Z.to_int z).

(** [s.rstrip(c)] for a one-character set: drop every trailing [c]. *)
Fixpoint rstrip (c : ascii) (s : string) : string :=
  match s with
  | EmptyString => EmptyString
  | String a s' =>
      match rstrip c s' with
      | EmptyString => if Ascii.eqb a c then EmptyString else String a EmptyString
      | r => String a r
      end
  end.

(** Slices [s[:n]] and [s[n:]]; both clamp at the end of the string. *)
Fixpoint str_take (n : nat) (s : string) : string :=
  match n, s with
  | S n', String a s' => String a (str_take n' s')
  | _, _ => EmptyString
  end.

Fixpoint str_drop (n : nat) (s : string) : string :=
  match n, s with
  | S n', String _ s' => str_drop n' s'
  | _, _ => s
  end.

(** A report line.  The script builds every line with [str.format]; a line
    is kept as the template together with the arguments it is applied to, so
    that two lines are the same finding exactly when they come from the same
    template.  [AFloat f] stands for [str(f)]. *)
Inductive fmt_arg := AStr (s : string) | AInt (z : Z) | AFloat (f : float).

Inductive pystr := Lit (s : string) | Fmt (template : string) (args : list fmt_arg).

(** ** [display_time] *)

Definition intervals : list (string * Z) :=
  [ ("weeks", 604800); ("days", 86400); ("hours", 3600);
    ("minutes", 60); ("seconds", 1) ]%Z.

(** One iteration of the [for name, count in intervals] loop on the pair of
    mutable variables [(seconds, result)]. *)
Definition display_time_step (acc : Z * list string) (iv : string * Z)
  : Z * list string :=
  let '(seconds, result) := acc in
  let '(name, count) := iv in
  let value := (seconds / count)%Z in
  if (value =? 0)%Z then (seconds, result)
  else
    let seconds := (seconds - value * count)%Z in
    let name := if (value =? 1)%Z then rstrip "s"%char name else name in
    (seconds, (result ++ [(str_of_Z value ++ " " ++ name)%string])%list).

Definition display_time (seconds : pynum) (granularity : nat) : string :=
  let seconds := py_int seconds in
  let result := snd (fold_left display_time_step intervals (seconds, [])) in
  String.concat ", " (firstn granularity result).

(** The default value of the [granularity] parameter. *)
Definition granularity_default : nat := 2.

(** ** Data model: the JSON records the API returns *)

Module Device.
(** One element of the ['items'] array of the device listing.
    [localStorageAvailable] and [localStorageUsed] are the ['size'] members
    of the two storage objects, byte counts. *)
Record t := mk {
  name : string;
  serialNumber : string;
  hidden : bool;
  lastSeenDate : string;
  activeTickets : Z;
  localStorageAvailable : N;
  localStorageUsed : N }.
End Device.

Module Backup.
(** [agent['backups'][i]['backup']]. *)
Record t := mk { status : string; errorMessage : string }.
End Backup.

Module Agent.
(** One asset of a device.  The nullable members are options; timestamps
    are seconds since the epoch. *)
Record t := mk {
  name : string;
  isArchived : bool;
  isPaused : bool;
  lastSnapshot : Z;
  backups : list Backup.t;
  latestOffsite : option Z;
  type : string;
  lastScreenshotAttempt : option Z;
  lastScreenshotAttemptStatus : option bool }.
End Agent.

(** A response of the device listing endpoint: the error envelope (it has a
    ['code'] and a ['message'] member) or one page of results. *)
Inductive api_response :=
| ApiError (code : Z) (message : string)
| ApiPage (items : list Device.t) (totalPages : Z).

(** Truth test of a nullable number: [None] and [0] are falsy;
    [truthy x] is the number when [x] is truthy. *)
Definition truthy (x : option Z) : option Z :=
  match x with
  | None => None
  | Some z => if (z =? 0)%Z then None else Some z
  end.

(** ** Thresholds *)

Definition CHECKIN_LIMIT : Z := 60 * 20.
Definition STORAGE_PCT_THRESHOLD : Z := 95.
Definition LAST_BACKUP_THRESHOLD : Z := 60 * 60 * 12.
Definition LAST_OFFSITE_THRESHOLD : Z := 60 * 60 * 72.
Definition LAST_SCREENSHOT_THRESHOLD : Z := 60 * 60 * 48.

(** ** Report lines *)

Definition msg_device_header (device_name : string) : pystr :=
  Fmt "--DEVICE: {}" [AStr device_name].

Definition msg_tickets (activeTickets : Z) : pystr :=
  Fmt " [-]   Appliance has {} active {}"
      [AInt activeTickets;
       AStr (if (activeTickets <? 2)%Z then "ticket" else "tickets")].

Definition msg_checkin (elapsed : string) : pystr :=
  Fmt " [!] CRITICAL -  Last checkin was {} ago!" [AStr elapsed].

Definition msg_storage (available_pct : float) : pystr :=
  Fmt " [!]   Local storage exceeds {}%!  Current Usage: {}%"
      [AStr (str_of_Z STORAGE_PCT_THRESHOLD); AFloat available_pct].

Definition msg_backup_failed (agent_name elapsed errorMessage : string) : pystr :=
  Fmt (" [!]   {}: Last scheduled backup failed; last backup was {} ago"
         ++ nl ++ "       -->  " ++ dq ++ "{}" ++ dq)
      [AStr agent_name; AStr elapsed; AStr errorMessage].

Definition msg_no_backups (agent_name : string) : pystr :=
  Fmt " [-]   {}: does not seem to have any backups!" [AStr agent_name].

Definition msg_no_offsite (agent_name : string) : pystr :=
  Fmt " [-]   {}: no off-site backup points" [AStr agent_name].

Definition msg_offsite_old (agent_name elapsed : string) : pystr :=
  Fmt " [!]   {}: Last off-site was {} ago" [AStr agent_name; AStr elapsed].

Definition msg_screenshot_old (agent_name elapsed : string) : pystr :=
  Fmt " [!]   {}: Last screenshot attempt was {} ago!"
      [AStr agent_name; AStr elapsed].

Definition msg_screenshot_failed (agent_name : string) : pystr :=
  Fmt " [-]   {}: Last screenshot attempt failed!" [AStr agent_name].

(** ** Program state, exceptions and effects *)

Inductive exn :=
| ZeroDivisionError
| ValueError
| OverflowError
| OSError
| KeyError (key : string)
| SMTPException
| SystemExit (code : Z).

Inductive result (A : Type) :=
| Ok (a : A)
| Raise (e : exn).
Arguments Ok {A} a.
Arguments Raise {A} e.

(** [results_data['devices'][name]]. *)
Record device_result := mkDeviceResult {
  errors : list pystr;
  assets : gmap string (list pystr) }.

(** HTTP requests of the session. *)
Inductive request :=
| GetBase
| GetPage (page : Z)
| GetAssets (serialNumber : string).

(** A message handed to the mail relay; [body] is the list of lines that
    [email_report] joins with newlines. *)
Record mail := mkMail {
  subject : string;
  sender : string;
  recipient : string;
  body : list pystr }.

Record state := mkState {
  MSG_BODY : list pystr;
  results_data : gmap string device_result;
  stdout : list pystr;
  requests : list request;
  clock_reads : nat;
  session_open : bool;
  outbox : list mail }.

Definition initial_state : state :=
  mkState [] ∅ [] [] 0 false [].

Definition set_MSG_BODY (f : list pystr -> list pystr) (st : state) : state :=
  mkState (f (MSG_BODY st)) (results_data st) (stdout st) (requests st)
          (clock_reads st) (session_open st) (outbox st).

Definition set_results_data
  (f : gmap string device_result -> gmap string device_result) (st : state) : state :=
  mkState (MSG_BODY st) (f (results_data st)) (stdout st) (requests st)
          (clock_reads st) (session_open st) (outbox st).

Definition set_stdout (f : list pystr -> list pystr) (st : state) : state :=
  mkState (MSG_BODY st) (results_data st) (f (stdout st)) (requests st)
          (clock_reads st) (session_open st) (outbox st).

Definition set_requests (f : list request -> list request) (st : state) : state :=
  mkState (MSG_BODY st) (results_data st) (stdout st) (f (requests st))
          (clock_reads st) (session_open st) (outbox st).

Definition set_clock_reads (f : nat -> nat) (st : state) : state :=
  mkState (MSG_BODY st) (results_data st) (stdout st) (requests st)
          (f (clock_reads st)) (session_open st) (outbox st).

Definition set_session_open (b : bool) (st : state) : state :=
  mkState (MSG_BODY st) (results_data st) (stdout st) (requests st)
          (clock_reads st) b (outbox st).

Definition set_outbox (f : list mail -> list mail) (st : state) : state :=
  mkState (MSG_BODY st) (results_data st) (stdout st) (requests st)
          (clock_reads st) (session_open st) (f (outbox st)).

(** Computations of the script: a state transformer that returns a value or
    raises; the state reached is kept in both cases. *)
Definition M (A : Type) : Type := state -> result A * state.

Definition ret {A} (a : A) : M A := fun st => (Ok a, st).

Definition bind {A B} (m : M A) (k : A -> M B) : M B :=
  fun st =>
    match m st with
    | (Ok a, st') => k a st'
    | (Raise e, st') => (Raise e, st')
    end.

Definition raise {A} (e : exn) : M A := fun st => (Raise e, st).

Definition modify (f : state -> state) : M unit := fun st => (Ok tt, f st).

Notation "x <- c1 ;; c2" := (bind c1 (fun x => c2))
  (at level 100, c1 at next level, right associativity).
Notation "c1 ;;; c2" := (bind c1 (fun _ => c2))
  (at level 100, right associativity).

(** [for x in l: body x]. *)
Fixpoint for_each {A} (l : list A) (body : A -> M unit) : M unit :=
  match l with
  | [] => ret tt
  | x :: l' => body x ;;; for_each l' body
  end.

(** A loop that updates a local variable of the enclosing scope. *)
Fixpoint for_fold {A B} (l : list A) (body : B -> A -> M B) (b : B) : M B :=
  match l with
  | [] => ret b
  | x :: l' => b' <- body b x ;; for_fold l' body b'
  end.

Definition print (line : pystr) : M unit :=
  modify (set_stdout (fun out => out ++ [line])%list).

Definition session_get (r : request) : M unit :=
  modify (set_requests (fun rs => rs ++ [r])%list).

(** ** Time *)

(** Instants and durations ([datetime], [timedelta]) are integer numbers of
    microseconds; instants count from the epoch. *)
Definition us_per_second : Z := 1000000.

(** [datetime.fromtimestamp(ts, timezone.utc)] for an integer [ts]: defined
    from year 1 to year 9999, raises outside. *)
Definition min_timestamp : Z := -62135596800.
Definition max_timestamp : Z := 253402300799.

Definition valid_timestamp (ts : Z) : bool :=
  ((min_timestamp <=? ts) && (ts <=? max_timestamp))%Z.

(** The exception outside that range, as CPython raises it where [time_t]
    has 64 bits and [gmtime] is that of glibc.  The integer is first
    converted to [time_t] ([OverflowError] when it does not fit), then
    handed to [gmtime], which fails when the year does not fit its [int]
    field ([OSError]); the [datetime] constructor refuses the remaining
    years ([ValueError]). *)
Definition min_time_t : Z := - 2 ^ 63.
Definition max_time_t : Z := 2 ^ 63 - 1.
Definition min_gmtime : Z := -67768040609740800.
Definition max_gmtime : Z := 67768036191676799.

Definition fromtimestamp_error (ts : Z) : exn :=
  if ((ts <? min_time_t) || (max_time_t <? ts))%Z then OverflowError
  else if ((ts <? min_gmtime) || (max_gmtime <? ts))%Z then OSError
  else ValueError.

Definition fromtimestamp (ts : Z) : M Z :=
  if valid_timestamp ts then ret (ts * us_per_second)%Z
  else raise (fromtimestamp_error ts).

(** [timedelta.total_seconds()]: the duration in microseconds divided by
    [10 ** 6], a float. *)
Definition total_seconds (td : Z) : float := rnd_div td us_per_second.

(** ** The script *)

(** [results_data['devices'][name]['errors'].append(msg)]. *)
Definition append_device_error (device_name : string) (msg : pystr)
  (rd : gmap string device_result) : gmap string device_result :=
  alter (fun r => mkDeviceResult (errors r ++ [msg])%list (assets r)) device_name rd.

(** [results_data['devices'][name]['assets'][agent_name] = []]. *)
Definition init_asset (device_name agent_name : string)
  (rd : gmap string device_result) : gmap string device_result :=
  alter (fun r => mkDeviceResult (errors r) (<[agent_name := []]> (assets r)))
        device_name rd.

(** [results_data['devices'][name]['assets'][agent_name].append(msg)]. *)
Definition append_asset_error (device_name agent_name : string) (msg : pystr)
  (rd : gmap string device_result) : gmap string device_result :=
  alter (fun r => mkDeviceResult (errors r)
                    (alter (fun l => l ++ [msg])%list agent_name (assets r)))
        device_name rd.

(** The pair of statements that records a device-level finding: append to
    the local [errors] list and to [results_data]. *)
Definition report_device (device_name : string) (msg : pystr)
  (errors : list pystr) : M (list pystr) :=
  modify (set_results_data (append_device_error device_name msg)) ;;;
  ret (errors ++ [msg])%list.

(** The same for an asset-level finding. *)
Definition report_asset (device_name agent_name : string) (msg : pystr)
  (errors : list pystr) : M (list pystr) :=
  modify (set_results_data (append_asset_error device_name agent_name msg)) ;;;
  ret (errors ++ [msg])%list.

Definition printErrors (errors : list pystr) (device_name : string) : M unit :=
  print (msg_device_header device_name) ;;;
  modify (set_MSG_BODY (fun b => b ++ [msg_device_header device_name])%list) ;;;
  for_each errors (fun error =>
    print error ;;;
    modify (set_MSG_BODY (fun b => b ++ [error])%list)) ;;;
  modify (set_MSG_BODY (fun b => b ++ [Lit nl])%list).

(** [range(lo, hi)]. *)
Definition py_range (lo hi : Z) : list Z :=
  map (fun i => lo + Z.of_nat i)%Z (seq 0 (Z.to_nat (hi - lo))).

Section Script.

(** [SEND_EMAIL]: the flag that gates the mail; the script ships with
    [False]. *)
Variable SEND_EMAIL : bool.

(** [datetime.strptime(t, "%Y-%m-%dT%H:%M:%S%z")] as an instant; [None]
    when the string does not match the format ([ValueError]). *)
Variable strptime : string -> option Z.

(** [str.upper]. *)
Variable str_upper : string -> string.

(** The successive values of [datetime.now(timezone.utc)]. *)
Variable clock : nat -> Z.

(** The server: the answers to [GET API_BASE_URI], to
    [GET API_BASE_URI?_page=n] and to [GET API_BASE_URI/serial/asset]. *)
Variable api_base : api_response.
Variable api_page : Z -> api_response.
Variable api_assets : string -> list Agent.t.

(** The mail relay: whether the SMTP session (connect, STARTTLS, send) goes
    through for a message; a transport error is not caught by the script. *)
Variable smtp_relay : mail -> bool.

Definition datetime_now : M Z :=
  fun st => (Ok (clock (clock_reads st)), set_clock_reads S st).

(** [email_report]: one message, fixed subject, sender and recipient, the
    body is the report buffer joined with newlines. *)
Definition email_report : M unit :=
  fun st =>
    let msg := mkMail "Daily Datto Check" "datto-check@example.com"
                      "username@example.com" (MSG_BODY st) in
    if smtp_relay msg
    then (Ok tt, set_outbox (fun o => o ++ [msg])%list st)
    else (Raise SMTPException, st).

(** *** class Datto *)

Definition Datto_init : M unit :=
  modify (set_session_open true) ;;;
  session_get GetBase ;;;
  match api_base with
  | ApiError _ message =>
      print (Fmt ("[!]   Critical Error:  " ++ dq ++ "{}" ++ dq) [AStr message]) ;;;
      raise (SystemExit 1)
  | ApiPage _ _ => ret tt
  end.

Definition sessionClose : M unit := modify (set_session_open false).

(** [r['items']] and [r['pagination']['totalPages']]. *)
Definition response_items (r : api_response) : M (list Device.t) :=
  match r with
  | ApiPage items _ => ret items
  | ApiError _ _ => raise (KeyError "items")
  end.

Definition response_totalPages (r : api_response) : M Z :=
  match r with
  | ApiPage _ totalPages => ret totalPages
  | ApiError _ _ => raise (KeyError "pagination")
  end.

(** [sorted(devices, key=lambda i: i['name'].upper())]: a stable sort;
    [insert_sorted] puts an element in front of the first element whose key
    is not smaller, so that elements with equal keys keep their order. *)
Definition sort_key (d : Device.t) : string := str_upper (Device.name d).

Fixpoint insert_sorted (d : Device.t) (l : list Device.t) : list Device.t :=
  match l with
  | [] => [d]
  | d' :: l' =>
      if String.leb (sort_key d) (sort_key d') then d :: d' :: l'
      else d' :: insert_sorted d l'
  end.

Definition sorted (l : list Device.t) : list Device.t :=
  fold_right insert_sorted [] l.

Definition getDevices : M (list Device.t) :=
  session_get (GetPage 1) ;;;
  let r := api_page 1 in
  items <- response_items r ;;
  let devices := items in
  totalPages <- response_totalPages r ;;
  devices <-
    (if (totalPages >? 1)%Z then
       for_fold (py_range 2 (totalPages + 1))
         (fun devices page =>
            session_get (GetPage page) ;;;
            items <- response_items (api_page page) ;;
            ret (devices ++ items)%list)
         devices
     else ret devices) ;;
  ret (sorted devices).

Definition getAssetDetails (serialNumber : string) : M (list Agent.t) :=
  session_get (GetAssets serialNumber) ;;;
  ret (api_assets serialNumber).

(** *** Main loop: the checks on one asset *)

(** The body of [for agent in assetDetails]; [errors] is the list of the
    enclosing device, which the body extends. *)
Definition check_agent (device_name : string) (errors : list pystr)
  (agent : Agent.t) : M (list pystr) :=
  if Agent.isArchived agent then ret errors
  else if Agent.isPaused agent then ret errors
  else
    let agent_name := Agent.name agent in
    modify (set_results_data (init_asset device_name agent_name)) ;;;
    (* most recent backup older than LAST_BACKUP_THRESHOLD *)
    lastBackupTime <- fromtimestamp (Agent.lastSnapshot agent) ;;
    now <- datetime_now ;;
    let timeDiff := (now - lastBackupTime)%Z in
    errors <-
      (if fgtb_Z (total_seconds timeDiff) LAST_BACKUP_THRESHOLD then
         match Agent.backups agent with
         | [] =>
             (* agent['backups'][0] raises IndexError, handled here *)
             report_asset device_name agent_name
               (msg_no_backups agent_name) errors
         | b :: _ =>
             if negb (String.eqb (Backup.status b) "success") then
               report_asset device_name agent_name
                 (msg_backup_failed agent_name
                    (display_time (PyFloat (total_seconds timeDiff))
                       granularity_default)
                    (Backup.errorMessage b))
                 errors
             else ret errors
         end
       else ret errors) ;;
    (* time since the latest off-site point *)
    errors <-
      match truthy (Agent.latestOffsite agent) with
      | None =>
          report_asset device_name agent_name (msg_no_offsite agent_name) errors
      | Some latestOffsite =>
          lastOffsite <- fromtimestamp latestOffsite ;;
          let timeDiff := (now - lastOffsite)%Z in
          if fgtb_Z (total_seconds timeDiff) LAST_OFFSITE_THRESHOLD then
            report_asset device_name agent_name
              (msg_offsite_old agent_name
                 (display_time (PyFloat (total_seconds timeDiff))
                    granularity_default))
              errors
          else ret errors
      end ;;
    (* time of the last screenshot *)
    errors <-
      (if String.eqb (Agent.type agent) "agent" then
         match truthy (Agent.lastScreenshotAttempt agent) with
         | Some lastScreenshotAttempt =>
             last_screenshot <- fromtimestamp lastScreenshotAttempt ;;
             let timeDiff := (now - last_screenshot)%Z in
             if fgtb_Z (total_seconds timeDiff) LAST_SCREENSHOT_THRESHOLD then
               report_asset device_name agent_name
                 (msg_screenshot_old agent_name
                    (display_time (PyFloat (total_seconds timeDiff))
                       granularity_default))
                 errors
             else ret errors
         | None => ret errors
         end
       else ret errors) ;;
    (* status of the last screenshot attempt: [== False] *)
    if String.eqb (Agent.type agent) "agent"
       && match Agent.lastScreenshotAttemptStatus agent with
          | Some false => true
          | _ => false
          end
    then
      report_asset device_name agent_name
        (msg_screenshot_failed agent_name) errors
    else ret errors.

(** *** Main loop: one device *)

(** [available_pct], that is
    [float("{0:.2f}".format(storage_used / total_space)) * 100]: the division
    raises on a zero divisor. *)
Definition storage_pct (storage_used total_space : Z) : M float :=
  if (total_space =? 0)%Z then raise ZeroDivisionError
  else
    ret (fmul (float_of_hundredths (format_2f (rnd_div storage_used total_space)))
              (float_of_Z 100)).

(** The AGENT CHECKS part of the loop body: fetch the assets of the
    device, check each of them, and report the lines of the device if there
    are any. *)
Definition agent_checks (device : Device.t) (errors : list pystr) : M unit :=
  let device_name := Device.name device in
  (* query the API with the device S/N to get asset info *)
  assetDetails <- getAssetDetails (Device.serialNumber device) ;;
  errors <- for_fold assetDetails (check_agent device_name) errors ;;
  match errors with
  | [] => ret tt
  | _ :: _ => printErrors errors device_name
  end.

(** The body of [for device in devices]: the DEVICE CHECKS part, then
    [agent_checks] unless the device is hidden or offline. *)
Definition process_device (device : Device.t) : M unit :=
  if Device.hidden device then ret tt   (* skip hidden devices *)
  else
    let device_name := Device.name device in
    modify (set_results_data (<[device_name := mkDeviceResult [] ∅]>)) ;;;
    let errors : list pystr := [] in
    (* last check-in time *)
    let t := (str_take 22 (Device.lastSeenDate device)
              ++ str_drop 23 (Device.lastSeenDate device))%string in
    device_checkin <-
      match strptime t with
      | Some i => ret i
      | None => raise ValueError
      end ;;
    now <- datetime_now ;;
    let timeDiff := (now - device_checkin)%Z in
    (* active tickets *)
    errors <-
      (if negb (Device.activeTickets device =? 0)%Z then
         report_device device_name
           (msg_tickets (Device.activeTickets device)) errors
       else ret errors) ;;
    if fgeb_Z (total_seconds timeDiff) CHECKIN_LIMIT then
      errors <-
        report_device device_name
          (msg_checkin (display_time (PyFloat (total_seconds timeDiff))
                          granularity_default))
          errors ;;
      printErrors errors device_name
      (* continue: the device is offline, go to the next device *)
    else
      (* local disk usage *)
      let storage_available := Z.of_N (Device.localStorageAvailable device) in
      let storage_used := Z.of_N (Device.localStorageUsed device) in
      let total_space := (storage_available + storage_used)%Z in
      available_pct <- storage_pct storage_used total_space ;;
      errors <-
        (if fgtb_Z available_pct STORAGE_PCT_THRESHOLD then
           report_device device_name (msg_storage available_pct) errors
         else ret errors) ;;
      agent_checks device errors.

(** *** The script, top to bottom

    [argv0] is [sys.argv[0]] and [args] the rest of [sys.argv]. *)
Definition main (argv0 : string) (args : list string) : M unit :=
  if (List.length args <? 2)%nat then
    print (Lit (nl ++ "[!] ERROR - Please provide the API username & password!")) ;;;
    print (Fmt ("    Usage:  python3 {} <API username> <API password>" ++ nl)
               [AStr argv0]) ;;;
    raise (SystemExit 1)
  else
    Datto_init ;;;
    devices <- getDevices ;;
    for_each devices process_device ;;;
    sessionClose ;;;
    (if SEND_EMAIL then email_report else ret tt) ;;;
    raise (SystemExit 0).

End Script.

(** * Vocabulary of the statements

    Readings of the specification, observations of the state and sample
    data that the theorems below are stated with. *)

Local Open Scope Z_scope.

(** ** Floats *)

(** [ge_pow2 n d e] reads [2 ^ e <= n / d]. *)
Definition ge_pow2 (n d e : Z) : Prop := d * pow2 e <= n * pow2 (- e).

(** The percentage the script derives from a ratio of [k] hundredths. *)
Definition pct_of_hundredths (k : Z) : float :=
  fmul (float_of_hundredths k) (float_of_Z 100).

(** The exact threshold of the storage check: the midpoint of the two
    binary64 numbers around 0.955, as a fraction over [2 ^ 54]. *)
Definition storage_cut_num : Z := 17203750576555295.
Definition storage_cut_den : Z := 18014398509481984.

(** The percentage in the specification's words:
    [used / (used + available) * 100] rounded to 2 decimals, counted in
    hundredths of a percent. *)
Definition spec_storage_pct (used available : Z) : Z :=
  rhe_div (used * 100 * 100) (used + available).

(** ** Elapsed times in the specification's words

    The magnitudes of the five units of a number of seconds; the two largest
    units whose magnitude is not zero, each written with the singular name
    when its magnitude is 1. *)
Definition unit_values (s : Z) : list (Z * (string * string)) :=
  [ (s / 604800, ("week", "weeks"));
    (s mod 604800 / 86400, ("day", "days"));
    (s mod 86400 / 3600, ("hour", "hours"));
    (s mod 3600 / 60, ("minute", "minutes"));
    (s mod 60, ("second", "seconds")) ]%string.

Definition render_unit (u : Z * (string * string)) : string :=
  (str_of_Z (fst u) ++ " "
   ++ (if (fst u =? 1)%Z then fst (snd u) else snd (snd u)))%string.

Definition two_largest_units (s : Z) : string :=
  String.concat ", "
    (map render_unit
       (firstn 2 (List.filter (fun u => negb (fst u =? 0)) (unit_values s)))).

(** ** The lines of one asset

    The lines [check_agent] adds for an asset that is neither archived nor
    paused, evaluated at the instant [now], one definition per block of the
    loop body ([check_agent_ok] relates them to the code). *)
Definition backup_findings (now : Z) (a : Agent.t) : list pystr :=
  let timeDiff := now - Agent.lastSnapshot a * us_per_second in
  if fgtb_Z (total_seconds timeDiff) LAST_BACKUP_THRESHOLD then
    match Agent.backups a with
    | [] => [msg_no_backups (Agent.name a)]
    | b :: _ =>
        if negb (String.eqb (Backup.status b) "success") then
          [msg_backup_failed (Agent.name a)
             (display_time (PyFloat (total_seconds timeDiff)) granularity_default)
             (Backup.errorMessage b)]
        else []
    end
  else [].

Definition offsite_findings (now : Z) (a : Agent.t) : list pystr :=
  match truthy (Agent.latestOffsite a) with
  | None => [msg_no_offsite (Agent.name a)]
  | Some ts =>
      let timeDiff := now - ts * us_per_second in
      if fgtb_Z (total_seconds timeDiff) LAST_OFFSITE_THRESHOLD then
        [msg_offsite_old (Agent.name a)
           (display_time (PyFloat (total_seconds timeDiff)) granularity_default)]
      else []
  end.

Definition screenshot_findings (now : Z) (a : Agent.t) : list pystr :=
  if String.eqb (Agent.type a) "agent" then
    match truthy (Agent.lastScreenshotAttempt a) with
    | Some ts =>
        let timeDiff := now - ts * us_per_second in
        if fgtb_Z (total_seconds timeDiff) LAST_SCREENSHOT_THRESHOLD then
          [msg_screenshot_old (Agent.name a)
             (display_time (PyFloat (total_seconds timeDiff)) granularity_default)]
        else []
    | None => []
    end
  else [].

Definition screenshot_status_findings (a : Agent.t) : list pystr :=
  if String.eqb (Agent.type a) "agent"
     && match Agent.lastScreenshotAttemptStatus a with
        | Some false => true
        | _ => false
        end
  then [msg_screenshot_failed (Agent.name a)]
  else [].

Definition agent_findings (now : Z) (a : Agent.t) : list pystr :=
  (backup_findings now a ++ offsite_findings now a
   ++ screenshot_findings now a ++ screenshot_status_findings a)%list.

(** The lines of the assets of a device, in order; [k] counts the readings of
    the clock so far (each asset that is not skipped reads it once). *)
Fixpoint agents_findings (clock : nat -> Z) (k : nat) (l : list Agent.t)
  : list pystr :=
  match l with
  | [] => []
  | a :: l' =>
      if Agent.isArchived a || Agent.isPaused a
      then agents_findings clock k l'
      else (agent_findings (clock k) a ++ agents_findings clock (S k) l')%list
  end.

(** Every timestamp of the asset is an instant that [datetime] represents,
    so that [fromtimestamp] does not raise on it. *)
Definition valid_opt_timestamp (x : option Z) : bool :=
  match x with
  | Some ts => valid_timestamp ts
  | None => true
  end.

Definition agent_timestamps_valid (a : Agent.t) : bool :=
  valid_timestamp (Agent.lastSnapshot a)
  && valid_opt_timestamp (Agent.latestOffsite a)
  && valid_opt_timestamp (Agent.lastScreenshotAttempt a).

(** The asset is skipped, or its timestamps are valid. *)
Definition agent_evaluable (a : Agent.t) : bool :=
  Agent.isArchived a || Agent.isPaused a || agent_timestamps_valid a.

(** The lines that come from a check on an asset, by their template. *)
Definition is_asset_finding (line : pystr) : bool :=
  match line with
  | Fmt template _ =>
      existsb (String.eqb template)
        [ " [-]   {}: does not seem to have any backups!";
          " [!]   {}: Last scheduled backup failed; last backup was {} ago"
            ++ nl ++ "       -->  " ++ dq ++ "{}" ++ dq;
          " [-]   {}: no off-site backup points";
          " [!]   {}: Last off-site was {} ago";
          " [!]   {}: Last screenshot attempt was {} ago!";
          " [-]   {}: Last screenshot attempt failed!" ]%string
  | Lit _ => false
  end.

(** ** The lines of one device *)

(** The instant the script parses out of [lastSeenDate]. *)
Definition checkin_of (strptime : string -> option Z) (d : Device.t) : option Z :=
  strptime (str_take 22 (Device.lastSeenDate d)
            ++ str_drop 23 (Device.lastSeenDate d))%string.

(** The ticket line of a device, if any. *)
Definition ticket_findings (d : Device.t) : list pystr :=
  if Device.activeTickets d =? 0 then []
  else [msg_tickets (Device.activeTickets d)].

(** The storage line of a device with some storage, if any. *)
Definition storage_findings (d : Device.t) : list pystr :=
  let storage_used := Z.of_N (Device.localStorageUsed d) in
  let total_space := Z.of_N (Device.localStorageAvailable d) + storage_used in
  let available_pct :=
    pct_of_hundredths (format_2f (rnd_div storage_used total_space)) in
  if fgtb_Z available_pct STORAGE_PCT_THRESHOLD
  then [msg_storage available_pct] else [].

(** The critical check-in lines, by their template. *)
Definition is_checkin_finding (line : pystr) : bool :=
  match line with
  | Fmt template _ =>
      String.eqb template " [!] CRITICAL -  Last checkin was {} ago!"
  | Lit _ => false
  end.

(** The device-level lines recorded in [results_data]. *)
Definition errors_at (device_name : string) (rd : gmap string device_result)
  : list pystr :=
  match rd !! device_name with
  | Some r => errors r
  | None => []
  end.

Definition device_errors (device_name : string) (st : state) : list pystr :=
  errors_at device_name (results_data st).

(** Computations that never touch the device-level lines of
    [results_data], also when they raise. *)
Definition keeps_device_errors {A} (m : M A) : Prop :=
  forall n st, device_errors n (snd (m st)) = device_errors n st.

(** What the checks on assets leave untouched in the state. *)
Definition same_report (st st' : state) : Prop :=
  MSG_BODY st' = MSG_BODY st /\ stdout st' = stdout st /\
  outbox st' = outbox st /\ session_open st' = session_open st /\
  requests st' = requests st.

(** A visible device that triggers no findings, evaluated when the clock has
    been read [k] times: its check-in parses and is recent, it has no active
    ticket, it has storage and no storage line, every asset can be evaluated
    and none has a line. *)
Definition device_quiet (strptime : string -> option Z) (clock : nat -> Z)
  (api_assets : string -> list Agent.t) (k : nat) (d : Device.t) : Prop :=
  Device.hidden d = false
  /\ (exists checkin,
        checkin_of strptime d = Some checkin
        /\ clock k - checkin < CHECKIN_LIMIT * us_per_second)
  /\ (0 < Device.localStorageAvailable d + Device.localStorageUsed d)%N
  /\ ticket_findings d = []
  /\ storage_findings d = []
  /\ forallb agent_evaluable (api_assets (Device.serialNumber d)) = true
  /\ agents_findings clock (S k) (api_assets (Device.serialNumber d)) = [].

(** ** The run and the device listing *)

(** The mail of a run whose report buffer is empty. *)
Definition empty_report_mail : mail :=
  mkMail "Daily Datto Check" "datto-check@example.com" "username@example.com" [].

(** The order of the sort: by upper-cased name. *)
Definition key_le (str_upper : string -> string) (a b : Device.t) : Prop :=
  String.leb (sort_key str_upper a) (sort_key str_upper b) = true.

(** The items of a page, for the pages that are result pages. *)
Definition page_items (api_page : Z -> api_response) (page : Z) : list Device.t :=
  match api_page page with
  | ApiPage items _ => items
  | ApiError _ _ => []
  end.

Definition is_result_page (r : api_response) : bool :=
  match r with
  | ApiPage _ _ => true
  | ApiError _ _ => false
  end.

(** ** Sample data *)

(** A parser for the one date the samples use, 2023-11-14T22:13:20Z. *)
Definition strptime_sample (t : string) : option Z :=
  if String.eqb t "2023-11-14T22:13:20+0000"
  then Some (1700000000 * us_per_second) else None.

(** [str.upper] on ASCII strings. *)
Definition upper_ascii (c : ascii) : ascii :=
  let n := nat_of_ascii c in
  if ((97 <=? n) && (n <=? 122))%nat then ascii_of_nat (n - 32) else c.

Fixpoint str_upper_ascii (s : string) : string :=
  match s with
  | EmptyString => EmptyString
  | String c s' => String (upper_ascii c) (str_upper_ascii s')
  end.

(** A clock that stands still ten minutes after that date, and one that
    stands still a day after it. *)
Definition clock_fixed (_ : nat) : Z := 1700000600 * us_per_second.
Definition clock_late (_ : nat) : Z := 1700086400 * us_per_second.

(** Assets: one of type "agent" whose last screenshot attempt is dated 0, the
    epoch; one without backup history and off-site point; one whose off-site
    point is dated 0; one with a stale and failed screenshot; a healthy one;
    a paused one. *)
Definition agent_screenshot_epoch : Agent.t :=
  Agent.mk "srv01" false false 1700000000
    [Backup.mk "success" ""] (Some 1700000000) "agent" (Some 0) (Some true).

Definition agent_no_history : Agent.t :=
  Agent.mk "srv02" false false 1699000000 [] None "agent" None None.

Definition agent_epoch_offsite : Agent.t :=
  Agent.mk "srv03" false false 1700000000
    [Backup.mk "success" ""] (Some 0) "share" None None.

Definition agent_stale_screenshot : Agent.t :=
  Agent.mk "srv04" false false 1700000000
    [Backup.mk "success" ""] (Some 1700000000) "agent" (Some 1699000000)
    (Some false).

Definition agent_healthy : Agent.t :=
  Agent.mk "srv05" false false 1700000000
    [Backup.mk "success" ""] (Some 1700000000) "agent" (Some 1700000000)
    (Some true).

Definition agent_paused : Agent.t :=
  Agent.mk "srv06" false true 0 [] None "agent" None (Some false).

(** Assets with a timestamp that [datetime] does not represent: an off-site
    point in milliseconds, a snapshot in the year 10000, a snapshot of
    [10 ^ 18] seconds. *)
Definition agent_offsite_milliseconds : Agent.t :=
  Agent.mk "srv07" false false 1699000000 [] (Some 1700000000000) "agent"
    None None.

Definition agent_snapshot_year_10000 : Agent.t :=
  Agent.mk "srv08" false false 253402300800 [] None "agent" None None.

Definition agent_epoch_offsite_bad_snapshot : Agent.t :=
  Agent.mk "srv09" false false (10 ^ 18) [] (Some 0) "share" None None.

Definition assets_sample (_ : string) : list Agent.t :=
  [agent_healthy; agent_paused].

(** Devices: one with an active ticket and 96% of its storage used; one
    without tickets, with the given storage; a hidden one. *)
Definition device_offline : Device.t :=
  Device.mk "NAS-01" "SN0001" false "2023-11-14T22:13:20+00:00" 1 4 96.

Definition device_online (available used : N) : Device.t :=
  Device.mk "NAS-02" "SN0002" false "2023-11-14T22:13:20+00:00" 0
    available used.

Definition device_hidden : Device.t :=
  Device.mk "archive" "SN0003" true "2020-01-01T00:00:00+00:00" 5 0 0.

(** Listings: in one page, and in two pages. *)
Definition page_sample (_ : Z) : api_response :=
  ApiPage [device_online 6 94; device_hidden] 1.

Definition two_pages (page : Z) : api_response :=
  if page =? 1 then
    ApiPage [device_online 6 94; device_hidden] 2
  else if page =? 2 then
    ApiPage [device_offline] 2
  else ApiError 404 "not found".

(** ** Observations and exceptions of a computation *)

(** [keeps f m]: the computation [m] leaves the observation [f] of the state
    as it found it, whether it returns or raises. *)
Definition keeps {X A} (f : state -> X) (m : M A) : Prop :=
  forall st, f (snd (m st)) = f st.

(** [raises_only P m]: every exception [m] raises satisfies [P]. *)
Definition raises_only {A} (P : exn -> Prop) (m : M A) : Prop :=
  forall st e, fst (m st) = Raise e -> P e.

(** The observations that the checks on devices and assets cannot change:
    they are blind to [results_data] and to the clock. *)
Definition blind_to_results_and_clock {X} (f : state -> X) : Prop :=
  (forall g st, f (set_results_data g st) = f st)
  /\ (forall g st, f (set_clock_reads g st) = f st).

(** ** Assets *)

(** The assets the loop does not skip. *)
Definition agent_active (a : Agent.t) : bool :=
  negb (Agent.isArchived a || Agent.isPaused a).

(** [results_data] once the asset list of [agent_name] under [device_name]
    holds [lines]. *)
Definition record_lines (device_name agent_name : string) (lines : list pystr)
  (rd : gmap string device_result) : gmap string device_result :=
  alter (fun r => mkDeviceResult (errors r) (<[agent_name := lines]> (assets r)))
        device_name rd.

(** ** Devices *)

(** The device-level lines of a visible device whose check-in parses, read at
    the instant [now]: the ticket line, then the check-in line when the
    device is offline, the storage line otherwise (none without storage). *)
Definition device_level_findings (now checkin : Z) (d : Device.t) : list pystr :=
  (ticket_findings d
   ++ if CHECKIN_LIMIT * us_per_second <=? now - checkin then
        [msg_checkin
           (display_time (PyFloat (total_seconds (now - checkin)))
              granularity_default)]
      else if (Device.localStorageAvailable d + Device.localStorageUsed d =? 0)%N
           then []
           else storage_findings d)%list.

(** The observations that no part of the main loop can change: they are
    blind to everything but the mail and the session. *)
Definition blind_to_main_loop {X} (f : state -> X) : Prop :=
  blind_to_results_and_clock f
  /\ (forall g st, f (set_MSG_BODY g st) = f st)
  /\ (forall g st, f (set_stdout g st) = f st)
  /\ (forall g st, f (set_requests g st) = f st).

(** The exceptions of a conversion of a timestamp. *)
Definition timestamp_exception (e : exn) : Prop :=
  e = ValueError \/ e = OverflowError \/ e = OSError.

(** The exceptions of the pass over a device: those of the conversions of
    the check-in date and of the timestamps, and the division by zero. *)
Definition device_exception (e : exn) : Prop :=
  timestamp_exception e \/ e = ZeroDivisionError.

(** ** Runs *)

(** The mail of a run whose report buffer is [body]. *)
Definition report_mail (body : list pystr) : mail :=
  mkMail "Daily Datto Check" "datto-check@example.com" "username@example.com"
    body.

(** ** Exceptions of a pass *)

(** The timestamps that the checks on an asset hand to [fromtimestamp]: the
    last snapshot always, the latest off-site point when it is truthy, the
    last screenshot attempt when the asset is of type agent and the attempt
    is truthy. *)
Definition converted_timestamps (a : Agent.t) : list Z :=
  (Agent.lastSnapshot a
   :: match truthy (Agent.latestOffsite a) with
      | Some ts => [ts]
      | None => []
      end
   ++ (if String.eqb (Agent.type a) "agent" then
         match truthy (Agent.lastScreenshotAttempt a) with
         | Some ts => [ts]
         | None => []
         end
       else []))%list.

(** The exception of the first conversion that fails, if any, when the
    timestamps of [l] are converted in order. *)
Fixpoint first_timestamp_error (l : list Z) : option exn :=
  match l with
  | [] => None
  | ts :: l' =>
      if valid_timestamp ts then first_timestamp_error l'
      else Some (fromtimestamp_error ts)
  end.

(** The exception that ends the checks on an asset, if any: a skipped asset
    converts nothing. *)
Definition agent_error (a : Agent.t) : option exn :=
  if agent_active a then first_timestamp_error (converted_timestamps a)
  else None.

(** The exception that ends the loop over the assets of a device, if any:
    that of the first asset whose checks raise. *)
Fixpoint assets_error (l : list Agent.t) : option exn :=
  match l with
  | [] => None
  | a :: l' =>
      match agent_error a with
      | Some e => Some e
      | None => assets_error l'
      end
  end.

(** The lines of a device whose pass reaches the end of the loop over its
    assets, the clock having been read [k] times before the pass: the ticket
    line, the storage line, the lines of the assets. *)
Definition device_lines (clock : nat -> Z)
  (api_assets : string -> list Agent.t) (k : nat) (d : Device.t)
  : list pystr :=
  (ticket_findings d ++ storage_findings d
   ++ agents_findings clock (S k) (api_assets (Device.serialNumber d)))%list.

(** What [printErrors] is called with at the end of a pass: nothing is
    added for a device without lines. *)
Definition device_block (device_name : string) (lines : list pystr)
  : list pystr :=
  match lines with
  | [] => []
  | _ :: _ => (msg_device_header device_name :: lines ++ [Lit nl])%list
  end.

Definition device_printed (device_name : string) (lines : list pystr)
  : list pystr :=
  match lines with
  | [] => []
  | _ :: _ => msg_device_header device_name :: lines
  end.

(** ** Blocks of the report *)

(** The block that [printErrors] adds to the report buffer for the device
    named [fst b] with the lines [snd b]. *)
Definition report_block (b : string * list pystr) : list pystr :=
  (msg_device_header (fst b) :: snd b ++ [Lit nl])%list.


(** * Properties *)

(** ** Rounding to the nearest integer *)

Local Open Scope Z_scope.

Lemma mul_le_pos_r (x y b : Z) : 0 < b -> x <= y -> x * b <= y * b.
Proof. intros. nia. Qed.

Lemma rhe_div_ge (a b c : Z) :
  0 < b ->
  c <= rhe_div a b <->
  (2 * c - 1) * b < 2 * a \/ ((2 * c - 1) * b = 2 * a /\ Z.even c = true).
Proof.
  intros Hb. unfold rhe_div.
  pose proof (Z.div_mod a b ltac:(lia)) as Hdm.
  pose proof (Z.mod_pos_bound a b Hb) as Hr.
  set (q := a / b) in *. set (r := a mod b) in *.
  assert (Hcase : c <= q \/ c = q + 1 \/ q + 2 <= c) by lia.
  assert (Hodd : Z.even (q + 1) = negb (Z.even q))
    by (rewrite Z.even_add; destruct (Z.even q); reflexivity).
  destruct Hcase as [Hc | [-> | Hc]].
  - pose proof (mul_le_pos_r c q b Hb Hc) as Hm.
    split; [intros _; left; lia |].
    intros _. destruct (2 * r ?= b); [destruct (Z.even q) | |]; lia.
  - rewrite Hodd.
    destruct (Z.compare_spec (2 * r) b) as [He | Hl | Hg];
      [destruct (Z.even q) |..]; simpl; split; intros H; lia.
  - pose proof (mul_le_pos_r (q + 2) c b Hb Hc) as Hm.
    split.
    + destruct (2 * r ?= b); [destruct (Z.even q) | |]; lia.
    + intros [H | [H _]]; lia.
Qed.

Lemma rhe_div_le (a b c : Z) :
  0 < b ->
  rhe_div a b <= c <->
  2 * a < (2 * c + 1) * b \/ (2 * a = (2 * c + 1) * b /\ Z.even c = true).
Proof.
  intros Hb. unfold rhe_div.
  pose proof (Z.div_mod a b ltac:(lia)) as Hdm.
  pose proof (Z.mod_pos_bound a b Hb) as Hr.
  set (q := a / b) in *. set (r := a mod b) in *.
  assert (Hcase : c <= q - 1 \/ c = q \/ q + 1 <= c) by lia.
  destruct Hcase as [Hc | [-> | Hc]].
  - pose proof (mul_le_pos_r c (q - 1) b Hb Hc) as Hm.
    split.
    + destruct (2 * r ?= b); [destruct (Z.even q) | |]; lia.
    + intros [H | [H _]]; lia.
  - destruct (Z.compare_spec (2 * r) b) as [He | Hl | Hg];
      [destruct (Z.even q) |..]; simpl; split; intros H; lia.
  - pose proof (mul_le_pos_r (q + 1) c b Hb Hc) as Hm.
    split; [intros _; left; lia |].
    intros _. destruct (2 * r ?= b); [destruct (Z.even q) | |]; lia.
Qed.

Lemma rhe_div_exact (c b : Z) : 0 < b -> rhe_div (c * b) b = c.
Proof.
  intros Hb. apply Z.le_antisymm.
  - apply rhe_div_le; [exact Hb |]. left. lia.
  - apply rhe_div_ge; [exact Hb |]. left. lia.
Qed.

Lemma rhe_div_mono (a a' b : Z) :
  0 < b -> a <= a' -> rhe_div a b <= rhe_div a' b.
Proof.
  intros Hb Ha.
  apply rhe_div_ge; [exact Hb |].
  destruct (proj1 (rhe_div_ge a b (rhe_div a b) Hb) ltac:(lia)) as [H | [H Hev]].
  - left. lia.
  - destruct (Z.eq_dec a a') as [<- | Hne]; [right; auto | left; lia].
Qed.

(** ** Binades *)

Lemma pow2_pos (k : Z) : 0 < pow2 k.
Proof. unfold pow2. apply Z.pow_pos_nonneg; lia. Qed.

Lemma pow2_nonpos (k : Z) : k <= 0 -> pow2 k = 1.
Proof. intros H. unfold pow2. rewrite Z.max_l by lia. reflexivity. Qed.

Lemma pow2_nonneg (k : Z) : 0 <= k -> pow2 k = 2 ^ k.
Proof. intros H. unfold pow2. rewrite Z.max_r by lia. reflexivity. Qed.

Lemma pow2_add (a b : Z) : 0 <= a -> 0 <= b -> pow2 (a + b) = pow2 a * pow2 b.
Proof.
  intros Ha Hb. rewrite !pow2_nonneg by lia. apply Z.pow_add_r; lia.
Qed.

Lemma pow2_succ (k : Z) : 0 <= k -> pow2 (k + 1) = 2 * pow2 k.
Proof. intros H. rewrite pow2_add by lia. change (pow2 1) with 2. lia. Qed.

Lemma pow2_le (a b : Z) : a <= b -> pow2 a <= pow2 b.
Proof. intros H. unfold pow2. apply Z.pow_le_mono_r; lia. Qed.

Lemma ge_pow2_pred (n d e : Z) :
  0 < n -> 0 < d -> ge_pow2 n d (e + 1) -> ge_pow2 n d e.
Proof.
  unfold ge_pow2. intros Hn Hd H.
  destruct (Z_le_gt_dec 0 e) as [He | He].
  - rewrite pow2_succ in H by lia.
    rewrite (pow2_nonpos (- (e + 1))) in H by lia.
    rewrite (pow2_nonpos (- e)) by lia.
    pose proof (pow2_pos e). nia.
  - rewrite (pow2_nonpos (e + 1)) in H by lia.
    rewrite (pow2_nonpos e) by lia.
    replace (- e) with (- (e + 1) + 1) by lia.
    rewrite pow2_succ by lia.
    pose proof (pow2_pos (- (e + 1))). nia.
Qed.

Lemma ge_pow2_antitone (n d e e' : Z) :
  0 < n -> 0 < d -> e <= e' -> ge_pow2 n d e' -> ge_pow2 n d e.
Proof.
  intros Hn Hd Hle.
  replace e' with (e + Z.of_nat (Z.to_nat (e' - e))) by lia.
  induction (Z.to_nat (e' - e)) as [| k IH].
  - rewrite Z.add_0_r. auto.
  - intros H. apply IH. apply ge_pow2_pred; try assumption.
    replace (e + Z.of_nat k + 1) with (e + Z.of_nat (S k)) by lia. exact H.
Qed.

Lemma floor_log2_ratio_spec (n d : Z) :
  0 < n -> 0 < d ->
  ge_pow2 n d (floor_log2_ratio n d) /\
  ~ ge_pow2 n d (floor_log2_ratio n d + 1).
Proof.
  intros Hn Hd. unfold floor_log2_ratio, ge_pow2.
  pose proof (Z.log2_spec n Hn) as [Hn1 Hn2].
  pose proof (Z.log2_spec d Hd) as [Hd1 Hd2].
  pose proof (Z.log2_nonneg n) as Hln.
  pose proof (Z.log2_nonneg d) as Hld.
  set (ln := Z.log2 n) in *. set (ld := Z.log2 d) in *.
  rewrite <- Z.add_1_r in Hn2, Hd2.
  destruct (Z.ltb_spec (n * pow2 (- (ln - ld))) (d * pow2 (ln - ld))) as [Ht | Ht].
  - replace (ln - ld - 1 + 1) with (ln - ld) by lia.
    split; [| lia].
    destruct (Z_le_gt_dec 1 (ln - ld)) as [He | He].
    + rewrite (pow2_nonpos (- (ln - ld - 1))) by lia.
      rewrite pow2_nonneg by lia.
      assert (2 ^ ln = 2 ^ (ld + 1) * 2 ^ (ln - ld - 1)) as Hp
        by (rewrite <- Z.pow_add_r by lia; f_equal; lia).
      pose proof (Z.pow_pos_nonneg 2 (ln - ld - 1) ltac:(lia) ltac:(lia)).
      nia.
    + rewrite (pow2_nonpos (ln - ld - 1)) by lia.
      rewrite pow2_nonneg by lia.
      assert (2 ^ (ld + 1) = 2 ^ ln * 2 ^ (- (ln - ld - 1))) as Hp
        by (rewrite <- Z.pow_add_r by lia; f_equal; lia).
      pose proof (Z.pow_pos_nonneg 2 (- (ln - ld - 1)) ltac:(lia) ltac:(lia)).
      nia.
  - split; [lia |].
    destruct (Z_le_gt_dec 0 (ln - ld)) as [He | He].
    + rewrite (pow2_nonpos (- (ln - ld + 1))) by lia.
      rewrite pow2_nonneg by lia.
      assert (2 ^ (ln + 1) = 2 ^ ld * 2 ^ (ln - ld + 1)) as Hp
        by (rewrite <- Z.pow_add_r by lia; f_equal; lia).
      pose proof (Z.pow_pos_nonneg 2 (ln - ld + 1) ltac:(lia) ltac:(lia)).
      nia.
    + rewrite (pow2_nonpos (ln - ld + 1)) by lia.
      rewrite pow2_nonneg by lia.
      assert (2 ^ ld = 2 ^ (ln + 1) * 2 ^ (- (ln - ld + 1))) as Hp
        by (rewrite <- Z.pow_add_r by lia; f_equal; lia).
      pose proof (Z.pow_pos_nonneg 2 (- (ln - ld + 1)) ltac:(lia) ltac:(lia)).
      nia.
Qed.

Lemma floor_log2_ratio_unique (n d e : Z) :
  0 < n -> 0 < d ->
  ge_pow2 n d e -> ~ ge_pow2 n d (e + 1) -> floor_log2_ratio n d = e.
Proof.
  intros Hn Hd Hge Hlt.
  destruct (floor_log2_ratio_spec n d Hn Hd) as [Hge' Hlt'].
  destruct (Z.lt_trichotomy (floor_log2_ratio n d) e) as [H | [H | H]]; [| exact H |].
  - exfalso. apply Hlt'.
    apply (ge_pow2_antitone n d _ e); auto. lia.
  - exfalso. apply Hlt.
    apply (ge_pow2_antitone n d _ (floor_log2_ratio n d)); auto. lia.
Qed.

(** ** The storage ratio as a float *)

Lemma rnd_pos_half_one (n d : Z) :
  0 < n -> d <= 2 * n -> n < d ->
  rnd_pos n d = mkFloat (rhe_div (n * 2 ^ 53) d) (- 53).
Proof.
  intros Hn Hd1 Hd2. unfold rnd_pos.
  rewrite (floor_log2_ratio_unique n d (- 1)); try lia.
  - change (Z.max (- 1 - (prec - 1)) emin) with (- 53).
    change (pow2 (- - 53)) with (2 ^ 53). change (pow2 (- 53)) with 1.
    rewrite Z.mul_1_r. reflexivity.
  - unfold ge_pow2. change (pow2 (- 1)) with 1. change (pow2 (- - 1)) with 2. lia.
  - unfold ge_pow2. change (pow2 (- 1 + 1)) with 1.
    change (pow2 (- (- 1 + 1))) with 1. lia.
Qed.

Lemma rnd_pos_one (n : Z) : 0 < n -> rnd_pos n n = mkFloat (2 ^ 52) (- 52).
Proof.
  intros Hn. unfold rnd_pos.
  rewrite (floor_log2_ratio_unique n n 0); try lia.
  - change (Z.max (0 - (prec - 1)) emin) with (- 52).
    change (pow2 (- - 52)) with (2 ^ 52). change (pow2 (- 52)) with 1.
    rewrite Z.mul_1_r, (Z.mul_comm n). rewrite rhe_div_exact by lia. reflexivity.
  - unfold ge_pow2. change (pow2 0) with 1. change (pow2 (- 0)) with 1. lia.
  - unfold ge_pow2. change (pow2 (0 + 1)) with 2.
    change (pow2 (- (0 + 1))) with 1. lia.
Qed.

Lemma rnd_pos_small (n d : Z) :
  0 < n -> 2 * n < d ->
  fexp (rnd_pos n d) <= - 54 /\
  0 <= fnum (rnd_pos n d) /\
  2 * fnum (rnd_pos n d) <= pow2 (- fexp (rnd_pos n d)).
Proof.
  intros Hn Hd. unfold rnd_pos. cbn [fexp fnum].
  destruct (floor_log2_ratio_spec n d ltac:(lia) ltac:(lia)) as [Hge _].
  set (e := floor_log2_ratio n d) in *.
  assert (He : e <= - 2).
  { destruct (Z_le_gt_dec e (- 2)) as [H | H]; [exact H | exfalso].
    apply (ge_pow2_antitone n d (- 1) e) in Hge; try lia.
    unfold ge_pow2 in Hge. change (pow2 (- 1)) with 1 in Hge.
    change (pow2 (- - 1)) with 2 in Hge. lia. }
  set (E := Z.max (e - (prec - 1)) emin).
  assert (HE : E <= - 54) by (unfold E, prec, emin; lia).
  rewrite (pow2_nonpos E) by lia. rewrite Z.mul_1_r.
  replace (- E) with (- E - 1 + 1) by lia. rewrite pow2_succ by lia.
  pose proof (pow2_pos (- E - 1)) as HP. set (P := pow2 (- E - 1)) in *.
  split; [exact HE |]. split.
  - apply rhe_div_ge; [lia |]. left. nia.
  - enough (rhe_div (n * (2 * P)) d <= P) by lia.
    apply rhe_div_le; [lia |]. left. nia.
Qed.

Lemma pct_of_hundredths_gt (k : Z) :
  0 <= k <= 100 ->
  fgtb_Z (pct_of_hundredths k) STORAGE_PCT_THRESHOLD = (96 <=? k).
Proof.
  intros Hk.
  assert (Htab : forallb
                   (fun i => Bool.eqb (fgtb_Z (pct_of_hundredths (Z.of_nat i))
                                          STORAGE_PCT_THRESHOLD)
                                      (96 <=? Z.of_nat i))
                   (seq 0 101) = true) by (vm_compute; reflexivity).
  rewrite forallb_forall in Htab.
  specialize (Htab (Z.to_nat k)).
  rewrite Z2Nat.id in Htab by lia.
  apply Bool.eqb_prop, Htab, in_seq. lia.
Qed.

Lemma format_2f_ratio (n d : Z) :
  0 <= n <= d -> 0 < d ->
  0 <= format_2f (rnd_div n d) <= 100 /\
  (96 <= format_2f (rnd_div n d) <-> storage_cut_num * d <= storage_cut_den * n).
Proof.
  intros Hn Hd. unfold storage_cut_num, storage_cut_den.
  unfold rnd_div. destruct (Z.compare_spec n 0) as [-> | Hlt | Hgt]; [| lia |].
  - vm_compute format_2f. lia.
  - destruct (Z.eq_dec n d) as [-> | Hne].
    { rewrite rnd_pos_one by lia. vm_compute format_2f. lia. }
    destruct (Z_le_gt_dec d (2 * n)) as [Hh | Hh].
    + rewrite rnd_pos_half_one by lia. unfold format_2f. cbn [fnum fexp].
      change (pow2 (- 53)) with 1. change (pow2 (- - 53)) with (2 ^ 53).
      rewrite Z.mul_1_r.
      set (m := rhe_div (n * 2 ^ 53) d).
      assert (Hm0 : 0 <= m) by (apply rhe_div_ge; [lia |]; left; nia).
      assert (Hm1 : m <= 2 ^ 53) by (apply rhe_div_le; [lia |]; left; nia).
      assert (Hm : 8601875288277648 <= m <-> 17203750576555295 * d <= 18014398509481984 * n).
      { unfold m. rewrite rhe_div_ge by lia.
        change (Z.even 8601875288277648) with true.
        change (2 ^ 53) with 9007199254740992. lia. }
      change (2 ^ 53) with 9007199254740992 in *.
      rewrite <- Hm.
      split; [split |].
      * apply rhe_div_ge; lia.
      * apply rhe_div_le; lia.
      * rewrite rhe_div_ge by lia. change (Z.even 96) with true. lia.
    + destruct (rnd_pos_small n d ltac:(lia) ltac:(lia)) as (HE & Hm0 & Hm1).
      unfold format_2f.
      set (m := fnum (rnd_pos n d)) in *. set (E := fexp (rnd_pos n d)) in *.
      rewrite (pow2_nonpos E) by lia. rewrite Z.mul_1_r.
      pose proof (pow2_pos (- E)) as HP.
      assert (Hk0 : 0 <= rhe_div (100 * m) (pow2 (- E)))
        by (apply rhe_div_ge; [lia |]; left; nia).
      assert (Hk1 : rhe_div (100 * m) (pow2 (- E)) <= 50)
        by (apply rhe_div_le; [lia |]; left; nia).
      lia.
Qed.

(** ** Durations in seconds

    [timedelta.total_seconds()] is a float, and the script compares it with
    integer thresholds.  For the thresholds of the script (positive, below
    [2 ^ 33] seconds) the comparison agrees with the exact comparison of the
    duration in microseconds. *)

Lemma rnd_pos_nonneg (n d : Z) : 0 < n -> 0 < d -> 0 <= fnum (rnd_pos n d).
Proof.
  intros Hn Hd. unfold rnd_pos. cbn [fnum].
  set (E := Z.max _ _).
  pose proof (pow2_pos E). pose proof (pow2_pos (- E)).
  apply rhe_div_ge; [nia |]. left. nia.
Qed.

Lemma total_seconds_compare (td T : Z) :
  0 < T < 2 ^ 33 ->
  fcompare_Z (total_seconds td) T = (td ?= T * us_per_second).
Proof.
  intros HT. unfold total_seconds, us_per_second, fcompare_Z, rnd_div.
  change (2 ^ 33) with 8589934592 in HT.
  destruct (Z.compare_spec td 0) as [-> | Hneg | Hpos].
  - cbn [fnum fexp]. change (pow2 0) with 1. change (pow2 (- 0)) with 1.
    transitivity Lt; [| symmetry]; apply Z.compare_lt_iff; lia.
  - cbn [fopp fnum fexp].
    pose proof (rnd_pos_nonneg (- td) 1000000 ltac:(lia) ltac:(lia)) as Hm.
    set (f := rnd_pos (- td) 1000000) in *.
    pose proof (pow2_pos (fexp f)). pose proof (pow2_pos (- fexp f)).
    transitivity Lt; [| symmetry]; apply Z.compare_lt_iff; nia.
  - destruct (floor_log2_ratio_spec td 1000000 ltac:(lia) ltac:(lia)) as [Hge Hlt].
    unfold rnd_pos. cbn [fnum fexp].
    set (e := floor_log2_ratio td 1000000) in *.
    set (E := Z.max (e - (prec - 1)) emin).
    destruct (Z_le_gt_dec e 33) as [He | He].
    + (* the unit in the last place is below a microsecond *)
      assert (HE : E <= - 19) by (unfold E, prec, emin; lia).
      rewrite (pow2_nonpos E) by lia. rewrite !Z.mul_1_r.
      pose proof (pow2_le 19 (- E) ltac:(lia)) as HP.
      change (pow2 19) with 524288 in HP.
      set (P := pow2 (- E)) in *.
      destruct (Z.compare_spec td (T * 1000000)) as [-> | Hl | Hg].
      * replace (T * 1000000 * P) with (T * P * 1000000) by lia.
        rewrite rhe_div_exact by lia. apply Z.compare_eq_iff. reflexivity.
      * apply Z.compare_lt_iff.
        enough (rhe_div (td * P) 1000000 <= T * P - 1) by lia.
        apply rhe_div_le; [lia |]. left. nia.
      * apply Z.compare_gt_iff.
        enough (T * P + 1 <= rhe_div (td * P) 1000000) by lia.
        apply rhe_div_ge; [lia |]. left. nia.
    + (* the duration is beyond every threshold *)
      assert (Hbig : 1000000 * pow2 e <= td).
      { unfold ge_pow2 in Hge. rewrite (pow2_nonpos (- e)) in Hge by lia. lia. }
      pose proof (pow2_le 34 e ltac:(lia)) as H34.
      change (pow2 34) with 17179869184 in H34.
      assert (Htd : T * 1000000 < td) by nia.
      rewrite (proj2 (Z.compare_gt_iff td (T * 1000000))) by lia.
      apply Z.compare_gt_iff.
      assert (HEe : E = e - 52) by (unfold E, prec, emin; lia).
      destruct (Z_le_gt_dec E 0) as [HE | HE].
      * rewrite (pow2_nonpos E) by lia. rewrite !Z.mul_1_r.
        assert (Hp : pow2 e * pow2 (- E) = 2 ^ 52).
        { rewrite <- pow2_add by lia. replace (e + - E) with 52 by lia. reflexivity. }
        pose proof (pow2_pos (- E)) as HP. set (P := pow2 (- E)) in *.
        enough (2 ^ 52 <= rhe_div (td * P) 1000000) by nia.
        apply rhe_div_ge; [lia |]. left. nia.
      * rewrite (pow2_nonpos (- E)) by lia. rewrite !Z.mul_1_r.
        assert (Hp : pow2 e = 2 ^ 52 * pow2 E).
        { replace e with (52 + E) at 1 by lia. rewrite pow2_add by lia. reflexivity. }
        pose proof (pow2_pos E) as HQ. set (Q := pow2 E) in *.
        enough (2 ^ 52 <= rhe_div td (1000000 * Q)) by nia.
        apply rhe_div_ge; [lia |]. left. nia.
Qed.

Lemma total_seconds_geb (td T : Z) :
  0 < T < 2 ^ 33 ->
  fgeb_Z (total_seconds td) T = (T * us_per_second <=? td).
Proof.
  intros HT. unfold fgeb_Z. rewrite total_seconds_compare by exact HT.
  destruct (Z.compare_spec td (T * us_per_second));
    symmetry; [apply Z.leb_le | apply Z.leb_gt | apply Z.leb_le]; lia.
Qed.

Lemma total_seconds_gtb (td T : Z) :
  0 < T < 2 ^ 33 ->
  fgtb_Z (total_seconds td) T = (T * us_per_second <? td).
Proof.
  intros HT. unfold fgtb_Z. rewrite total_seconds_compare by exact HT.
  destruct (Z.compare_spec td (T * us_per_second));
    symmetry; [apply Z.ltb_ge | apply Z.ltb_ge | apply Z.ltb_lt]; lia.
Qed.

(** ** [display_time] *)

Lemma display_time_step_eq (seconds : Z) (result : list string)
  (name : string) (count : Z) :
  0 < count ->
  display_time_step (seconds, result) (name, count) =
  (seconds mod count,
   (result ++
      if seconds / count =? 0 then []
      else [(str_of_Z (seconds / count) ++ " "
             ++ (if (seconds / count =? 1)%Z then rstrip "s" name else name))%string])%list).
Proof.
  intros Hc. unfold display_time_step.
  pose proof (Z.div_mod seconds count ltac:(lia)) as Hdm.
  destruct (Z.eqb_spec (seconds / count) 0) as [H0 | H0].
  - rewrite app_nil_r. f_equal. rewrite H0 in Hdm. lia.
  - f_equal. lia.
Qed.

Lemma display_time_units (s : Z) :
  snd (fold_left display_time_step intervals (s, [])) =
  map render_unit (List.filter (fun u => negb (fst u =? 0)) (unit_values s)).
Proof.
  unfold intervals. cbn [fold_left].
  rewrite !display_time_step_eq by lia. cbn [snd].
  rewrite !Z.div_1_r.
  rewrite (Z.mod_mod_divide s 604800 86400) by (exists 7; lia).
  rewrite (Z.mod_mod_divide s 86400 3600) by (exists 24; lia).
  rewrite (Z.mod_mod_divide s 3600 60) by (exists 60; lia).
  unfold unit_values. cbn [List.filter fst snd].
  unfold render_unit.
  destruct (s / 604800 =? 0), (s mod 604800 / 86400 =? 0),
    (s mod 86400 / 3600 =? 0), (s mod 3600 / 60 =? 0), (s mod 60 =? 0);
    reflexivity.
Qed.

(** The magnitudes are the digits of [s] in the mixed radix
    weeks/days/hours/minutes/seconds. *)
Lemma unit_values_sound (s : Z) :
  0 <= s ->
  match map fst (unit_values s) with
  | [w; d; h; m; sec] =>
      s = w * 604800 + d * 86400 + h * 3600 + m * 60 + sec /\
      0 <= w /\ 0 <= d < 7 /\ 0 <= h < 24 /\ 0 <= m < 60 /\ 0 <= sec < 60
  | _ => False
  end.
Proof.
  intros Hs. cbn [map unit_values fst].
  pose proof (Z.div_mod s 604800 ltac:(lia)).
  pose proof (Z.mod_pos_bound s 604800 ltac:(lia)).
  pose proof (Z.div_mod (s mod 604800) 86400 ltac:(lia)) as Hd1.
  rewrite (Z.mod_mod_divide s 604800 86400) in Hd1 by (exists 7; lia).
  pose proof (Z.mod_pos_bound s 86400 ltac:(lia)).
  pose proof (Z.div_mod (s mod 86400) 3600 ltac:(lia)) as Hd2.
  rewrite (Z.mod_mod_divide s 86400 3600) in Hd2 by (exists 24; lia).
  pose proof (Z.mod_pos_bound s 3600 ltac:(lia)).
  pose proof (Z.div_mod (s mod 3600) 60 ltac:(lia)) as Hd3.
  rewrite (Z.mod_mod_divide s 3600 60) in Hd3 by (exists 60; lia).
  pose proof (Z.mod_pos_bound s 60 ltac:(lia)).
  pose proof (Z.div_pos s 604800 ltac:(lia) ltac:(lia)).
  pose proof (Z.div_pos (s mod 604800) 86400 ltac:(lia) ltac:(lia)).
  pose proof (Z.div_pos (s mod 86400) 3600 ltac:(lia) ltac:(lia)).
  pose proof (Z.div_pos (s mod 3600) 60 ltac:(lia) ltac:(lia)).
  lia.
Qed.

(** C4.  For every non-negative number of seconds, [display_time] (with its
    default granularity) renders the two largest non-zero units among weeks,
    days, hours, minutes and seconds, the unit's name in the singular when its
    magnitude is exactly 1; the magnitudes are the mixed-radix digits of the
    number of seconds.  In particular [display_time(90061)] is
    ["1 day, 1 hour"]. *)
Theorem display_time_two_largest_units (seconds : pynum) :
  0 <= py_int seconds ->
  display_time seconds granularity_default = two_largest_units (py_int seconds)
  /\ match map fst (unit_values (py_int seconds)) with
     | [w; d; h; m; sec] =>
         py_int seconds = w * 604800 + d * 86400 + h * 3600 + m * 60 + sec /\
         0 <= w /\ 0 <= d < 7 /\ 0 <= h < 24 /\ 0 <= m < 60 /\ 0 <= sec < 60
     | _ => False
     end
  /\ display_time (PyInt 90061) granularity_default = "1 day, 1 hour"%string.
Proof.
  intros Hs. split; [| split].
  - unfold display_time, two_largest_units, granularity_default.
    rewrite display_time_units. rewrite firstn_map. reflexivity.
  - apply unit_values_sound, Hs.
  - reflexivity.
Qed.

Lemma display_time_two_largest_units_witness :
  display_time (PyInt 90061) granularity_default = two_largest_units 90061
  /\ two_largest_units 90061 = "1 day, 1 hour"%string.
Proof.
  split.
  - apply (display_time_two_largest_units (PyInt 90061)). simpl. lia.
  - reflexivity.
Defined.

(** ** The checks on one asset *)

Lemma same_report_refl (st : state) : same_report st st.
Proof. repeat split. Qed.

Lemma same_report_trans (st1 st2 st3 : state) :
  same_report st1 st2 -> same_report st2 st3 -> same_report st1 st3.
Proof. unfold same_report. intuition congruence. Qed.

Lemma truthy_valid (x : option Z) (ts : Z) :
  valid_opt_timestamp x = true -> truthy x = Some ts -> valid_timestamp ts = true.
Proof.
  destruct x as [z |]; cbn; [| discriminate].
  destruct (z =? 0); [discriminate |]. congruence.
Qed.

Ltac run_monad :=
  unfold bind, ret, raise, modify, report_asset, report_device, datetime_now,
    fromtimestamp, print, session_get;
  cbn -[init_asset append_asset_error append_device_error total_seconds
        display_time fgtb_Z fgeb_Z valid_timestamp Z.mul Z.add Z.of_N insert
        str_take str_drop String.append storage_pct printErrors for_fold
        agent_checks float_of_Z fmul float_of_hundredths format_2f rnd_div
        fromtimestamp_error].

Lemma check_agent_ok (clock : nat -> Z) (device_name : string)
  (errors : list pystr) (a : Agent.t) (st : state) :
  Agent.isArchived a = false ->
  Agent.isPaused a = false ->
  agent_timestamps_valid a = true ->
  exists st',
    check_agent clock device_name errors a st =
      (Ok (errors ++ agent_findings (clock (clock_reads st)) a)%list, st')
    /\ same_report st st'
    /\ clock_reads st' = S (clock_reads st).
Proof.
  intros Harch Hpaused Hvalid.
  unfold agent_timestamps_valid in Hvalid.
  apply andb_prop in Hvalid as [Hvalid Hv3].
  apply andb_prop in Hvalid as [Hv1 Hv2].
  unfold check_agent, agent_findings, backup_findings, offsite_findings,
    screenshot_findings, screenshot_status_findings.
  rewrite Harch, Hpaused.
  run_monad. rewrite Hv1. run_monad.
  set (now := clock (clock_reads st)).
  pose proof (truthy_valid (Agent.latestOffsite a)) as Ho.
  pose proof (truthy_valid (Agent.lastScreenshotAttempt a)) as Hs.
  destruct (fgtb_Z (total_seconds (now - Agent.lastSnapshot a * us_per_second))
              LAST_BACKUP_THRESHOLD);
    [destruct (Agent.backups a) as [| b bs];
       [| destruct (negb (String.eqb (Backup.status b) "success"))] |];
    run_monad;
    (destruct (truthy (Agent.latestOffsite a)) as [ts |];
       [rewrite (Ho ts Hv2 eq_refl); run_monad;
        destruct (fgtb_Z (total_seconds (now - ts * us_per_second))
                    LAST_OFFSITE_THRESHOLD) |]);
    run_monad;
    (destruct (String.eqb (Agent.type a) "agent");
       [destruct (truthy (Agent.lastScreenshotAttempt a)) as [ts' |];
          [rewrite (Hs ts' Hv3 eq_refl); run_monad;
           destruct (fgtb_Z (total_seconds (now - ts' * us_per_second))
                       LAST_SCREENSHOT_THRESHOLD) |];
        run_monad;
        destruct (Agent.lastScreenshotAttemptStatus a) as [[|] |] |]);
    run_monad;
    rewrite ?app_nil_r, <- ?app_assoc;
    (eexists; split; [reflexivity | split; [repeat split | reflexivity]]).
Qed.

Lemma check_agent_skipped (clock : nat -> Z) (device_name : string)
  (errors : list pystr) (a : Agent.t) (st : state) :
  Agent.isArchived a || Agent.isPaused a = true ->
  check_agent clock device_name errors a st = (Ok errors, st).
Proof.
  intros H. unfold check_agent.
  destruct (Agent.isArchived a); [reflexivity |].
  destruct (Agent.isPaused a); [reflexivity | discriminate].
Qed.

(** The checks on an asset that is not skipped, in both outcomes: they end
    with the exception of the first conversion that fails, and add the lines
    of the asset when none does. *)
Lemma check_agent_run (clock : nat -> Z) (device_name : string)
  (errors : list pystr) (a : Agent.t) (st : state) :
  Agent.isArchived a = false ->
  Agent.isPaused a = false ->
  exists st',
    check_agent clock device_name errors a st
    = (match first_timestamp_error (converted_timestamps a) with
       | None => Ok (errors ++ agent_findings (clock (clock_reads st)) a)%list
       | Some e => Raise e
       end, st')
    /\ same_report st st'
    /\ (first_timestamp_error (converted_timestamps a) = None ->
        clock_reads st' = S (clock_reads st)).
Proof.
  intros Harch Hpaused.
  unfold check_agent, agent_findings, backup_findings, offsite_findings,
    screenshot_findings, screenshot_status_findings, converted_timestamps,
    fromtimestamp.
  rewrite Harch, Hpaused.
  destruct (truthy (Agent.latestOffsite a)) as [ts |];
    destruct (truthy (Agent.lastScreenshotAttempt a)) as [ts' |];
    destruct (String.eqb (Agent.type a) "agent");
    cbn [first_timestamp_error app];
    (destruct (valid_timestamp (Agent.lastSnapshot a)); run_monad;
     [| eexists; split; [reflexivity | split; [repeat split | discriminate]]]);
    try (destruct (valid_timestamp ts));
    try (destruct (valid_timestamp ts'));
    cbn [first_timestamp_error];
    repeat (run_monad;
            match goal with
            | |- context [fgtb_Z ?x ?y] => destruct (fgtb_Z x y)
            | |- context [Agent.backups a] =>
                destruct (Agent.backups a) as [| b bs]
            | |- context [String.eqb ?x ?y] => destruct (String.eqb x y)
            | |- context [Agent.lastScreenshotAttemptStatus a] =>
                destruct (Agent.lastScreenshotAttemptStatus a) as [[|] |]
            end);
    run_monad; rewrite ?app_nil_r, <- ?app_assoc;
    (eexists; split; [reflexivity |];
     split; [repeat split | first [reflexivity | discriminate]]).
Qed.

Lemma first_timestamp_error_none (l : list Z) :
  first_timestamp_error l = None <-> forallb valid_timestamp l = true.
Proof.
  induction l as [| ts l IH]; cbn [first_timestamp_error forallb];
    [tauto |].
  destruct (valid_timestamp ts); cbn [andb]; [exact IH |].
  split; discriminate.
Qed.

Lemma first_timestamp_error_kind (l : list Z) (e : exn) :
  first_timestamp_error l = Some e -> timestamp_exception e.
Proof.
  induction l as [| ts l IH]; cbn [first_timestamp_error]; [discriminate |].
  destruct (valid_timestamp ts); [exact IH |].
  intros H. injection H as <-. unfold timestamp_exception, fromtimestamp_error.
  destruct (_ || _); [tauto |]. destruct (_ || _); tauto.
Qed.

(** The checks on an asset whose converted timestamps are all within the
    range of [datetime]. *)
Lemma check_agent_converted (clock : nat -> Z) (device_name : string)
  (errors : list pystr) (a : Agent.t) (st : state) :
  Agent.isArchived a = false ->
  Agent.isPaused a = false ->
  forallb valid_timestamp (converted_timestamps a) = true ->
  exists st',
    check_agent clock device_name errors a st =
      (Ok (errors ++ agent_findings (clock (clock_reads st)) a)%list, st')
    /\ same_report st st'
    /\ clock_reads st' = S (clock_reads st).
Proof.
  intros Harch Hpaused Hvalid.
  apply first_timestamp_error_none in Hvalid.
  destruct (check_agent_run clock device_name errors a st Harch Hpaused)
    as (st' & Hrun & Hsame & Hclock).
  rewrite Hvalid in Hrun. exists st'. auto.
Qed.

(** The thresholds are within the range of [total_seconds_gtb]. *)
Lemma backup_threshold_range : 0 < LAST_BACKUP_THRESHOLD < 2 ^ 33.
Proof. vm_compute. split; reflexivity. Qed.
Lemma offsite_threshold_range : 0 < LAST_OFFSITE_THRESHOLD < 2 ^ 33.
Proof. vm_compute. split; reflexivity. Qed.
Lemma screenshot_threshold_range : 0 < LAST_SCREENSHOT_THRESHOLD < 2 ^ 33.
Proof. vm_compute. split; reflexivity. Qed.
Lemma checkin_limit_range : 0 < CHECKIN_LIMIT < 2 ^ 33.
Proof. vm_compute. split; reflexivity. Qed.

Ltac split_in :=
  repeat match goal with
         | H : In _ (_ ++ _) |- _ => apply in_app_or in H; destruct H as [H | H]
         | H : In _ (_ :: _) |- _ => destruct H as [H | H]
         | H : In _ [] |- _ => destruct H
         | H : In _ (if ?c then _ else _) |- _ => destruct c
         | H : In _ (match ?c with _ => _ end) |- _ => destruct c
         end.

(** C5, as the code has it.  A non-archived, non-paused asset whose last
    snapshot is more than 12 hours old, whose backup history is empty and
    whose timestamps that the checks convert are all within the range of
    [datetime]: the evaluation returns normally and its findings contain the
    "does not seem to have any backups" line and no "Last scheduled backup
    failed" line.  (A timestamp outside that range makes the evaluation
    raise.) *)
Theorem empty_backup_history_is_a_finding (clock : nat -> Z)
  (device_name : string) (errors : list pystr) (a : Agent.t) (st : state) :
  Agent.isArchived a = false ->
  Agent.isPaused a = false ->
  forallb valid_timestamp (converted_timestamps a) = true ->
  LAST_BACKUP_THRESHOLD * us_per_second
    < clock (clock_reads st) - Agent.lastSnapshot a * us_per_second ->
  Agent.backups a = [] ->
  exists new st',
    check_agent clock device_name errors a st = (Ok (errors ++ new)%list, st')
    /\ In (msg_no_backups (Agent.name a)) new
    /\ forall agent_name elapsed errorMessage,
         ~ In (msg_backup_failed agent_name elapsed errorMessage) new.
Proof.
  intros Harch Hpaused Hvalid Hold Hempty.
  destruct (check_agent_converted clock device_name errors a st Harch Hpaused
              Hvalid)
    as (st' & Hrun & _).
  exists (agent_findings (clock (clock_reads st)) a), st'.
  split; [exact Hrun |].
  assert (Hb : backup_findings (clock (clock_reads st)) a
               = [msg_no_backups (Agent.name a)]).
  { unfold backup_findings.
    rewrite total_seconds_gtb by apply backup_threshold_range.
    rewrite (proj2 (Z.ltb_lt _ _) Hold), Hempty. reflexivity. }
  unfold agent_findings. rewrite Hb. split.
  - left. reflexivity.
  - intros n e m Hin.
    unfold offsite_findings, screenshot_findings, screenshot_status_findings in Hin.
    split_in; discriminate.
Qed.

(** C7, as the code has it.  A non-archived, non-paused asset whose
    [latestOffsite] is null and whose timestamps that the checks convert (the
    last snapshot, and the last screenshot attempt of an asset of type agent
    unless it is null or 0) are within the range of [datetime]: the findings
    contain the "no off-site backup points" line, whatever the instant of
    the evaluation and whatever the other checks find.  (A timestamp outside
    that range makes the evaluation raise, before or after the off-site
    test.) *)
Theorem null_offsite_is_a_finding (clock : nat -> Z)
  (device_name : string) (errors : list pystr) (a : Agent.t) (st : state) :
  Agent.isArchived a = false ->
  Agent.isPaused a = false ->
  forallb valid_timestamp (converted_timestamps a) = true ->
  Agent.latestOffsite a = None ->
  exists new st',
    check_agent clock device_name errors a st = (Ok (errors ++ new)%list, st')
    /\ In (msg_no_offsite (Agent.name a)) new.
Proof.
  intros Harch Hpaused Hvalid Hnull.
  destruct (check_agent_converted clock device_name errors a st Harch Hpaused
              Hvalid)
    as (st' & Hrun & _).
  exists (agent_findings (clock (clock_reads st)) a), st'.
  split; [exact Hrun |].
  unfold agent_findings. apply in_or_app. right. apply in_or_app. left.
  unfold offsite_findings. rewrite Hnull. left. reflexivity.
Qed.

(** C10, as the code has it.  The off-site test is a truth test: a
    non-archived, non-paused asset whose [latestOffsite] is 0 and whose
    timestamps that the checks convert (the last snapshot, and the last
    screenshot attempt of an asset of type agent unless it is null or 0) are
    within the range of [datetime] gets the "no off-site backup points" line,
    and no "Last off-site was ... ago" line, whatever the instant of the
    evaluation.  (A timestamp outside that range makes the evaluation
    raise.) *)
Theorem epoch_offsite_is_missing (clock : nat -> Z)
  (device_name : string) (errors : list pystr) (a : Agent.t) (st : state) :
  Agent.isArchived a = false ->
  Agent.isPaused a = false ->
  forallb valid_timestamp (converted_timestamps a) = true ->
  Agent.latestOffsite a = Some 0 ->
  exists new st',
    check_agent clock device_name errors a st = (Ok (errors ++ new)%list, st')
    /\ In (msg_no_offsite (Agent.name a)) new
    /\ forall agent_name elapsed, ~ In (msg_offsite_old agent_name elapsed) new.
Proof.
  intros Harch Hpaused Hvalid Hzero.
  destruct (check_agent_converted clock device_name errors a st Harch Hpaused
              Hvalid)
    as (st' & Hrun & _).
  exists (agent_findings (clock (clock_reads st)) a), st'.
  split; [exact Hrun |].
  assert (Ho : offsite_findings (clock (clock_reads st)) a
               = [msg_no_offsite (Agent.name a)]).
  { unfold offsite_findings. rewrite Hzero. reflexivity. }
  unfold agent_findings. rewrite Ho. split.
  - apply in_or_app. right. left. reflexivity.
  - intros n e Hin.
    unfold backup_findings, screenshot_findings, screenshot_status_findings in Hin.
    split_in; discriminate.
Qed.

(** C8, as the code has it.  For a non-archived, non-paused asset whose
    timestamps that the checks convert are all within the range of
    [datetime], so that the evaluation returns: when the type is "agent", a
    last-screenshot-attempt timestamp that is present and not zero and more
    than 48 hours old gives the "Last screenshot attempt was ... ago" line,
    and a last-screenshot-attempt status that is [False] gives the "Last
    screenshot attempt failed" line, whatever the timestamp.  An asset of
    another type gets neither line, whatever its screenshot fields are. *)
Theorem screenshot_findings_of_agent (clock : nat -> Z)
  (device_name : string) (errors : list pystr) (a : Agent.t) (st : state) :
  Agent.isArchived a = false ->
  Agent.isPaused a = false ->
  forallb valid_timestamp (converted_timestamps a) = true ->
  exists new st',
    check_agent clock device_name errors a st = (Ok (errors ++ new)%list, st')
    /\ (Agent.type a = "agent"%string ->
        forall ts,
          Agent.lastScreenshotAttempt a = Some ts ->
          ts <> 0 ->
          LAST_SCREENSHOT_THRESHOLD * us_per_second
            < clock (clock_reads st) - ts * us_per_second ->
          In (msg_screenshot_old (Agent.name a)
                (display_time
                   (PyFloat (total_seconds
                               (clock (clock_reads st) - ts * us_per_second)))
                   granularity_default))
             new)
    /\ (Agent.type a = "agent"%string ->
        Agent.lastScreenshotAttemptStatus a = Some false ->
        In (msg_screenshot_failed (Agent.name a)) new)
    /\ (Agent.type a <> "agent"%string ->
        forall agent_name elapsed,
          ~ In (msg_screenshot_old agent_name elapsed) new
          /\ ~ In (msg_screenshot_failed agent_name) new).
Proof.
  intros Harch Hpaused Hvalid.
  destruct (check_agent_converted clock device_name errors a st Harch Hpaused
              Hvalid)
    as (st' & Hrun & _).
  exists (agent_findings (clock (clock_reads st)) a), st'.
  split; [exact Hrun |].
  unfold agent_findings. split; [| split].
  - intros Htype ts Hts Hnz Hold.
    apply in_or_app. right. apply in_or_app. right. apply in_or_app. left.
    unfold screenshot_findings. rewrite Htype, Hts, String.eqb_refl.
    cbn [truthy].
    rewrite (proj2 (Z.eqb_neq ts 0) Hnz).
    rewrite total_seconds_gtb by apply screenshot_threshold_range.
    rewrite (proj2 (Z.ltb_lt _ _) Hold). left. reflexivity.
  - intros Htype Hstatus.
    apply in_or_app. right. apply in_or_app. right. apply in_or_app. right.
    unfold screenshot_status_findings.
    rewrite Htype, Hstatus, String.eqb_refl. left. reflexivity.
  - intros Htype n e.
    apply String.eqb_neq in Htype.
    unfold screenshot_findings, screenshot_status_findings. rewrite Htype.
    cbn [andb app].
    unfold backup_findings, offsite_findings.
    split; intros Hin; split_in; discriminate.
Qed.

(** An asset of type "agent" whose last screenshot attempt is dated 0, the
    epoch: the timestamp is there and is more than 48 hours old, and the
    evaluation adds no line at all, so no "Last screenshot attempt was ...
    ago" line. *)
Lemma stale_screenshot_at_epoch_not_reported :
  Agent.isArchived agent_screenshot_epoch = false
  /\ Agent.isPaused agent_screenshot_epoch = false
  /\ Agent.type agent_screenshot_epoch = "agent"%string
  /\ Agent.lastScreenshotAttempt agent_screenshot_epoch = Some 0
  /\ LAST_SCREENSHOT_THRESHOLD * us_per_second
       < clock_fixed (clock_reads initial_state) - 0 * us_per_second
  /\ exists st',
       check_agent clock_fixed "NAS" [] agent_screenshot_epoch initial_state
         = (Ok [], st').
Proof.
  repeat split. eexists. vm_compute. reflexivity.
Qed.

(** An asset without backup history whose last snapshot is more than 12
    hours old and whose latest off-site point is given in milliseconds: the
    conversion of the off-site point raises, so the evaluation does not
    return and the asset gets no line. *)
Lemma empty_history_with_offsite_in_milliseconds_raises :
  Agent.isArchived agent_offsite_milliseconds = false
  /\ Agent.isPaused agent_offsite_milliseconds = false
  /\ Agent.backups agent_offsite_milliseconds = []
  /\ LAST_BACKUP_THRESHOLD * us_per_second
       < clock_fixed (clock_reads initial_state)
         - Agent.lastSnapshot agent_offsite_milliseconds * us_per_second
  /\ fst (check_agent clock_fixed "NAS" [] agent_offsite_milliseconds
            initial_state)
     = Raise ValueError.
Proof. vm_compute. repeat split. Qed.

(** An asset whose latest off-site point is null and whose last snapshot is
    dated in the year 10000: the conversion of the snapshot raises before the
    off-site test is reached, and the asset gets no line. *)
Lemma null_offsite_after_snapshot_out_of_range_raises :
  Agent.isArchived agent_snapshot_year_10000 = false
  /\ Agent.isPaused agent_snapshot_year_10000 = false
  /\ Agent.latestOffsite agent_snapshot_year_10000 = None
  /\ fst (check_agent clock_fixed "NAS" [] agent_snapshot_year_10000
            initial_state)
     = Raise ValueError.
Proof. vm_compute. repeat split. Qed.

(** An asset whose latest off-site point is dated 0 and whose last snapshot
    is beyond what [gmtime] converts: the evaluation raises [OSError] before
    the off-site test is reached, and the asset gets no line. *)
Lemma epoch_offsite_after_snapshot_out_of_range_raises :
  Agent.isArchived agent_epoch_offsite_bad_snapshot = false
  /\ Agent.isPaused agent_epoch_offsite_bad_snapshot = false
  /\ Agent.latestOffsite agent_epoch_offsite_bad_snapshot = Some 0
  /\ fst (check_agent clock_fixed "NAS" [] agent_epoch_offsite_bad_snapshot
            initial_state)
     = Raise OSError.
Proof. vm_compute. repeat split. Qed.

Lemma empty_backup_history_is_a_finding_witness :
  exists new st',
    check_agent clock_fixed "NAS" [] agent_no_history initial_state
      = (Ok ([] ++ new)%list, st')
    /\ In (msg_no_backups "srv02") new
    /\ forall agent_name elapsed errorMessage,
         ~ In (msg_backup_failed agent_name elapsed errorMessage) new.
Proof.
  apply (empty_backup_history_is_a_finding clock_fixed "NAS" []
           agent_no_history initial_state); reflexivity.
Defined.

Lemma null_offsite_is_a_finding_witness :
  exists new st',
    check_agent clock_fixed "NAS" [] agent_no_history initial_state
      = (Ok ([] ++ new)%list, st')
    /\ In (msg_no_offsite "srv02") new.
Proof.
  apply (null_offsite_is_a_finding clock_fixed "NAS" []
           agent_no_history initial_state); reflexivity.
Defined.

Lemma epoch_offsite_is_missing_witness :
  exists new st',
    check_agent clock_fixed "NAS" [] agent_epoch_offsite initial_state
      = (Ok ([] ++ new)%list, st')
    /\ In (msg_no_offsite "srv03") new
    /\ forall agent_name elapsed, ~ In (msg_offsite_old agent_name elapsed) new.
Proof.
  apply (epoch_offsite_is_missing clock_fixed "NAS" []
           agent_epoch_offsite initial_state); reflexivity.
Defined.

Lemma screenshot_findings_of_agent_witness :
  exists new st',
    check_agent clock_fixed "NAS" [] agent_stale_screenshot initial_state
      = (Ok ([] ++ new)%list, st')
    /\ In (msg_screenshot_old "srv04" "1 week, 4 days") new
    /\ In (msg_screenshot_failed "srv04") new.
Proof.
  destruct (screenshot_findings_of_agent clock_fixed "NAS" []
              agent_stale_screenshot initial_state
              eq_refl eq_refl eq_refl)
    as (new & st' & Hrun & Hold & Hfailed & _).
  exists new, st'. split; [exact Hrun |]. split.
  - apply (Hold eq_refl 1699000000 eq_refl); [discriminate | reflexivity].
  - apply (Hfailed eq_refl eq_refl).
Defined.

(** ** The report buffer *)

Lemma for_each_print (errors : list pystr) (st : state) :
  for_each errors
    (fun error =>
       print error ;;; modify (set_MSG_BODY (fun b => b ++ [error])%list)) st
  = (Ok tt,
     mkState (MSG_BODY st ++ errors)%list (results_data st)
             (stdout st ++ errors)%list (requests st) (clock_reads st)
             (session_open st) (outbox st)).
Proof.
  revert st. induction errors as [| e errors IH]; intros st.
  - cbn. rewrite !app_nil_r. destruct st; reflexivity.
  - cbn [for_each]. unfold bind at 1. run_monad. rewrite IH. cbn.
    rewrite <- !app_assoc. reflexivity.
Qed.

Lemma printErrors_spec (errors : list pystr) (device_name : string) (st : state) :
  printErrors errors device_name st
  = (Ok tt,
     mkState (MSG_BODY st ++ [msg_device_header device_name] ++ errors ++ [Lit nl])%list
             (results_data st)
             (stdout st ++ [msg_device_header device_name] ++ errors)%list
             (requests st) (clock_reads st) (session_open st) (outbox st)).
Proof.
  unfold printErrors. run_monad. unfold bind. rewrite for_each_print.
  unfold set_MSG_BODY. cbn. rewrite <- !app_assoc. reflexivity.
Qed.

(** ** One device *)

(** C3.  A visible device whose last check-in is at least [CHECKIN_LIMIT]
    (1200 seconds) old: the pass over the device returns normally; the lines
    of the device are its ticket line, if any, followed by one critical
    check-in line, so exactly one check-in line and no asset-level line; they
    go to the report buffer under the device header; the device's entry of
    [results_data] has these lines and an empty asset map; and no request is
    sent, so no asset is fetched. *)
Theorem offline_device_short_circuits
  (strptime : string -> option Z) (clock : nat -> Z)
  (api_assets : string -> list Agent.t) (d : Device.t) (st : state)
  (checkin : Z) :
  Device.hidden d = false ->
  checkin_of strptime d = Some checkin ->
  CHECKIN_LIMIT * us_per_second <= clock (clock_reads st) - checkin ->
  let elapsed :=
    display_time (PyFloat (total_seconds (clock (clock_reads st) - checkin)))
      granularity_default in
  let lines := (ticket_findings d ++ [msg_checkin elapsed])%list in
  exists st',
    process_device strptime clock api_assets d st = (Ok tt, st')
    /\ MSG_BODY st' =
         (MSG_BODY st ++ [msg_device_header (Device.name d)] ++ lines
            ++ [Lit nl])%list
    /\ results_data st' !! Device.name d = Some (mkDeviceResult lines ∅)
    /\ requests st' = requests st
    /\ List.length (List.filter is_checkin_finding lines) = 1%nat
    /\ List.filter is_asset_finding lines = [].
Proof.
  intros Hvisible Hparse Hold elapsed lines.
  unfold process_device. rewrite Hvisible.
  unfold checkin_of in Hparse. run_monad. rewrite Hparse. run_monad.
  assert (Hoff : fgeb_Z (total_seconds (clock (clock_reads st) - checkin))
                   CHECKIN_LIMIT = true).
  { rewrite total_seconds_geb by apply checkin_limit_range.
    apply Z.leb_le, Hold. }
  unfold lines, elapsed, ticket_findings.
  destruct (Device.activeTickets d =? 0); run_monad; rewrite Hoff; run_monad;
    unfold bind; rewrite printErrors_spec; cbn [MSG_BODY results_data requests];
    (eexists; split; [reflexivity |]);
    unfold append_device_error, set_results_data, set_clock_reads;
    cbn [MSG_BODY results_data requests];
    rewrite ?lookup_alter_eq, ?lookup_insert_eq;
    repeat split; reflexivity.
Qed.

Lemma offline_device_short_circuits_witness :
  exists st',
    process_device strptime_sample clock_late (fun _ => [agent_no_history])
      device_offline initial_state = (Ok tt, st')
    /\ MSG_BODY st' =
         [ msg_device_header "NAS-01"; msg_tickets 1; msg_checkin "1 day";
           Lit nl ]
    /\ requests st' = [].
Proof.
  destruct (offline_device_short_circuits strptime_sample clock_late
              (fun _ => [agent_no_history]) device_offline initial_state
              (1700000000 * us_per_second) eq_refl eq_refl)
    as (st' & Hrun & Hbody & _ & Hreq & _).
  - vm_compute. discriminate.
  - exists st'. split; [exact Hrun |]. split; [exact Hbody | exact Hreq].
Defined.

Lemma errors_at_alter (f : device_result -> device_result)
  (n device_name : string) (rd : gmap string device_result) :
  (forall r, errors (f r) = errors r) ->
  errors_at n (alter f device_name rd) = errors_at n rd.
Proof.
  intros Hf. unfold errors_at.
  destruct (decide (device_name = n)) as [-> | Hne].
  - rewrite lookup_alter_eq. destruct (rd !! n); cbn; auto.
  - rewrite lookup_alter_ne by exact Hne. reflexivity.
Qed.

Lemma errors_at_init_asset (n device_name agent_name : string)
  (rd : gmap string device_result) :
  errors_at n (init_asset device_name agent_name rd) = errors_at n rd.
Proof. apply errors_at_alter. reflexivity. Qed.

Lemma errors_at_append_asset_error (n device_name agent_name : string)
  (msg : pystr) (rd : gmap string device_result) :
  errors_at n (append_asset_error device_name agent_name msg rd) = errors_at n rd.
Proof. apply errors_at_alter. reflexivity. Qed.

Lemma keeps_ret {A} (a : A) : keeps_device_errors (ret a).
Proof. intros n st. reflexivity. Qed.

Lemma keeps_raise {A} (e : exn) : keeps_device_errors (@raise A e).
Proof. intros n st. reflexivity. Qed.

Lemma keeps_bind {A B} (m : M A) (k : A -> M B) :
  keeps_device_errors m -> (forall a, keeps_device_errors (k a)) ->
  keeps_device_errors (bind m k).
Proof.
  intros Hm Hk n st. unfold bind. specialize (Hm n st).
  destruct (m st) as [[a | e] st1]; cbn [snd] in *.
  - rewrite Hk. exact Hm.
  - exact Hm.
Qed.

Lemma keeps_modify_results
  (f : gmap string device_result -> gmap string device_result) :
  (forall n rd, errors_at n (f rd) = errors_at n rd) ->
  keeps_device_errors (modify (set_results_data f)).
Proof. intros Hf n st. unfold device_errors. cbn. apply Hf. Qed.

Lemma keeps_report_asset (device_name agent_name : string) (msg : pystr)
  (errors : list pystr) :
  keeps_device_errors (report_asset device_name agent_name msg errors).
Proof.
  unfold report_asset. apply keeps_bind; [| intros; apply keeps_ret].
  apply keeps_modify_results. intros. apply errors_at_append_asset_error.
Qed.

Lemma keeps_fromtimestamp (ts : Z) : keeps_device_errors (fromtimestamp ts).
Proof.
  unfold fromtimestamp. destruct (valid_timestamp ts);
    [apply keeps_ret | apply keeps_raise].
Qed.

Lemma keeps_datetime_now (clock : nat -> Z) :
  keeps_device_errors (datetime_now clock).
Proof. intros n st. reflexivity. Qed.

Lemma keeps_for_fold {A B} (l : list A) (body : B -> A -> M B) (b : B) :
  (forall b a, keeps_device_errors (body b a)) ->
  keeps_device_errors (for_fold l body b).
Proof.
  intros Hbody. revert b. induction l as [| x l IH]; intros b; cbn [for_fold].
  - apply keeps_ret.
  - apply keeps_bind; [apply Hbody | intros; apply IH].
Qed.

Lemma keeps_check_agent (clock : nat -> Z) (device_name : string)
  (errors : list pystr) (a : Agent.t) :
  keeps_device_errors (check_agent clock device_name errors a).
Proof.
  unfold check_agent.
  repeat first
    [ apply keeps_ret
    | apply keeps_raise
    | apply keeps_report_asset
    | apply keeps_fromtimestamp
    | apply keeps_datetime_now
    | apply keeps_modify_results; intros; apply errors_at_init_asset
    | apply keeps_bind; [| intros]
    | match goal with
      | |- keeps_device_errors (if ?c then _ else _) => destruct c
      | |- keeps_device_errors (match ?c with _ => _ end) => destruct c
      end ].
Qed.

Lemma keeps_printErrors (errors : list pystr) (device_name : string) :
  keeps_device_errors (printErrors errors device_name).
Proof. intros n st. rewrite printErrors_spec. reflexivity. Qed.

Lemma keeps_agent_checks (clock : nat -> Z)
  (api_assets : string -> list Agent.t) (d : Device.t) (errors : list pystr) :
  keeps_device_errors (agent_checks clock api_assets d errors).
Proof.
  unfold agent_checks, getAssetDetails.
  apply keeps_bind.
  - apply keeps_bind; [| intros; apply keeps_ret]. intros n st. reflexivity.
  - intros assetDetails. apply keeps_bind.
    + apply keeps_for_fold. intros. apply keeps_check_agent.
    + intros [| e errors']; [apply keeps_ret | apply keeps_printErrors].
Qed.

(** The device-level lines of a visible, online device with some storage. *)
Lemma process_device_online_errors
  (strptime : string -> option Z) (clock : nat -> Z)
  (api_assets : string -> list Agent.t) (d : Device.t) (st : state)
  (checkin : Z) :
  Device.hidden d = false ->
  checkin_of strptime d = Some checkin ->
  clock (clock_reads st) - checkin < CHECKIN_LIMIT * us_per_second ->
  (0 < Device.localStorageAvailable d + Device.localStorageUsed d)%N ->
  device_errors (Device.name d)
    (snd (process_device strptime clock api_assets d st))
  = (ticket_findings d ++ storage_findings d)%list.
Proof.
  intros Hvisible Hparse Hrecent Htotal.
  unfold process_device. rewrite Hvisible.
  unfold checkin_of in Hparse. run_monad. rewrite Hparse. run_monad.
  assert (Hon : fgeb_Z (total_seconds (clock (clock_reads st) - checkin))
                  CHECKIN_LIMIT = false).
  { rewrite total_seconds_geb by apply checkin_limit_range.
    apply Z.leb_gt, Hrecent. }
  unfold storage_pct, ticket_findings, storage_findings, pct_of_hundredths.
  destruct (Z.eqb_spec (Z.of_N (Device.localStorageAvailable d)
                        + Z.of_N (Device.localStorageUsed d)) 0) as [H0 | H0];
    [lia |].
  destruct (Device.activeTickets d =? 0); run_monad; rewrite Hon; run_monad;
    match goal with
    | |- context [fgtb_Z ?p STORAGE_PCT_THRESHOLD] =>
        destruct (fgtb_Z p STORAGE_PCT_THRESHOLD)
    end;
    run_monad; rewrite keeps_agent_checks;
    unfold device_errors, errors_at, append_device_error, set_results_data,
      set_clock_reads;
    cbn [results_data];
    rewrite ?lookup_alter_eq, ?lookup_insert_eq; reflexivity.
Qed.

(** The loop over the assets of a device, in both outcomes. *)
Lemma agents_loop_run (clock : nat -> Z) (device_name : string)
  (l : list Agent.t) (errors : list pystr) (st : state) :
  exists st',
    for_fold l (check_agent clock device_name) errors st
    = (match assets_error l with
       | None => Ok (errors ++ agents_findings clock (clock_reads st) l)%list
       | Some e => Raise e
       end, st')
    /\ same_report st st'.
Proof.
  revert errors st. induction l as [| a l IH]; intros errors st.
  - exists st. cbn. rewrite app_nil_r.
    split; [reflexivity | apply same_report_refl].
  - cbn [for_fold agents_findings assets_error]. unfold bind at 1.
    unfold agent_error, agent_active.
    destruct (Agent.isArchived a || Agent.isPaused a) eqn:Hskip; cbn [negb].
    + rewrite check_agent_skipped by exact Hskip. apply IH.
    + apply orb_false_elim in Hskip as [Harch Hpaused].
      destruct (check_agent_run clock device_name errors a st Harch Hpaused)
        as (st1 & Hrun & Hsame & Hclock).
      rewrite Hrun.
      destruct (first_timestamp_error (converted_timestamps a)) as [e |].
      * exists st1. split; [reflexivity | exact Hsame].
      * destruct (IH (errors ++ agent_findings (clock (clock_reads st)) a)%list
                    st1) as (st' & Hloop & Hsame').
        rewrite Hloop, (Hclock eq_refl), <- app_assoc.
        exists st'. split; [reflexivity |].
        exact (same_report_trans _ _ _ Hsame Hsame').
Qed.

(** The AGENT CHECKS part of a pass, in both outcomes: nothing is reported
    when the loop over the assets raises. *)
Lemma agent_checks_run (clock : nat -> Z)
  (api_assets : string -> list Agent.t) (d : Device.t) (errors : list pystr)
  (st : state) :
  let assets := api_assets (Device.serialNumber d) in
  let lines := (errors ++ agents_findings clock (clock_reads st) assets)%list in
  exists st',
    agent_checks clock api_assets d errors st
    = (match assets_error assets with
       | None => Ok tt
       | Some e => Raise e
       end, st')
    /\ MSG_BODY st'
       = (MSG_BODY st
          ++ match assets_error assets with
             | None => device_block (Device.name d) lines
             | Some _ => []
             end)%list
    /\ stdout st'
       = (stdout st
          ++ match assets_error assets with
             | None => device_printed (Device.name d) lines
             | Some _ => []
             end)%list.
Proof.
  intros assets lines. unfold agent_checks, getAssetDetails. run_monad.
  unfold bind.
  match goal with
  | |- context [for_fold ?l ?body ?errs ?s] =>
      destruct (agents_loop_run clock (Device.name d) l errs s)
        as (st1 & Hrun & Hbody & Hout & _)
  end.
  rewrite Hrun. cbn [clock_reads set_requests] in *.
  fold assets. fold lines.
  destruct (assets_error assets) as [e |].
  - exists st1. rewrite !app_nil_r. auto.
  - destruct lines as [| line lines'].
    + exists st1. cbn [device_block device_printed]. rewrite !app_nil_r. auto.
    + rewrite printErrors_spec. eexists. split; [reflexivity |].
      cbn [MSG_BODY stdout device_block device_printed].
      rewrite Hbody, Hout. split; reflexivity.
Qed.

(** The pass over a visible, online device with some storage, in both
    outcomes. *)
Lemma process_device_online_run
  (strptime : string -> option Z) (clock : nat -> Z)
  (api_assets : string -> list Agent.t) (d : Device.t) (st : state)
  (checkin : Z) :
  Device.hidden d = false ->
  checkin_of strptime d = Some checkin ->
  clock (clock_reads st) - checkin < CHECKIN_LIMIT * us_per_second ->
  (0 < Device.localStorageAvailable d + Device.localStorageUsed d)%N ->
  let assets := api_assets (Device.serialNumber d) in
  let lines := device_lines clock api_assets (clock_reads st) d in
  exists st',
    process_device strptime clock api_assets d st
    = (match assets_error assets with
       | None => Ok tt
       | Some e => Raise e
       end, st')
    /\ MSG_BODY st'
       = (MSG_BODY st
          ++ match assets_error assets with
             | None => device_block (Device.name d) lines
             | Some _ => []
             end)%list
    /\ stdout st'
       = (stdout st
          ++ match assets_error assets with
             | None => device_printed (Device.name d) lines
             | Some _ => []
             end)%list.
Proof.
  intros Hvisible Hparse Hrecent Htotal assets lines.
  unfold lines, device_lines. fold assets.
  unfold process_device. rewrite Hvisible.
  unfold checkin_of in Hparse. run_monad. rewrite Hparse. run_monad.
  assert (Hon : fgeb_Z (total_seconds (clock (clock_reads st) - checkin))
                  CHECKIN_LIMIT = false).
  { rewrite total_seconds_geb by apply checkin_limit_range.
    apply Z.leb_gt, Hrecent. }
  unfold storage_pct, ticket_findings, storage_findings, pct_of_hundredths.
  destruct (Z.eqb_spec (Z.of_N (Device.localStorageAvailable d)
                        + Z.of_N (Device.localStorageUsed d)) 0) as [H0 | H0];
    [lia |].
  destruct (Device.activeTickets d =? 0); run_monad; rewrite Hon; run_monad;
    match goal with
    | |- context [fgtb_Z ?p STORAGE_PCT_THRESHOLD] =>
        destruct (fgtb_Z p STORAGE_PCT_THRESHOLD)
    end;
    run_monad;
    match goal with
    | |- context [agent_checks ?c ?a ?dev ?errs ?s] =>
        destruct (agent_checks_run c a dev errs s) as (st' & Hrun & Hbody & Hout)
    end;
    exists st'; fold assets in Hrun, Hbody, Hout;
    (split; [exact Hrun |]);
    cbn [MSG_BODY stdout clock_reads set_results_data set_clock_reads app]
      in Hbody, Hout;
    cbn [app]; (split; [exact Hbody | exact Hout]).
Qed.

Lemma agents_findings_no_storage (clock : nat -> Z) (k : nat)
  (l : list Agent.t) (pct : float) :
  ~ In (msg_storage pct) (agents_findings clock k l).
Proof.
  revert k. induction l as [| a l IH]; intros k Hin; [destruct Hin |].
  cbn [agents_findings] in Hin.
  destruct (Agent.isArchived a || Agent.isPaused a); [exact (IH _ Hin) |].
  apply in_app_or in Hin as [Hin | Hin]; [| exact (IH _ Hin)].
  unfold agent_findings, backup_findings, offsite_findings,
    screenshot_findings, screenshot_status_findings in Hin.
  split_in; discriminate.
Qed.

(** The storage line among the lines of a device, in its block of the report
    and in what is printed for it. *)
Lemma storage_line_in_device_lines (clock : nat -> Z)
  (api_assets : string -> list Agent.t) (k : nat) (d : Device.t)
  (pct : float) :
  let lines := device_lines clock api_assets k d in
  (In (msg_storage pct) (device_block (Device.name d) lines)
   <-> In (msg_storage pct) (storage_findings d))
  /\ (In (msg_storage pct) (device_printed (Device.name d) lines)
      <-> In (msg_storage pct) (storage_findings d)).
Proof.
  intros lines.
  assert (Hlines : In (msg_storage pct) lines
                   <-> In (msg_storage pct) (storage_findings d)).
  { unfold lines, device_lines. rewrite !in_app_iff. split.
    - intros [Hin | [Hin | Hin]]; [| exact Hin |].
      + unfold ticket_findings in Hin. split_in. discriminate.
      + exfalso. exact (agents_findings_no_storage _ _ _ _ Hin).
    - intros Hin. right. left. exact Hin. }
  rewrite <- Hlines. clearbody lines. clear Hlines.
  destruct lines as [| line lines']; cbn [device_block device_printed].
  - split; reflexivity.
  - split.
    + split.
      * intros [Hin | Hin]; [discriminate |].
        apply in_app_or in Hin as [Hin | [Hin | []]];
          [exact Hin | discriminate].
      * intros Hin. right. apply in_or_app. left. exact Hin.
    + split.
      * intros [Hin | Hin]; [discriminate | exact Hin].
      * intros Hin. right. exact Hin.
Qed.

(** C1, as the code has it.  For a visible, online device with
    [used + available > 0], the local-storage line is produced exactly when
    the ratio [used / (used + available)], a float, rounded to 2 decimals, is
    at least 0.96: the script rounds the ratio, not the percentage, and then
    compares [ratio * 100] with 95.  The line is recorded for the device in
    [results_data] on that condition in every case; when no check of an asset
    of the device raises, the pass returns and the line is, on that same
    condition, in the block that the pass adds to the report buffer and in
    what it prints; when a check of an asset raises, the pass raises and adds
    nothing to the report nor to the output.  In exact terms the condition
    is that [used / (used + available)] is at least
    [storage_cut_num / storage_cut_den], the midpoint of the two floats
    around 0.955.  In particular used = 96, available = 4 rounds to 0.96 and
    gives the line, and used = 94, available = 6 rounds to 0.94 and does
    not. *)
Theorem storage_finding_iff_rounded_ratio
  (strptime : string -> option Z) (clock : nat -> Z)
  (api_assets : string -> list Agent.t) (d : Device.t) (st : state)
  (checkin : Z) :
  Device.hidden d = false ->
  checkin_of strptime d = Some checkin ->
  clock (clock_reads st) - checkin < CHECKIN_LIMIT * us_per_second ->
  (0 < Device.localStorageAvailable d + Device.localStorageUsed d)%N ->
  let used := Z.of_N (Device.localStorageUsed d) in
  let available := Z.of_N (Device.localStorageAvailable d) in
  let r := fst (process_device strptime clock api_assets d st) in
  let st' := snd (process_device strptime clock api_assets d st) in
  let ratio_hundredths := format_2f (rnd_div used (available + used)) in
  ((exists pct, In (msg_storage pct) (device_errors (Device.name d) st'))
   <-> 96 <= ratio_hundredths)
  /\ match assets_error (api_assets (Device.serialNumber d)) with
     | None =>
         r = Ok tt
         /\ exists added printed,
              MSG_BODY st' = (MSG_BODY st ++ added)%list
              /\ stdout st' = (stdout st ++ printed)%list
              /\ ((exists pct, In (msg_storage pct) added)
                  <-> 96 <= ratio_hundredths)
              /\ ((exists pct, In (msg_storage pct) printed)
                  <-> 96 <= ratio_hundredths)
     | Some e =>
         r = Raise e /\ MSG_BODY st' = MSG_BODY st /\ stdout st' = stdout st
     end
  /\ (96 <= ratio_hundredths
      <-> storage_cut_num * (used + available) <= storage_cut_den * used)
  /\ 96 <= format_2f (rnd_div 96 (4 + 96))
  /\ ~ 96 <= format_2f (rnd_div 94 (6 + 94)).
Proof.
  intros Hvisible Hparse Hrecent Htotal used available r st' k.
  destruct (format_2f_ratio used (available + used)) as [Hk Hcut];
    [unfold used, available; lia .. |].
  fold k in Hk, Hcut.
  assert (H96 : format_2f (rnd_div 96 (4 + 96)) = 96) by (vm_compute; reflexivity).
  assert (H94 : format_2f (rnd_div 94 (6 + 94)) = 94) by (vm_compute; reflexivity).
  rewrite H96, H94.
  assert (Hline : (exists pct, In (msg_storage pct) (storage_findings d))
                  <-> 96 <= k).
  { unfold storage_findings. fold used available. fold k.
    rewrite pct_of_hundredths_gt by exact Hk.
    destruct (Z.leb_spec 96 k) as [Hge | Hlt].
    - split; [intros _; exact Hge |]. intros _. eexists. left. reflexivity.
    - split; [| lia]. intros [pct []]. }
  split; [| split; [| split; [| lia]]].
  - unfold st'. rewrite (process_device_online_errors _ _ _ _ _ checkin)
      by assumption.
    rewrite <- Hline. split; intros [pct Hin]; exists pct.
    + apply in_app_or in Hin as [Hin | Hin]; [| exact Hin].
      unfold ticket_findings in Hin. split_in. discriminate.
    + apply in_or_app. right. exact Hin.
  - destruct (process_device_online_run strptime clock api_assets d st checkin
                Hvisible Hparse Hrecent Htotal) as (s & Hrun & Hbody & Hout).
    unfold r, st'. rewrite Hrun. cbn [fst snd].
    destruct (assets_error (api_assets (Device.serialNumber d))) as [e |].
    + rewrite !app_nil_r in Hbody, Hout. auto.
    + split; [reflexivity |]. eexists _, _.
      split; [exact Hbody |]. split; [exact Hout |].
      rewrite <- Hline.
      split; split; intros [pct Hin]; exists pct;
        pose proof (storage_line_in_device_lines clock api_assets
                      (clock_reads st) d pct) as Hiff;
        cbv zeta in Hiff; destruct Hiff as [Hblock Hprinted]; tauto.
  - rewrite Hcut. replace (used + available) with (available + used) by lia.
    reflexivity.
Qed.

(** A visible, online device with 9501 bytes used and 499 available: 95.01%
    of the storage is used, above 95 in the specification's terms, and the
    pass over the device records no line (the ratio rounds to 0.95). *)
Lemma storage_9501_of_10000_not_reported :
  Device.hidden (device_online 499 9501) = false
  /\ checkin_of strptime_sample (device_online 499 9501)
     = Some (1700000000 * us_per_second)
  /\ clock_fixed 0 - 1700000000 * us_per_second < CHECKIN_LIMIT * us_per_second
  /\ 9500 < spec_storage_pct 9501 499
  /\ process_device strptime_sample clock_fixed (fun _ => [])
       (device_online 499 9501) initial_state
     = (Ok tt,
        mkState [] {[ "NAS-02"%string := mkDeviceResult [] ∅ ]} []
          [GetAssets "SN0002"] 1 false []).
Proof. vm_compute. repeat split. Qed.

Lemma storage_finding_iff_rounded_ratio_witness :
  fst (process_device strptime_sample clock_fixed (fun _ => [])
         (device_online 4 96) initial_state)
  = Ok tt
  /\ exists added printed,
       MSG_BODY (snd (process_device strptime_sample clock_fixed (fun _ => [])
                        (device_online 4 96) initial_state))
       = (MSG_BODY initial_state ++ added)%list
       /\ stdout (snd (process_device strptime_sample clock_fixed
                         (fun _ => []) (device_online 4 96) initial_state))
          = (stdout initial_state ++ printed)%list
       /\ ((exists pct, In (msg_storage pct) added)
           <-> 96 <= format_2f (rnd_div 96 (4 + 96)))
       /\ ((exists pct, In (msg_storage pct) printed)
           <-> 96 <= format_2f (rnd_div 96 (4 + 96))).
Proof.
  apply (storage_finding_iff_rounded_ratio strptime_sample clock_fixed
           (fun _ => []) (device_online 4 96) initial_state
           (1700000000 * us_per_second) eq_refl eq_refl eq_refl eq_refl).
Defined.

(** The two examples of the specification, in [results_data] and in the
    report buffer. *)
Example storage_96_of_100_reported :
  device_errors "NAS-02"
    (snd (process_device strptime_sample clock_fixed (fun _ => [])
            (device_online 4 96) initial_state))
  = [msg_storage (float_of_Z 96)]
  /\ MSG_BODY
       (snd (process_device strptime_sample clock_fixed (fun _ => [])
               (device_online 4 96) initial_state))
     = [msg_device_header "NAS-02"; msg_storage (float_of_Z 96); Lit nl].
Proof. vm_compute. split; reflexivity. Qed.

Example storage_94_of_100_not_reported :
  device_errors "NAS-02"
    (snd (process_device strptime_sample clock_fixed (fun _ => [])
            (device_online 6 94) initial_state))
  = []
  /\ MSG_BODY
       (snd (process_device strptime_sample clock_fixed (fun _ => [])
               (device_online 6 94) initial_state))
     = [].
Proof. vm_compute. split; reflexivity. Qed.

(** C9.  The storage check divides by [used + available] without a guard.
    For a visible, online device whose two sizes are 0 the pass over the
    device raises [ZeroDivisionError]; and the percentage is computed exactly
    when [used + available > 0]. *)
Theorem zero_storage_divides_by_zero
  (strptime : string -> option Z) (clock : nat -> Z)
  (api_assets : string -> list Agent.t) (d : Device.t) (st : state)
  (checkin : Z) :
  Device.hidden d = false ->
  checkin_of strptime d = Some checkin ->
  clock (clock_reads st) - checkin < CHECKIN_LIMIT * us_per_second ->
  (Device.localStorageUsed d = 0%N -> Device.localStorageAvailable d = 0%N ->
   exists st',
     process_device strptime clock api_assets d st
     = (Raise ZeroDivisionError, st'))
  /\ (forall (used available : N) (st0 : state),
        (exists pct,
            storage_pct (Z.of_N used) (Z.of_N available + Z.of_N used) st0
            = (Ok pct, st0))
        <-> (0 < used + available)%N)
  /\ (forall (used available : N) (st0 : state),
        storage_pct (Z.of_N used) (Z.of_N available + Z.of_N used) st0
        = (Raise ZeroDivisionError, st0)
        <-> (used + available = 0)%N).
Proof.
  intros Hvisible Hparse Hrecent. split; [| split].
  - intros Hused Havail.
    unfold process_device. rewrite Hvisible, Hused, Havail.
    unfold checkin_of in Hparse. run_monad. rewrite Hparse. run_monad.
    assert (Hon : fgeb_Z (total_seconds (clock (clock_reads st) - checkin))
                    CHECKIN_LIMIT = false).
    { rewrite total_seconds_geb by apply checkin_limit_range.
      apply Z.leb_gt, Hrecent. }
    destruct (Device.activeTickets d =? 0); run_monad; rewrite Hon; run_monad;
      eexists; reflexivity.
  - intros used available st0. unfold storage_pct.
    destruct (Z.eqb_spec (Z.of_N available + Z.of_N used) 0) as [H0 | H0].
    + split; [intros [pct H]; discriminate | lia].
    + split; [lia | intros _; eexists; reflexivity].
  - intros used available st0. unfold storage_pct.
    destruct (Z.eqb_spec (Z.of_N available + Z.of_N used) 0) as [H0 | H0].
    + split; [lia | reflexivity].
    + split; [discriminate | lia].
Qed.

Lemma zero_storage_divides_by_zero_witness :
  exists st',
    process_device strptime_sample clock_fixed (fun _ => [])
      (device_online 0 0) initial_state
    = (Raise ZeroDivisionError, st').
Proof.
  apply (zero_storage_divides_by_zero strptime_sample clock_fixed
           (fun _ => []) (device_online 0 0) initial_state
           (1700000000 * us_per_second)); reflexivity.
Defined.

(** ** A device without findings *)

Lemma for_fold_check_agent_ok (clock : nat -> Z) (device_name : string)
  (l : list Agent.t) (errors : list pystr) (st : state) :
  forallb agent_evaluable l = true ->
  exists st',
    for_fold l (check_agent clock device_name) errors st
    = (Ok (errors ++ agents_findings clock (clock_reads st) l)%list, st')
    /\ same_report st st'.
Proof.
  revert errors st. induction l as [| a l IH]; intros errors st Hl.
  - exists st. cbn. rewrite app_nil_r. split; [reflexivity | apply same_report_refl].
  - cbn [forallb] in Hl. apply andb_prop in Hl as [Ha Hl].
    cbn [for_fold agents_findings]. unfold bind at 1.
    destruct (Agent.isArchived a || Agent.isPaused a) eqn:Hskip.
    + rewrite check_agent_skipped by exact Hskip. apply IH, Hl.
    + apply orb_false_elim in Hskip as [Harch Hpaused].
      unfold agent_evaluable in Ha. rewrite Harch, Hpaused in Ha. cbn in Ha.
      destruct (check_agent_ok clock device_name errors a st Harch Hpaused Ha)
        as (st1 & Hrun & Hsame & Hclock).
      rewrite Hrun.
      destruct (IH (errors ++ agent_findings (clock (clock_reads st)) a)%list
                  st1 Hl) as (st2 & Hrun2 & Hsame2).
      rewrite Hrun2, Hclock, <- app_assoc.
      exists st2. split; [reflexivity |].
      eapply same_report_trans; eassumption.
Qed.

Lemma process_device_hidden (strptime : string -> option Z) (clock : nat -> Z)
  (api_assets : string -> list Agent.t) (d : Device.t) (st : state) :
  Device.hidden d = true ->
  process_device strptime clock api_assets d st = (Ok tt, st).
Proof. intros H. unfold process_device. rewrite H. reflexivity. Qed.

Lemma process_device_quiet (strptime : string -> option Z) (clock : nat -> Z)
  (api_assets : string -> list Agent.t) (d : Device.t) (st : state) :
  device_quiet strptime clock api_assets (clock_reads st) d ->
  exists st',
    process_device strptime clock api_assets d st = (Ok tt, st')
    /\ MSG_BODY st' = MSG_BODY st
    /\ stdout st' = stdout st
    /\ outbox st' = outbox st.
Proof.
  intros (Hvisible & (checkin & Hparse & Hrecent) & Htotal & Hticket
          & Hstorage & Heval & Hagents).
  unfold process_device. rewrite Hvisible.
  unfold checkin_of in Hparse. run_monad. rewrite Hparse. run_monad.
  assert (Hon : fgeb_Z (total_seconds (clock (clock_reads st) - checkin))
                  CHECKIN_LIMIT = false).
  { rewrite total_seconds_geb by apply checkin_limit_range.
    apply Z.leb_gt, Hrecent. }
  unfold ticket_findings in Hticket.
  destruct (Device.activeTickets d =? 0); [| discriminate].
  run_monad. rewrite Hon. run_monad.
  unfold storage_pct.
  destruct (Z.eqb_spec (Z.of_N (Device.localStorageAvailable d)
                        + Z.of_N (Device.localStorageUsed d)) 0) as [H0 | H0];
    [lia |].
  run_monad.
  unfold storage_findings, pct_of_hundredths in Hstorage.
  match goal with
  | |- context [fgtb_Z ?p STORAGE_PCT_THRESHOLD] =>
      destruct (fgtb_Z p STORAGE_PCT_THRESHOLD); [discriminate |]
  end.
  run_monad.
  unfold agent_checks, getAssetDetails. run_monad. unfold bind.
  match goal with
  | |- context [for_fold ?l ?body ?errs ?s] =>
      destruct (for_fold_check_agent_ok clock (Device.name d) l errs s Heval)
        as (st' & Hrun & Hsame)
  end.
  rewrite Hrun. cbn [clock_reads set_requests set_results_data set_clock_reads].
  rewrite Hagents. cbn [app].
  exists st'. split; [reflexivity |].
  destruct Hsame as (Hb & Hs & Ho & _). cbn in Hb, Hs, Ho. auto.
Qed.

(** ** A whole run *)

Lemma for_each_hidden_and_quiet
  (strptime : string -> option Z) (clock : nat -> Z)
  (api_assets : string -> list Agent.t) (h q : Device.t)
  (l : list Device.t) (st : state) :
  Device.hidden h = true ->
  device_quiet strptime clock api_assets (clock_reads st) q ->
  l = [h; q] \/ l = [q; h] ->
  exists st',
    for_each l (process_device strptime clock api_assets) st = (Ok tt, st')
    /\ MSG_BODY st' = MSG_BODY st
    /\ stdout st' = stdout st
    /\ outbox st' = outbox st.
Proof.
  intros Hh Hq Hl.
  destruct (process_device_quiet strptime clock api_assets q st Hq)
    as (st' & Hrun & Hbody & Hout & Hbox).
  exists st'.
  destruct Hl as [-> | ->]; cbn [for_each]; unfold bind, ret.
  - rewrite (process_device_hidden _ _ _ h st Hh), Hrun. auto.
  - rewrite Hrun, (process_device_hidden _ _ _ h st' Hh). auto.
Qed.

(** C2, as the code has it.  A run whose device list is one hidden device and
    one visible device that triggers no findings leaves the report buffer
    empty and prints nothing.  The mail is gated by [SEND_EMAIL] alone: with
    the flag disabled no mail is sent and the run ends with exit status 0;
    with the flag enabled the script sends one mail whose body is empty (and
    ends with exit status 0 when the relay takes it, with the transport error
    otherwise). *)
Theorem quiet_run_empty_buffer
  (SEND_EMAIL : bool) (strptime : string -> option Z)
  (str_upper : string -> string) (clock : nat -> Z)
  (api_base : api_response) (api_page : Z -> api_response)
  (api_assets : string -> list Agent.t) (smtp_relay : mail -> bool)
  (argv0 : string) (args : list string)
  (d1 d2 : Device.t) (items0 : list Device.t) (totalPages0 totalPages : Z) :
  (2 <= List.length args)%nat ->
  api_base = ApiPage items0 totalPages0 ->
  api_page 1 = ApiPage [d1; d2] totalPages ->
  totalPages <= 1 ->
  (Device.hidden d1 = true /\ device_quiet strptime clock api_assets 0 d2)
  \/ (device_quiet strptime clock api_assets 0 d1 /\ Device.hidden d2 = true) ->
  exists st',
    main SEND_EMAIL strptime str_upper clock api_base api_page api_assets
      smtp_relay argv0 args initial_state
    = (if SEND_EMAIL && negb (smtp_relay empty_report_mail)
       then Raise SMTPException else Raise (SystemExit 0),
       st')
    /\ MSG_BODY st' = []
    /\ stdout st' = []
    /\ outbox st' =
       if SEND_EMAIL && smtp_relay empty_report_mail
       then [empty_report_mail] else [].
Proof.
  intros Hargs Hbase Hpage Hpages Hdevices.
  unfold main.
  rewrite (proj2 (Nat.ltb_ge _ _) Hargs).
  unfold Datto_init, getDevices. rewrite Hbase, Hpage.
  unfold response_items, response_totalPages. run_monad.
  assert (Hgt : (totalPages >? 1) = false)
    by (rewrite Z.gtb_ltb; apply Z.ltb_ge; lia).
  rewrite Hgt. run_monad.
  match goal with
  | |- context [for_each ?l ?body ?s] =>
      assert (Hrun : exists st1,
                 for_each l body s = (Ok tt, st1)
                 /\ MSG_BODY st1 = [] /\ stdout st1 = [] /\ outbox st1 = [])
  end.
  { destruct Hdevices as [[Hh Hq] | [Hq Hh]].
    - eapply for_each_hidden_and_quiet; [exact Hh | exact Hq |].
      destruct (String.leb _ _); auto.
    - eapply for_each_hidden_and_quiet; [exact Hh | exact Hq |].
      destruct (String.leb _ _); auto. }
  destruct Hrun as (st1 & Hrun & Hbody & Hout & Hbox).
  rewrite Hrun.
  destruct SEND_EMAIL; unfold email_report, set_session_open, set_outbox;
    cbn [MSG_BODY stdout outbox andb]; rewrite ?Hbody;
    fold empty_report_mail;
    [destruct (smtp_relay empty_report_mail) |];
    cbn [negb];
    (eexists; split; [reflexivity |]);
    cbn [MSG_BODY stdout outbox]; rewrite ?Hbody, ?Hout, ?Hbox;
    repeat split; reflexivity.
Qed.

Lemma device_online_quiet :
  device_quiet strptime_sample clock_fixed assets_sample 0 (device_online 6 94).
Proof.
  unfold device_quiet. split; [reflexivity |]. split.
  - exists (1700000000 * us_per_second). split; reflexivity.
  - repeat split; vm_compute; reflexivity.
Qed.

(** The mail flag enabled and a relay that takes every message, one hidden
    device and one visible device without findings: the report buffer is
    empty and a mail, with an empty body, is sent. *)
Lemma quiet_run_sends_mail_when_enabled :
  Device.hidden device_hidden = true
  /\ device_quiet strptime_sample clock_fixed assets_sample 0
       (device_online 6 94)
  /\ exists st',
       main true strptime_sample str_upper_ascii clock_fixed
         (ApiPage [] 1) page_sample assets_sample (fun _ => true)
         "Datto_backup_check.py" ["user"; "secret"]%string initial_state
       = (Raise (SystemExit 0), st')
       /\ MSG_BODY st' = []
       /\ outbox st' = [empty_report_mail].
Proof.
  split; [reflexivity |]. split; [exact device_online_quiet |].
  eexists. split; [vm_compute; reflexivity |]. split; reflexivity.
Qed.

Lemma quiet_run_empty_buffer_witness :
  exists st',
    main false strptime_sample str_upper_ascii clock_fixed
      (ApiPage [] 1) page_sample assets_sample (fun _ => true)
      "Datto_backup_check.py" ["user"; "secret"]%string initial_state
    = (Raise (SystemExit 0), st')
    /\ MSG_BODY st' = []
    /\ stdout st' = []
    /\ outbox st' = [].
Proof.
  apply (quiet_run_empty_buffer false strptime_sample str_upper_ascii
           clock_fixed (ApiPage [] 1) page_sample assets_sample (fun _ => true)
           "Datto_backup_check.py" ["user"; "secret"]%string
           (device_online 6 94) device_hidden [] 1 1).
  - cbn. lia.
  - reflexivity.
  - reflexivity.
  - lia.
  - right. split; [exact device_online_quiet | reflexivity].
Defined.

(** ** [getDevices] *)

Lemma string_leb_trans (a b c : string) :
  String.leb a b = true -> String.leb b c = true -> String.leb a c = true.
Proof.
  intros Hab Hbc. apply Is_true_true.
  apply Is_true_true in Hab, Hbc.
  change (String.le a c). change (String.le a b) in Hab.
  change (String.le b c) in Hbc. etrans; eassumption.
Qed.

Lemma string_leb_refl (a : string) : String.leb a a = true.
Proof. destruct (String.leb_total a a); assumption. Qed.

Section Sorting.

Variable str_upper : string -> string.

Local Abbreviation key := (sort_key str_upper).
Local Abbreviation insert_sorted := (insert_sorted str_upper).
Local Abbreviation sorted := (sorted str_upper).

Local Abbreviation key_le := (key_le str_upper).

Lemma insert_sorted_perm (d : Device.t) (l : list Device.t) :
  Permutation (insert_sorted d l) (d :: l).
Proof.
  induction l as [| d' l IH]; cbn; [reflexivity |].
  destruct (String.leb (key d) (key d')); [reflexivity |].
  rewrite IH. apply perm_swap.
Qed.

Lemma sorted_perm (l : list Device.t) : Permutation (sorted l) l.
Proof.
  induction l as [| d l IH]; cbn; [reflexivity |].
  rewrite insert_sorted_perm. constructor. exact IH.
Qed.

Lemma insert_sorted_sorted (d : Device.t) (l : list Device.t) :
  StronglySorted key_le l -> StronglySorted key_le (insert_sorted d l).
Proof.
  induction 1 as [| d' l Hl IH Hd']; cbn.
  - repeat constructor.
  - destruct (String.leb (key d) (key d')) eqn:Hle.
    + constructor; [constructor; assumption |].
      constructor; [exact Hle |].
      eapply Forall_impl; [exact Hd' |]. intros x Hx.
      unfold key_le in *. eapply string_leb_trans; eassumption.
    + constructor; [exact IH |].
      assert (Hd : key_le d' d).
      { unfold key_le. destruct (String.leb_total (key d) (key d'));
          [congruence | assumption]. }
      eapply Permutation_Forall; [symmetry; apply insert_sorted_perm |].
      constructor; assumption.
Qed.

Lemma sorted_sorted (l : list Device.t) : StronglySorted key_le (sorted l).
Proof.
  induction l as [| d l IH]; cbn; [constructor |].
  apply insert_sorted_sorted, IH.
Qed.

(** The sort is stable: devices with the same key keep their order. *)
Lemma insert_sorted_stable (k : string) (d : Device.t) (l : list Device.t) :
  List.filter (fun x => String.eqb (key x) k) (insert_sorted d l)
  = List.filter (fun x => String.eqb (key x) k) (d :: l).
Proof.
  induction l as [| d' l IH]; [reflexivity |].
  cbn [insert_sorted].
  destruct (String.leb (key d) (key d')) eqn:Hle; [reflexivity |].
  cbn [List.filter] in *. rewrite IH.
  destruct (String.eqb_spec (key d) k) as [Hd | Hd];
    destruct (String.eqb_spec (key d') k) as [Hd' | Hd']; try reflexivity.
  rewrite Hd, Hd', string_leb_refl in Hle. discriminate.
Qed.

Lemma sorted_stable (k : string) (l : list Device.t) :
  List.filter (fun x => String.eqb (key x) k) (sorted l)
  = List.filter (fun x => String.eqb (key x) k) l.
Proof.
  induction l as [| d l IH]; [reflexivity |].
  change (sorted (d :: l)) with (insert_sorted d (sorted l)).
  rewrite insert_sorted_stable. cbn [List.filter]. rewrite IH. reflexivity.
Qed.

End Sorting.

Lemma py_range_cons (lo hi : Z) :
  lo < hi -> py_range lo hi = lo :: py_range (lo + 1) hi.
Proof.
  intros H. unfold py_range.
  replace (Z.to_nat (hi - lo)) with (S (Z.to_nat (hi - (lo + 1)))) by lia.
  cbn [seq map]. f_equal; [lia |].
  rewrite <- seq_shift, map_map. apply map_ext. intros i. lia.
Qed.

Lemma in_py_range (lo hi p : Z) : In p (py_range lo hi) <-> lo <= p < hi.
Proof.
  unfold py_range. rewrite in_map_iff. split.
  - intros (i & <- & Hi). apply in_seq in Hi. lia.
  - intros Hp. exists (Z.to_nat (p - lo)). split; [lia |].
    apply in_seq. lia.
Qed.

Lemma fetch_pages (api_page : Z -> api_response) (pages : list Z)
  (devices : list Device.t) (st : state) :
  (forall p, In p pages -> is_result_page (api_page p) = true) ->
  for_fold pages
    (fun devices page =>
       session_get (GetPage page) ;;;
       items <- response_items (api_page page) ;;
       ret (devices ++ items)%list)
    devices st
  = (Ok (devices ++ List.concat (map (page_items api_page) pages))%list,
     set_requests (fun rs => rs ++ map GetPage pages)%list st).
Proof.
  revert devices st. induction pages as [| p pages IH]; intros devices st Hok.
  - cbn. unfold set_requests. rewrite !app_nil_r. destruct st; reflexivity.
  - cbn [for_fold map List.concat]. unfold bind at 1.
    pose proof (Hok p (or_introl eq_refl)) as Hp.
    unfold page_items at 1. unfold response_items.
    destruct (api_page p) as [| items tp]; [discriminate |].
    run_monad. rewrite IH by (intros q Hq; apply Hok; right; exact Hq).
    unfold set_requests. cbn. rewrite <- !app_assoc. reflexivity.
Qed.

(** C6.  When every page from 1 to [totalPages] is a result page,
    [getDevices] requests the pages 1 to [totalPages] in order and returns
    the concatenation of their ['items'], sorted by upper-cased name: the
    result has exactly the items of the concatenation, none dropped or
    duplicated, in non-decreasing order of the upper-cased name, and items
    whose upper-cased names are equal keep the order of the concatenation. *)
Theorem getDevices_all_pages_sorted
  (str_upper : string -> string) (api_page : Z -> api_response) (st : state)
  (items1 : list Device.t) (totalPages : Z) :
  api_page 1 = ApiPage items1 totalPages ->
  1 <= totalPages ->
  (forall p, 2 <= p <= totalPages -> is_result_page (api_page p) = true) ->
  let pages := py_range 1 (totalPages + 1) in
  let all := List.concat (map (page_items api_page) pages) in
  exists devices st',
    getDevices str_upper api_page st = (Ok devices, st')
    /\ requests st' = (requests st ++ map GetPage pages)%list
    /\ devices = sorted str_upper all
    /\ Permutation devices all
    /\ StronglySorted
         (fun a b => String.leb (str_upper (Device.name a))
                       (str_upper (Device.name b)) = true)
         devices
    /\ forall k,
         List.filter (fun d => String.eqb (str_upper (Device.name d)) k) devices
         = List.filter (fun d => String.eqb (str_upper (Device.name d)) k) all.
Proof.
  intros Hfirst Hpages Hok pages all.
  assert (Hall : all = (items1 ++ List.concat (map (page_items api_page)
                                        (py_range 2 (totalPages + 1))))%list).
  { unfold all, pages. rewrite py_range_cons by lia.
    cbn [map List.concat]. unfold page_items at 1. rewrite Hfirst. reflexivity. }
  assert (Hrun : exists st',
             getDevices str_upper api_page st = (Ok (sorted str_upper all), st')
             /\ requests st' = (requests st ++ map GetPage pages)%list).
  { unfold getDevices. rewrite Hfirst. unfold response_items, response_totalPages.
    run_monad. unfold pages. rewrite (py_range_cons 1) by lia.
    change (1 + 1) with 2.
    destruct (Z.gtb_spec totalPages 1) as [Hgt | Hle].
    - match goal with
      | |- context [for_fold ?l ?body ?d ?s] =>
          replace (for_fold l body d s)
            with (Ok (d ++ List.concat (map (page_items api_page) l))%list,
                  set_requests (fun rs => rs ++ map GetPage l)%list s)
            by (symmetry; apply fetch_pages;
                intros p Hp; apply Hok; apply in_py_range in Hp; lia)
      end.
      rewrite <- Hall. eexists. split; [reflexivity |].
      cbn. rewrite <- app_assoc. reflexivity.
    - assert (totalPages = 1) as -> by lia.
      rewrite Hall. change (py_range 2 (1 + 1)) with (@nil Z).
      cbn [map List.concat]. rewrite app_nil_r.
      eexists. split; reflexivity. }
  destruct Hrun as (st' & Hrun & Hreq).
  exists (sorted str_upper all), st'.
  split; [exact Hrun |]. split; [exact Hreq |]. split; [reflexivity |].
  split; [apply sorted_perm |]. split; [apply sorted_sorted |].
  intros k. apply (sorted_stable str_upper k).
Qed.

Lemma getDevices_all_pages_sorted_witness :
  exists devices st',
    getDevices str_upper_ascii two_pages initial_state = (Ok devices, st')
    /\ requests st' = [GetPage 1; GetPage 2]
    /\ map Device.name devices = ["archive"; "NAS-01"; "NAS-02"]%string.
Proof.
  destruct (getDevices_all_pages_sorted str_upper_ascii two_pages
              initial_state [device_online 6 94; device_hidden] 2 eq_refl)
    as (devices & st' & Hrun & Hreq & Hsorted & _).
  - lia.
  - intros p Hp. assert (p = 2) as -> by lia. reflexivity.
  - exists devices, st'. split; [exact Hrun |]. split; [exact Hreq |].
    rewrite Hsorted. reflexivity.
Defined.

(** * Further properties of the script *)

(** ** The report buffer *)

(** X1.  [printErrors] always returns; it appends to the report buffer the device
    header, the lines in order and a newline entry, prints the header and the
    lines (not the newline entry), and touches nothing else. *)
Theorem printErrors_appends_block (errors : list pystr) (device_name : string)
  (st : state) :
  exists st',
    printErrors errors device_name st = (Ok tt, st')
    /\ MSG_BODY st' =
         (MSG_BODY st ++ msg_device_header device_name :: errors ++ [Lit nl])%list
    /\ stdout st' = (stdout st ++ msg_device_header device_name :: errors)%list
    /\ List.length (MSG_BODY st')
       = (List.length (MSG_BODY st) + List.length errors + 2)%nat
    /\ results_data st' = results_data st
    /\ requests st' = requests st
    /\ clock_reads st' = clock_reads st
    /\ session_open st' = session_open st
    /\ outbox st' = outbox st.
Proof.
  eexists. split; [apply printErrors_spec |].
  cbn [MSG_BODY stdout results_data requests clock_reads session_open outbox].
  repeat split.
  cbn [app]. rewrite !length_app. cbn [List.length]. rewrite !length_app.
  cbn [List.length]. lia.
Qed.

(** ** Fatal errors before the main loop *)

(** X2.  With fewer than two arguments the script prints the two usage lines and
    exits with status 1: the session is never created, nothing is requested,
    the clock is not read and no mail is sent, whatever the flag and the
    server. *)
Theorem missing_credentials_exit_1
  (SEND_EMAIL : bool) (strptime : string -> option Z)
  (str_upper : string -> string) (clock : nat -> Z)
  (api_base : api_response) (api_page : Z -> api_response)
  (api_assets : string -> list Agent.t) (smtp_relay : mail -> bool)
  (argv0 : string) (args : list string) (st : state) :
  (List.length args < 2)%nat ->
  main SEND_EMAIL strptime str_upper clock api_base api_page api_assets
    smtp_relay argv0 args st
  = (Raise (SystemExit 1),
     set_stdout
       (fun out =>
          out ++ [ Lit (nl ++ "[!] ERROR - Please provide the API username & password!");
                   Fmt ("    Usage:  python3 {} <API username> <API password>" ++ nl)
                       [AStr argv0] ])%list
       st).
Proof.
  intros Hargs. unfold main.
  rewrite (proj2 (Nat.ltb_lt _ _) Hargs).
  run_monad. unfold set_stdout. cbn. rewrite <- app_assoc. reflexivity.
Qed.

Lemma missing_credentials_exit_1_witness :
  main true strptime_sample str_upper_ascii clock_fixed (ApiPage [] 1)
    page_sample assets_sample (fun _ => true) "Datto_backup_check.py"
    ["user"]%string initial_state
  = (Raise (SystemExit 1),
     set_stdout
       (fun out =>
          out ++ [ Lit (nl ++ "[!] ERROR - Please provide the API username & password!");
                   Fmt ("    Usage:  python3 {} <API username> <API password>" ++ nl)
                       [AStr "Datto_backup_check.py"%string] ])%list
       initial_state).
Proof.
  apply (missing_credentials_exit_1 true strptime_sample str_upper_ascii
           clock_fixed (ApiPage [] 1) page_sample assets_sample (fun _ => true)
           "Datto_backup_check.py" ["user"]%string initial_state).
  cbn. lia.
Defined.

(** X3.  When the connectivity probe of the constructor is answered with the error
    envelope, the script prints the server's message and exits with status 1
    after that single request: no page of the listing is requested, no device
    is evaluated, the session stays open and no mail is sent. *)
Theorem probe_error_exit_1
  (SEND_EMAIL : bool) (strptime : string -> option Z)
  (str_upper : string -> string) (clock : nat -> Z)
  (api_base : api_response) (api_page : Z -> api_response)
  (api_assets : string -> list Agent.t) (smtp_relay : mail -> bool)
  (argv0 : string) (args : list string) (st : state)
  (code : Z) (message : string) :
  (2 <= List.length args)%nat ->
  api_base = ApiError code message ->
  exists st',
    main SEND_EMAIL strptime str_upper clock api_base api_page api_assets
      smtp_relay argv0 args st
    = (Raise (SystemExit 1), st')
    /\ requests st' = (requests st ++ [GetBase])%list
    /\ stdout st' =
         (stdout st
          ++ [Fmt ("[!]   Critical Error:  " ++ dq ++ "{}" ++ dq) [AStr message]])%list
    /\ session_open st' = true
    /\ MSG_BODY st' = MSG_BODY st
    /\ results_data st' = results_data st
    /\ clock_reads st' = clock_reads st
    /\ outbox st' = outbox st.
Proof.
  intros Hargs Hbase. unfold main.
  rewrite (proj2 (Nat.ltb_ge _ _) Hargs).
  unfold Datto_init. rewrite Hbase. run_monad.
  eexists. split; [reflexivity |]. repeat split.
Qed.

Lemma probe_error_exit_1_witness :
  exists st',
    main true strptime_sample str_upper_ascii clock_fixed
      (ApiError 401 "Unauthorized") page_sample assets_sample (fun _ => true)
      "Datto_backup_check.py" ["user"; "secret"]%string initial_state
    = (Raise (SystemExit 1), st')
    /\ requests st' = [GetBase]
    /\ outbox st' = [].
Proof.
  destruct (probe_error_exit_1 true strptime_sample str_upper_ascii clock_fixed
              (ApiError 401 "Unauthorized") page_sample assets_sample
              (fun _ => true) "Datto_backup_check.py" ["user"; "secret"]%string
              initial_state 401 "Unauthorized")
    as (st' & Hrun & Hreq & _ & _ & _ & _ & _ & Hbox).
  - cbn. lia.
  - reflexivity.
  - exists st'. split; [exact Hrun |]. split; [exact Hreq | exact Hbox].
Defined.

(** ** The device listing *)

(** The loop over the pages stops at the first page that is an error
    envelope, after requesting it. *)
Lemma fetch_pages_error (api_page : Z -> api_response) (n : nat) (lo hi : Z)
  (devices : list Device.t) (st : state) :
  lo + Z.of_nat n < hi ->
  (forall q, lo <= q < lo + Z.of_nat n -> is_result_page (api_page q) = true) ->
  is_result_page (api_page (lo + Z.of_nat n)) = false ->
  for_fold (py_range lo hi)
    (fun devices page =>
       session_get (GetPage page) ;;;
       items <- response_items (api_page page) ;;
       ret (devices ++ items)%list)
    devices st
  = (Raise (KeyError "items"),
     set_requests
       (fun rs => rs ++ map GetPage (py_range lo (lo + Z.of_nat n + 1)))%list st).
Proof.
  revert lo devices st. induction n as [| n IH]; intros lo devices st Hhi Hok Herr.
  - rewrite Z.add_0_r in *. rewrite (py_range_cons lo hi) by lia.
    rewrite (py_range_cons lo (lo + 1)) by lia.
    replace (py_range (lo + 1) (lo + 1)) with (@nil Z)
      by (unfold py_range; rewrite Z.sub_diag; reflexivity).
    cbn [for_fold]. unfold bind at 1, response_items.
    destruct (api_page lo) as [code message | items tp]; [| discriminate].
    run_monad. reflexivity.
  - rewrite (py_range_cons lo hi) by lia.
    rewrite (py_range_cons lo (lo + Z.of_nat (S n) + 1)) by lia.
    cbn [for_fold]. unfold bind at 1, response_items.
    pose proof (Hok lo ltac:(lia)) as Hlo.
    destruct (api_page lo) as [code message | items tp]; [discriminate |].
    run_monad.
    replace (lo + Z.of_nat (S n) + 1) with (lo + 1 + Z.of_nat n + 1) by lia.
    etransitivity.
    + apply (IH (lo + 1) (devices ++ items)%list
               (set_requests (fun rs => rs ++ [GetPage lo])%list st)).
      * lia.
      * intros q Hq. apply Hok. lia.
      * replace (lo + 1 + Z.of_nat n) with (lo + Z.of_nat (S n)) by lia.
        exact Herr.
    + unfold set_requests. cbn. rewrite <- app_assoc. reflexivity.
Qed.

(** X4.  A listing whose first page announces at most one page (also zero, or a
    negative number of pages): [getDevices] sends the single request for
    page 1 and returns the items of that page, sorted. *)
Theorem getDevices_single_page
  (str_upper : string -> string) (api_page : Z -> api_response) (st : state)
  (items1 : list Device.t) (totalPages : Z) :
  api_page 1 = ApiPage items1 totalPages ->
  totalPages <= 1 ->
  getDevices str_upper api_page st
  = (Ok (sorted str_upper items1),
     set_requests (fun rs => rs ++ [GetPage 1])%list st).
Proof.
  intros Hfirst Hpages. unfold getDevices. rewrite Hfirst.
  unfold response_items, response_totalPages. run_monad.
  assert (Hgt : (totalPages >? 1) = false)
    by (rewrite Z.gtb_ltb; apply Z.ltb_ge; lia).
  rewrite Hgt. reflexivity.
Qed.

Lemma getDevices_single_page_witness :
  getDevices str_upper_ascii (fun _ => ApiPage [device_offline; device_hidden] 0)
    initial_state
  = (Ok [device_hidden; device_offline],
     set_requests (fun rs => rs ++ [GetPage 1])%list initial_state).
Proof.
  apply (getDevices_single_page str_upper_ascii
           (fun _ => ApiPage [device_offline; device_hidden] 0) initial_state
           [device_offline; device_hidden] 0 eq_refl).
  lia.
Defined.

(** X5.  [getDevices] has no handler for an error envelope among the pages of the
    listing: when page [p] is the first page that is an error envelope
    ([p] is 1, or at most the number of pages that page 1 announces), it
    raises [KeyError 'items'] after requesting the pages 1 to [p], and
    requests no page after [p]. *)
Theorem getDevices_error_page
  (str_upper : string -> string) (api_page : Z -> api_response) (st : state)
  (p : Z) :
  1 <= p ->
  (forall q, 1 <= q < p -> is_result_page (api_page q) = true) ->
  is_result_page (api_page p) = false ->
  (1 < p ->
   exists items1 totalPages,
     api_page 1 = ApiPage items1 totalPages /\ p <= totalPages) ->
  getDevices str_upper api_page st
  = (Raise (KeyError "items"),
     set_requests (fun rs => rs ++ map GetPage (py_range 1 (p + 1)))%list st).
Proof.
  intros Hp Hok Herr Hfirst. unfold getDevices.
  destruct (Z.eq_dec p 1) as [-> | Hne].
  - unfold response_items.
    destruct (api_page 1) as [code message | items tp]; [| discriminate].
    run_monad. reflexivity.
  - destruct (Hfirst ltac:(lia)) as (items1 & totalPages & Hpage1 & Hle).
    rewrite Hpage1. unfold response_items at 1, response_totalPages. run_monad.
    rewrite (proj2 (Z.gtb_lt totalPages 1)) by lia.
    unfold bind.
    match goal with
    | |- context [for_fold ?l ?body ?d ?s] =>
        replace (for_fold l body d s)
          with (Raise (A := list Device.t) (KeyError "items"),
                set_requests
                  (fun rs => rs ++ map GetPage
                                     (py_range 2 (2 + Z.of_nat (Z.to_nat (p - 2)) + 1)))%list s)
          by (symmetry; apply fetch_pages_error;
              [lia
              | intros q Hq; apply Hok; lia
              | replace (2 + Z.of_nat (Z.to_nat (p - 2))) with p by lia;
                exact Herr])
    end.
    replace (2 + Z.of_nat (Z.to_nat (p - 2)) + 1) with (p + 1) by lia.
    rewrite (py_range_cons 1 (p + 1)) by lia. change (1 + 1) with 2.
    unfold set_requests. cbn. rewrite <- app_assoc. reflexivity.
Qed.

(** A listing of three pages whose second page is an error envelope. *)
Lemma getDevices_error_page_witness :
  getDevices str_upper_ascii
    (fun page => if page =? 2 then ApiError 500 "oops"
                 else ApiPage [device_offline] 3)
    initial_state
  = (Raise (KeyError "items"),
     set_requests (fun rs => rs ++ [GetPage 1; GetPage 2])%list initial_state).
Proof.
  apply (getDevices_error_page str_upper_ascii
           (fun page => if page =? 2 then ApiError 500 "oops"
                        else ApiPage [device_offline] 3)
           initial_state 2).
  - lia.
  - intros q Hq. assert (q = 1) as -> by lia. reflexivity.
  - reflexivity.
  - intros _. exists [device_offline], 3. split; [reflexivity | lia].
Defined.

(** ** Elapsed times *)


Lemma str_app_nonempty (a b : string) :
  b <> EmptyString -> (a ++ b)%string <> EmptyString.
Proof.
  intros Hb. destruct a as [| x a]; [exact Hb |].
  change (String x (a ++ b)%string <> EmptyString). discriminate.
Qed.

Lemma render_unit_nonempty (u : Z * (string * string)) :
  render_unit u <> EmptyString.
Proof.
  unfold render_unit. apply str_app_nonempty. discriminate.
Qed.

Lemma concat_cons_nonempty (x : string) (l : list string) :
  x <> EmptyString -> String.concat ", " (x :: l) <> EmptyString.
Proof.
  intros Hx. cbn [String.concat]. destruct l as [| y l]; [exact Hx |].
  destruct x as [| c x]; [congruence |].
  change (String c (x ++ ", " ++ String.concat ", " (y :: l))%string
          <> EmptyString).
  discriminate.
Qed.

Lemma unit_values_all_zero (s : Z) :
  List.filter (fun u => negb (fst u =? 0)) (unit_values s) = [] -> s = 0.
Proof.
  unfold unit_values. cbn [List.filter fst].
  pose proof (Z.div_mod s 604800 ltac:(lia)).
  pose proof (Z.mod_pos_bound s 604800 ltac:(lia)).
  pose proof (Z.div_mod (s mod 604800) 86400 ltac:(lia)) as Hd1.
  rewrite (Z.mod_mod_divide s 604800 86400) in Hd1 by (exists 7; lia).
  pose proof (Z.mod_pos_bound s 86400 ltac:(lia)).
  pose proof (Z.div_mod (s mod 86400) 3600 ltac:(lia)) as Hd2.
  rewrite (Z.mod_mod_divide s 86400 3600) in Hd2 by (exists 24; lia).
  pose proof (Z.mod_pos_bound s 3600 ltac:(lia)).
  pose proof (Z.div_mod (s mod 3600) 60 ltac:(lia)) as Hd3.
  rewrite (Z.mod_mod_divide s 3600 60) in Hd3 by (exists 60; lia).
  destruct (Z.eqb_spec (s / 604800) 0); [| discriminate].
  destruct (Z.eqb_spec (s mod 604800 / 86400) 0); [| discriminate].
  destruct (Z.eqb_spec (s mod 86400 / 3600) 0); [| discriminate].
  destruct (Z.eqb_spec (s mod 3600 / 60) 0); [| discriminate].
  destruct (Z.eqb_spec (s mod 60) 0); [| discriminate].
  intros _. lia.
Qed.

(** X6.  [display_time] returns the empty string exactly when its argument
    truncates to 0 seconds (so for every float strictly between -1 and 1). *)
Theorem display_time_empty_iff_zero (seconds : pynum) :
  display_time seconds granularity_default = EmptyString <-> py_int seconds = 0.
Proof.
  unfold display_time, granularity_default.
  rewrite display_time_units, firstn_map.
  split.
  - intros Hempty.
    destruct (List.filter (fun u => negb (fst u =? 0)) (unit_values (py_int seconds)))
      as [| u l] eqn:Hunits; [apply unit_values_all_zero, Hunits |].
    exfalso. cbn [firstn map] in Hempty.
    revert Hempty. apply concat_cons_nonempty, render_unit_nonempty.
  - intros ->. reflexivity.
Qed.



(** X8.  The four comparisons of [total_seconds()] with a threshold are exact at
    the resolution of a microsecond: the rounding of the float never moves a
    duration across a threshold. *)
Theorem threshold_comparisons_exact (td : Z) :
  fgeb_Z (total_seconds td) CHECKIN_LIMIT = (1200 * us_per_second <=? td)
  /\ fgtb_Z (total_seconds td) LAST_BACKUP_THRESHOLD
     = (43200 * us_per_second <? td)
  /\ fgtb_Z (total_seconds td) LAST_OFFSITE_THRESHOLD
     = (259200 * us_per_second <? td)
  /\ fgtb_Z (total_seconds td) LAST_SCREENSHOT_THRESHOLD
     = (172800 * us_per_second <? td).
Proof.
  split; [| split; [| split]].
  - apply total_seconds_geb, checkin_limit_range.
  - apply total_seconds_gtb, backup_threshold_range.
  - apply total_seconds_gtb, offsite_threshold_range.
  - apply total_seconds_gtb, screenshot_threshold_range.
Qed.

Lemma int_of_float_fopp (f : float) : int_of_float (fopp f) = - int_of_float f.
Proof.
  unfold int_of_float, fopp. cbn [fnum fexp].
  rewrite Z.mul_opp_l. apply Z.quot_opp_l.
  pose proof (pow2_pos (- fexp f)). lia.
Qed.

Lemma int_of_total_seconds_nonneg (td : Z) :
  0 <= td < (2 ^ 33 - 1) * us_per_second ->
  int_of_float (total_seconds td) = td / us_per_second.
Proof.
  intros Htd. unfold us_per_second in *.
  change (2 ^ 33) with 8589934592 in Htd.
  pose proof (Z.div_mod td 1000000 ltac:(lia)) as Hdm.
  pose proof (Z.mod_pos_bound td 1000000 ltac:(lia)) as Hr.
  set (q := td / 1000000) in *.
  assert (Hq : 0 <= q < 8589934591) by nia.
  assert (Hnum : 0 <= fnum (total_seconds td)).
  { unfold total_seconds, rnd_div, us_per_second.
    destruct (Z.compare_spec td 0); [cbn; lia | lia |].
    apply rnd_pos_nonneg; lia. }
  pose proof (total_seconds_compare td (q + 1)) as Hup.
  unfold fcompare_Z, us_per_second in Hup.
  change (2 ^ 33) with 8589934592 in Hup.
  rewrite (proj2 (Z.compare_lt_iff td ((q + 1) * 1000000))) in Hup by lia.
  specialize (Hup ltac:(lia)). apply Z.compare_lt_iff in Hup.
  unfold int_of_float.
  set (f := total_seconds td) in *.
  pose proof (pow2_pos (fexp f)) as HV. pose proof (pow2_pos (- fexp f)) as HW.
  set (V := fnum f * pow2 (fexp f)) in *. set (W := pow2 (- fexp f)) in *.
  assert (HV0 : 0 <= V) by (unfold V; nia).
  rewrite Z.quot_div_nonneg by lia.
  assert (Hlow : q * W <= V).
  { destruct (Z.eq_dec q 0) as [-> | Hq0]; [lia |].
    pose proof (total_seconds_compare td q) as Hlo.
    unfold fcompare_Z, us_per_second in Hlo.
    change (2 ^ 33) with 8589934592 in Hlo. specialize (Hlo ltac:(lia)).
    fold f in Hlo. fold V W in Hlo.
    destruct (Z.compare_spec td (q * 1000000)) as [He | Hl | Hg]; [| lia |].
    - apply Z.compare_eq_iff in Hlo. lia.
    - apply Z.compare_gt_iff in Hlo. lia. }
  change (V < (q + 1) * W) in Hup.
  symmetry. apply (Z.div_unique_pos V W q (V - q * W)); lia.
Qed.

(** X9.  For every duration shorter than [2 ^ 33 - 1] seconds (272 years), past or
    future, [int(total_seconds())] is the duration truncated to whole
    seconds; so the elapsed time written in a finding is the exact whole
    number of seconds of the duration, rendered in its two largest units. *)
Theorem elapsed_time_is_exact (td : Z) :
  - ((2 ^ 33 - 1) * us_per_second) < td < (2 ^ 33 - 1) * us_per_second ->
  int_of_float (total_seconds td) = Z.quot td us_per_second
  /\ (0 <= td ->
      display_time (PyFloat (total_seconds td)) granularity_default
      = two_largest_units (td / us_per_second)).
Proof.
  intros Htd.
  assert (Hint : int_of_float (total_seconds td) = Z.quot td us_per_second).
  { destruct (Z_le_gt_dec 0 td) as [Hpos | Hneg].
    - rewrite int_of_total_seconds_nonneg by lia.
      symmetry. apply Z.quot_div_nonneg; unfold us_per_second; lia.
    - assert (Hopp : total_seconds td = fopp (total_seconds (- td))).
      { unfold total_seconds, rnd_div.
        rewrite (proj2 (Z.compare_lt_iff td 0)) by lia.
        rewrite (proj2 (Z.compare_gt_iff (- td) 0)) by lia. reflexivity. }
      rewrite Hopp, int_of_float_fopp, int_of_total_seconds_nonneg by lia.
      rewrite <- (Z.quot_div_nonneg (- td)) by (unfold us_per_second; lia).
      rewrite Z.quot_opp_l by (unfold us_per_second; lia). lia. }
  split; [exact Hint |].
  intros Hpos.
  unfold display_time, two_largest_units, granularity_default.
  cbn [py_int]. rewrite Hint, display_time_units, firstn_map.
  rewrite Z.quot_div_nonneg by (unfold us_per_second; lia). reflexivity.
Qed.

Lemma elapsed_time_is_exact_witness :
  int_of_float (total_seconds 1234567891) = 1234
  /\ display_time (PyFloat (total_seconds 1234567891)) granularity_default
     = "20 minutes, 34 seconds"%string.
Proof.
  destruct (elapsed_time_is_exact 1234567891) as [Hint Hshow].
  - vm_compute. split; reflexivity.
  - split; [exact Hint |]. rewrite Hshow by lia. reflexivity.
Defined.

(** ** The checks on the assets of a device *)

Lemma for_fold_skipped (clock : nat -> Z) (device_name : string)
  (l : list Agent.t) (errors : list pystr) (st : state) :
  for_fold l (check_agent clock device_name) errors st
  = for_fold (List.filter agent_active l) (check_agent clock device_name)
      errors st.
Proof.
  revert errors st. induction l as [| a l IH]; intros errors st; [reflexivity |].
  cbn [List.filter]. unfold agent_active at 1.
  destruct (Agent.isArchived a || Agent.isPaused a) eqn:Hskip; cbn [negb].
  - cbn [for_fold]. unfold bind at 1.
    rewrite check_agent_skipped by exact Hskip. apply IH.
  - cbn [for_fold]. unfold bind.
    destruct (check_agent clock device_name errors a st) as [[errors' | e] st'];
      [apply IH | reflexivity].
Qed.

Lemma agent_checks_skipped (clock : nat -> Z)
  (api_assets : string -> list Agent.t) (d : Device.t) (errors : list pystr)
  (st : state) :
  agent_checks clock api_assets d errors st
  = agent_checks clock (fun serial => List.filter agent_active (api_assets serial))
      d errors st.
Proof.
  unfold agent_checks, getAssetDetails. run_monad. unfold bind.
  rewrite for_fold_skipped. reflexivity.
Qed.

(** X10.  Archived and paused assets leave no trace: the pass over a device, its
    result and the whole state it reaches, are the same as if the server had
    not listed them. *)
Theorem skipped_assets_are_invisible
  (strptime : string -> option Z) (clock : nat -> Z)
  (api_assets : string -> list Agent.t) (d : Device.t) (st : state) :
  process_device strptime clock api_assets d st
  = process_device strptime clock
      (fun serial => List.filter agent_active (api_assets serial)) d st.
Proof.
  unfold process_device.
  destruct (Device.hidden d); [reflexivity |].
  run_monad.
  destruct (strptime _); run_monad; [| reflexivity].
  destruct (Device.activeTickets d =? 0); run_monad;
    (destruct (fgeb_Z _ CHECKIN_LIMIT); run_monad; [reflexivity |]);
    unfold storage_pct;
    (destruct (_ =? 0); run_monad; [reflexivity |]);
    (destruct (fgtb_Z _ STORAGE_PCT_THRESHOLD); run_monad);
    apply agent_checks_skipped.
Qed.

(** X11.  The backup check looks at the most recent entry of the history only, and
    only when the last snapshot is more than 12 hours old.  For an asset that
    is not skipped: the "does not seem to have any backups" line is there
    exactly when the snapshot is that old and the history is empty; a "Last
    scheduled backup failed" line is there exactly when the snapshot is that
    old and the status of the first entry is not "success", and it carries
    the elapsed time and the error message of that entry.  A snapshot at most
    12 hours old gives no backup line, whatever the history. *)
Theorem backup_lines_iff (clock : nat -> Z)
  (device_name : string) (errors : list pystr) (a : Agent.t) (st : state) :
  Agent.isArchived a = false ->
  Agent.isPaused a = false ->
  agent_timestamps_valid a = true ->
  let elapsed := clock (clock_reads st) - Agent.lastSnapshot a * us_per_second in
  exists new st',
    check_agent clock device_name errors a st = (Ok (errors ++ new)%list, st')
    /\ (In (msg_no_backups (Agent.name a)) new
        <-> LAST_BACKUP_THRESHOLD * us_per_second < elapsed
            /\ Agent.backups a = [])
    /\ (forall text message,
          In (msg_backup_failed (Agent.name a) text message) new
          <-> LAST_BACKUP_THRESHOLD * us_per_second < elapsed
              /\ exists b rest,
                   Agent.backups a = b :: rest
                   /\ Backup.status b <> "success"%string
                   /\ text = display_time (PyFloat (total_seconds elapsed))
                               granularity_default
                   /\ message = Backup.errorMessage b).
Proof.
  intros Harch Hpaused Hvalid elapsed.
  destruct (check_agent_ok clock device_name errors a st Harch Hpaused Hvalid)
    as (st' & Hrun & _).
  exists (agent_findings (clock (clock_reads st)) a), st'.
  split; [exact Hrun |].
  assert (Hother : forall line,
             In line (offsite_findings (clock (clock_reads st)) a
                      ++ screenshot_findings (clock (clock_reads st)) a
                      ++ screenshot_status_findings a)%list ->
             (forall n, line <> msg_no_backups n)
             /\ (forall n t m, line <> msg_backup_failed n t m)).
  { intros line Hin.
    unfold offsite_findings, screenshot_findings, screenshot_status_findings in Hin.
    split_in; subst line; split; intros; discriminate. }
  unfold agent_findings, backup_findings. fold elapsed.
  rewrite total_seconds_gtb by apply backup_threshold_range.
  destruct (Z.ltb_spec (LAST_BACKUP_THRESHOLD * us_per_second) elapsed) as [Hold | Hnew].
  - destruct (Agent.backups a) as [| b rest] eqn:Hb.
    + split.
      * split; [intros _; split; [exact Hold | reflexivity] |].
        intros _. left. reflexivity.
      * intros text message. split.
        -- intros [Hin | Hin]; [discriminate |].
           apply Hother in Hin. destruct Hin as [_ Hin]. exfalso.
           apply (Hin _ _ _ eq_refl).
        -- intros [_ (b & rest & Hcons & _)]. discriminate.
    + destruct (String.eqb_spec (Backup.status b) "success") as [Hs | Hs];
        cbn [negb app].
      * split.
        -- split; [| intros [_ Hnil]; discriminate].
           intros Hin. apply Hother in Hin. destruct Hin as [Hin _].
           exfalso. apply (Hin _ eq_refl).
        -- intros text message. split.
           ++ intros Hin. apply Hother in Hin. destruct Hin as [_ Hin].
              exfalso. apply (Hin _ _ _ eq_refl).
           ++ intros [_ (b' & rest' & Hcons & Hne & _)].
              injection Hcons as <- <-. congruence.
      * split.
        -- split; [| intros [_ Hnil]; discriminate].
           intros [Hin | Hin]; [discriminate |].
           apply Hother in Hin. destruct Hin as [Hin _].
           exfalso. apply (Hin _ eq_refl).
        -- intros text message. split.
           ++ intros [Hin | Hin].
              ** injection Hin as <- <-. split; [exact Hold |].
                 exists b, rest. repeat split. exact Hs.
              ** apply Hother in Hin. destruct Hin as [_ Hin].
                 exfalso. apply (Hin _ _ _ eq_refl).
           ++ intros [_ (b' & rest' & Hcons & _ & -> & ->)].
              injection Hcons as <- <-. left. reflexivity.
  - cbn [app]. split.
    + split; [| intros [Hold _]; lia].
      intros Hin. apply Hother in Hin. destruct Hin as [Hin _].
      exfalso. apply (Hin _ eq_refl).
    + intros text message. split; [| intros [Hold _]; lia].
      intros Hin. apply Hother in Hin. destruct Hin as [_ Hin].
      exfalso. apply (Hin _ _ _ eq_refl).
Qed.

Lemma backup_lines_iff_witness :
  exists new st',
    check_agent clock_fixed "NAS" []
      (Agent.mk "srv07" false false 1699000000
         [Backup.mk "failure" "disk full"; Backup.mk "success" EmptyString]
         (Some 1700000000) "share" None None)
      initial_state
    = (Ok ([] ++ new)%list, st')
    /\ In (msg_backup_failed "srv07" "1 week, 4 days" "disk full") new
    /\ ~ In (msg_no_backups "srv07") new.
Proof.
  destruct (backup_lines_iff clock_fixed "NAS" []
              (Agent.mk "srv07" false false 1699000000
                 [Backup.mk "failure" "disk full"; Backup.mk "success" EmptyString]
                 (Some 1700000000) "share" None None)
              initial_state eq_refl eq_refl eq_refl)
    as (new & st' & Hrun & Hnone & Hfailed).
  exists new, st'. split; [exact Hrun |]. split.
  - apply Hfailed. split; [reflexivity |].
    eexists _, _. split; [reflexivity |]. split; [discriminate |].
    split; reflexivity.
  - intros Hin. apply Hnone in Hin. destruct Hin as [_ Hnil]. discriminate.
Defined.

(** X12.  The off-site check gives at most one line.  For an asset that is not
    skipped: the "no off-site backup points" line is there exactly when
    [latestOffsite] is null or 0; a "Last off-site was ... ago" line is there
    exactly when [latestOffsite] is a non-zero timestamp more than 72 hours
    old, and it carries that elapsed time. *)
Theorem offsite_lines_iff (clock : nat -> Z)
  (device_name : string) (errors : list pystr) (a : Agent.t) (st : state) :
  Agent.isArchived a = false ->
  Agent.isPaused a = false ->
  agent_timestamps_valid a = true ->
  let now := clock (clock_reads st) in
  exists new st',
    check_agent clock device_name errors a st = (Ok (errors ++ new)%list, st')
    /\ (In (msg_no_offsite (Agent.name a)) new
        <-> Agent.latestOffsite a = None \/ Agent.latestOffsite a = Some 0)
    /\ (forall text,
          In (msg_offsite_old (Agent.name a) text) new
          <-> exists ts,
                Agent.latestOffsite a = Some ts /\ ts <> 0
                /\ LAST_OFFSITE_THRESHOLD * us_per_second
                     < now - ts * us_per_second
                /\ text = display_time
                            (PyFloat (total_seconds (now - ts * us_per_second)))
                            granularity_default).
Proof.
  intros Harch Hpaused Hvalid now.
  destruct (check_agent_ok clock device_name errors a st Harch Hpaused Hvalid)
    as (st' & Hrun & _).
  exists (agent_findings (clock (clock_reads st)) a), st'.
  split; [exact Hrun |]. fold now.
  assert (Hother : forall line,
             In line (backup_findings now a) \/
             In line (screenshot_findings now a
                      ++ screenshot_status_findings a)%list ->
             (forall n, line <> msg_no_offsite n)
             /\ (forall n t, line <> msg_offsite_old n t)).
  { intros line Hin.
    unfold backup_findings, screenshot_findings, screenshot_status_findings in Hin.
    destruct Hin as [Hin | Hin]; split_in; subst line; split; intros; discriminate. }
  assert (Hsplit : forall line,
             In line (agent_findings now a) <->
             In line (offsite_findings now a)
             \/ (In line (backup_findings now a) \/
                 In line (screenshot_findings now a
                          ++ screenshot_status_findings a)%list)).
  { intros line. unfold agent_findings. rewrite !in_app_iff. tauto. }
  assert (Hno : forall line,
             (forall n, line <> msg_no_offsite n)
             /\ (forall n t, line <> msg_offsite_old n t) ->
             forall n t, line = msg_no_offsite n \/ line = msg_offsite_old n t ->
             False).
  { intros line [H1 H2] n t [H | H]; [apply (H1 n H) | apply (H2 n t H)]. }
  unfold offsite_findings in Hsplit.
  destruct (Agent.latestOffsite a) as [ts |] eqn:Hoff; cbn [truthy] in Hsplit.
  - destruct (Z.eqb_spec ts 0) as [-> | Hnz].
    + split.
      * rewrite Hsplit. split; [intros _; right; reflexivity |].
        intros _. left. left. reflexivity.
      * intros text. rewrite Hsplit. split.
        -- intros [[Hin | []] | Hin]; [discriminate |].
           exfalso. apply Hother in Hin.
           apply (Hno _ Hin (Agent.name a) text). right. reflexivity.
        -- intros (ts & Hts & Hnz & _). congruence.
    + rewrite total_seconds_gtb in Hsplit by apply offsite_threshold_range.
      split.
      * rewrite Hsplit. split; [| intros [H | H]; congruence].
        intros [Hin | Hin].
        -- destruct (_ <? _); [destruct Hin as [Hin | []]; discriminate
                              | destruct Hin].
        -- exfalso. apply Hother in Hin.
           apply (Hno _ Hin (Agent.name a) EmptyString). left. reflexivity.
      * intros text. rewrite Hsplit.
        destruct (Z.ltb_spec (LAST_OFFSITE_THRESHOLD * us_per_second)
                    (now - ts * us_per_second)) as [Hold | Hnew].
        -- split.
           ++ intros [[Hin | []] | Hin].
              ** injection Hin as <-. exists ts. repeat split; assumption.
              ** exfalso. apply Hother in Hin.
                 apply (Hno _ Hin (Agent.name a) text). right. reflexivity.
           ++ intros (ts' & Hts & _ & _ & ->). injection Hts as <-.
              left. left. reflexivity.
        -- split.
           ++ intros [[] | Hin]. exfalso. apply Hother in Hin.
              apply (Hno _ Hin (Agent.name a) text). right. reflexivity.
           ++ intros (ts' & Hts & _ & Hold & _). injection Hts as <-. lia.
  - split.
    + rewrite Hsplit. split; [intros _; left; reflexivity |].
      intros _. left. left. reflexivity.
    + intros text. rewrite Hsplit. split.
      * intros [[Hin | []] | Hin]; [discriminate |].
        exfalso. apply Hother in Hin.
        apply (Hno _ Hin (Agent.name a) text). right. reflexivity.
      * intros (ts & Hts & _). discriminate.
Qed.

Lemma offsite_lines_iff_witness :
  exists new st',
    check_agent clock_fixed "NAS" []
      (Agent.mk "srv08" false false 1700000000 [] (Some 1699000000)
         "share" None None)
      initial_state
    = (Ok ([] ++ new)%list, st')
    /\ In (msg_offsite_old "srv08" "1 week, 4 days") new
    /\ ~ In (msg_no_offsite "srv08") new.
Proof.
  destruct (offsite_lines_iff clock_fixed "NAS" []
              (Agent.mk "srv08" false false 1700000000 [] (Some 1699000000)
                 "share" None None)
              initial_state eq_refl eq_refl eq_refl)
    as (new & st' & Hrun & Hnone & Hold).
  exists new, st'. split; [exact Hrun |]. split.
  - apply Hold. exists 1699000000.
    split; [reflexivity |]. split; [discriminate |]. split; reflexivity.
  - intros Hin. apply Hnone in Hin. destruct Hin as [H | H]; discriminate.
Defined.

(** X13.  The two screenshot checks, completed.  For an asset that is not skipped:
    a "Last screenshot attempt was ... ago" line is there exactly when the
    type is "agent" and the attempt timestamp is non-zero and more than 48
    hours old; the "Last screenshot attempt failed" line is there exactly
    when the type is "agent" and the status is [False], so a null status (no
    attempt recorded) is not a failure. *)
Theorem screenshot_lines_iff (clock : nat -> Z)
  (device_name : string) (errors : list pystr) (a : Agent.t) (st : state) :
  Agent.isArchived a = false ->
  Agent.isPaused a = false ->
  agent_timestamps_valid a = true ->
  let now := clock (clock_reads st) in
  exists new st',
    check_agent clock device_name errors a st = (Ok (errors ++ new)%list, st')
    /\ (forall text,
          In (msg_screenshot_old (Agent.name a) text) new
          <-> Agent.type a = "agent"%string
              /\ exists ts,
                   Agent.lastScreenshotAttempt a = Some ts /\ ts <> 0
                   /\ LAST_SCREENSHOT_THRESHOLD * us_per_second
                        < now - ts * us_per_second
                   /\ text = display_time
                               (PyFloat (total_seconds (now - ts * us_per_second)))
                               granularity_default)
    /\ (In (msg_screenshot_failed (Agent.name a)) new
        <-> Agent.type a = "agent"%string
            /\ Agent.lastScreenshotAttemptStatus a = Some false).
Proof.
  intros Harch Hpaused Hvalid now.
  destruct (check_agent_ok clock device_name errors a st Harch Hpaused Hvalid)
    as (st' & Hrun & _).
  exists (agent_findings (clock (clock_reads st)) a), st'.
  split; [exact Hrun |]. fold now.
  assert (Hother : forall line,
             In line (backup_findings now a ++ offsite_findings now a)%list ->
             (forall n, line <> msg_screenshot_failed n)
             /\ (forall n t, line <> msg_screenshot_old n t)).
  { intros line Hin. unfold backup_findings, offsite_findings in Hin.
    split_in; subst line; split; intros; discriminate. }
  assert (Hsplit : forall line,
             In line (agent_findings now a) <->
             In line (screenshot_findings now a)
             \/ In line (screenshot_status_findings a)
             \/ In line (backup_findings now a ++ offsite_findings now a)%list).
  { intros line. unfold agent_findings. rewrite !in_app_iff. tauto. }
  split.
  - intros text. rewrite Hsplit.
    unfold screenshot_findings, screenshot_status_findings.
    destruct (String.eqb_spec (Agent.type a) "agent") as [Htype | Htype].
    + destruct (Agent.lastScreenshotAttempt a) as [ts |] eqn:Hshot;
        cbn [truthy].
      * destruct (Z.eqb_spec ts 0) as [-> | Hnz].
        -- split.
           ++ intros [[] | [Hin | Hin]].
              ** cbn [andb] in Hin. split_in; discriminate.
              ** apply Hother in Hin. destruct Hin as [_ Hin].
                 exfalso. apply (Hin _ _ eq_refl).
           ++ intros [_ (ts & Hts & Hnz & _)]. congruence.
        -- rewrite total_seconds_gtb by apply screenshot_threshold_range.
           destruct (Z.ltb_spec (LAST_SCREENSHOT_THRESHOLD * us_per_second)
                       (now - ts * us_per_second)) as [Hold | Hnew].
           ++ split.
              ** intros [[Hin | []] | [Hin | Hin]].
                 --- injection Hin as <-. split; [exact Htype |].
                     exists ts. repeat split; assumption.
                 --- cbn [andb] in Hin. split_in; discriminate.
                 --- apply Hother in Hin. destruct Hin as [_ Hin].
                     exfalso. apply (Hin _ _ eq_refl).
              ** intros [_ (ts' & Hts & _ & _ & ->)]. injection Hts as <-.
                 left. left. reflexivity.
           ++ split.
              ** intros [[] | [Hin | Hin]].
                 --- cbn [andb] in Hin. split_in; discriminate.
                 --- apply Hother in Hin. destruct Hin as [_ Hin].
                     exfalso. apply (Hin _ _ eq_refl).
              ** intros [_ (ts' & Hts & _ & Hold & _)].
                 injection Hts as <-. lia.
      * split.
        -- intros [[] | [Hin | Hin]].
           ++ cbn [andb] in Hin. split_in; discriminate.
           ++ apply Hother in Hin. destruct Hin as [_ Hin].
              exfalso. apply (Hin _ _ eq_refl).
        -- intros [_ (ts & Hts & _)]. discriminate.
    + cbn [andb]. split.
      * intros [[] | [[] | Hin]].
        apply Hother in Hin. destruct Hin as [_ Hin].
        exfalso. apply (Hin _ _ eq_refl).
      * intros [Ht _]. contradiction.
  - rewrite Hsplit.
    unfold screenshot_findings, screenshot_status_findings.
    destruct (String.eqb_spec (Agent.type a) "agent") as [Htype | Htype];
      cbn [andb].
    + destruct (Agent.lastScreenshotAttemptStatus a) as [[|] |] eqn:Hstatus.
      * split; [| intros [_ H]; discriminate].
        intros [Hin | [[] | Hin]].
        -- split_in; discriminate.
        -- apply Hother in Hin. destruct Hin as [Hin _].
           exfalso. apply (Hin _ eq_refl).
      * split; [intros _; split; [exact Htype | reflexivity] |].
        intros _. right. left. left. reflexivity.
      * split; [| intros [_ H]; discriminate].
        intros [Hin | [[] | Hin]].
        -- split_in; discriminate.
        -- apply Hother in Hin. destruct Hin as [Hin _].
           exfalso. apply (Hin _ eq_refl).
    + split; [| intros [Ht _]; contradiction].
      intros [[] | [[] | Hin]].
      apply Hother in Hin. destruct Hin as [Hin _].
      exfalso. apply (Hin _ eq_refl).
Qed.

Lemma screenshot_lines_iff_witness :
  exists new st',
    check_agent clock_fixed "NAS" []
      (Agent.mk "srv09" false false 1700000000 [] (Some 1700000000)
         "agent" (Some 1699000000) None)
      initial_state
    = (Ok ([] ++ new)%list, st')
    /\ In (msg_screenshot_old "srv09" "1 week, 4 days") new
    /\ ~ In (msg_screenshot_failed "srv09") new.
Proof.
  destruct (screenshot_lines_iff clock_fixed "NAS" []
              (Agent.mk "srv09" false false 1700000000 [] (Some 1700000000)
                 "agent" (Some 1699000000) None)
              initial_state eq_refl eq_refl eq_refl)
    as (new & st' & Hrun & Hold & Hfailed).
  exists new, st'. split; [exact Hrun |]. split.
  - apply Hold. split; [reflexivity |]. exists 1699000000.
    split; [reflexivity |]. split; [discriminate |]. split; reflexivity.
  - intros Hin. apply Hfailed in Hin. destruct Hin as [_ H]. discriminate.
Defined.

(** ** The per-device record *)

Lemma init_asset_record (device_name agent_name : string)
  (rd : gmap string device_result) :
  init_asset device_name agent_name rd = record_lines device_name agent_name [] rd.
Proof. reflexivity. Qed.

Lemma append_asset_error_record (device_name agent_name : string)
  (lines : list pystr) (msg : pystr) (rd : gmap string device_result) :
  append_asset_error device_name agent_name msg
    (record_lines device_name agent_name lines rd)
  = record_lines device_name agent_name (lines ++ [msg])%list rd.
Proof.
  unfold append_asset_error, record_lines.
  rewrite alter_alter_eq. apply alter_ext. intros r _. cbn.
  rewrite alter_insert_eq. reflexivity.
Qed.

Lemma check_agent_results (clock : nat -> Z) (device_name : string)
  (errors : list pystr) (a : Agent.t) (st : state) :
  Agent.isArchived a = false ->
  Agent.isPaused a = false ->
  agent_timestamps_valid a = true ->
  results_data (snd (check_agent clock device_name errors a st))
  = record_lines device_name (Agent.name a)
      (agent_findings (clock (clock_reads st)) a) (results_data st).
Proof.
  intros Harch Hpaused Hvalid.
  unfold agent_timestamps_valid in Hvalid.
  apply andb_prop in Hvalid as [Hvalid Hv3].
  apply andb_prop in Hvalid as [Hv1 Hv2].
  unfold check_agent, agent_findings, backup_findings, offsite_findings,
    screenshot_findings, screenshot_status_findings.
  rewrite Harch, Hpaused.
  run_monad. rewrite Hv1. run_monad.
  set (now := clock (clock_reads st)).
  pose proof (truthy_valid (Agent.latestOffsite a)) as Ho.
  pose proof (truthy_valid (Agent.lastScreenshotAttempt a)) as Hs.
  destruct (fgtb_Z (total_seconds (now - Agent.lastSnapshot a * us_per_second))
              LAST_BACKUP_THRESHOLD);
    [destruct (Agent.backups a) as [| b bs];
       [| destruct (negb (String.eqb (Backup.status b) "success"))] |];
    run_monad;
    (destruct (truthy (Agent.latestOffsite a)) as [ts |];
       [rewrite (Ho ts Hv2 eq_refl); run_monad;
        destruct (fgtb_Z (total_seconds (now - ts * us_per_second))
                    LAST_OFFSITE_THRESHOLD) |]);
    run_monad;
    (destruct (String.eqb (Agent.type a) "agent");
       [destruct (truthy (Agent.lastScreenshotAttempt a)) as [ts' |];
          [rewrite (Hs ts' Hv3 eq_refl); run_monad;
           destruct (fgtb_Z (total_seconds (now - ts' * us_per_second))
                       LAST_SCREENSHOT_THRESHOLD) |];
        run_monad;
        destruct (Agent.lastScreenshotAttemptStatus a) as [[|] |] |]);
    run_monad;
    unfold set_results_data, set_clock_reads; cbn [results_data snd];
    rewrite init_asset_record, ?append_asset_error_record;
    reflexivity.
Qed.

Lemma agent_findings_asset_lines (now : Z) (a : Agent.t) :
  forallb is_asset_finding (agent_findings now a) = true
  /\ (List.length (agent_findings now a) <= 4)%nat.
Proof.
  unfold agent_findings, backup_findings, offsite_findings,
    screenshot_findings, screenshot_status_findings.
  repeat match goal with
         | |- context [if ?c then _ else _] => destruct c
         | |- context [match ?c with _ => _ end] => destruct c
         end;
    cbn; split; (reflexivity || lia).
Qed.

(** X14.  The record of an asset is the lines of that asset.  Once an asset that is
    not skipped has been evaluated for a device that has its entry in
    [results_data], the asset list of that entry under the asset's name is
    exactly the list of lines the evaluation added to the device's [errors]:
    at most four of them, all asset-level lines; the device-level lines of
    the entry, the lists of the assets with other names and the entries of
    the other devices are as before. *)
Theorem asset_record_matches_lines (clock : nat -> Z)
  (device_name : string) (errs : list pystr) (a : Agent.t) (st : state)
  (r : device_result) :
  Agent.isArchived a = false ->
  Agent.isPaused a = false ->
  agent_timestamps_valid a = true ->
  results_data st !! device_name = Some r ->
  exists new st' r',
    check_agent clock device_name errs a st = (Ok (errs ++ new)%list, st')
    /\ results_data st' !! device_name = Some r'
    /\ assets r' !! Agent.name a = Some new
    /\ (List.length new <= 4)%nat
    /\ forallb is_asset_finding new = true
    /\ errors r' = errors r
    /\ (forall n, n <> Agent.name a -> assets r' !! n = assets r !! n)
    /\ (forall n, n <> device_name -> results_data st' !! n = results_data st !! n).
Proof.
  intros Harch Hpaused Hvalid Hentry.
  destruct (check_agent_ok clock device_name errs a st Harch Hpaused Hvalid)
    as (st' & Hrun & _).
  pose proof (check_agent_results clock device_name errs a st
                Harch Hpaused Hvalid) as Hres.
  rewrite Hrun in Hres. cbn [snd] in Hres.
  set (new := agent_findings (clock (clock_reads st)) a) in *.
  exists new, st',
    (mkDeviceResult (errors r) (<[Agent.name a := new]> (assets r))).
  split; [exact Hrun |].
  rewrite Hres. unfold record_lines.
  split; [rewrite lookup_alter_eq, Hentry; reflexivity |].
  cbn [assets errors].
  split; [apply lookup_insert_eq |].
  split; [apply agent_findings_asset_lines |].
  split; [apply agent_findings_asset_lines |].
  split; [reflexivity |].
  split.
  - intros n Hn. apply lookup_insert_ne. congruence.
  - intros n Hn. apply lookup_alter_ne. congruence.
Qed.

Lemma asset_record_matches_lines_witness :
  exists new st' r',
    check_agent clock_fixed "NAS" [] agent_no_history
      (set_results_data (<["NAS"%string := mkDeviceResult [] ∅]>) initial_state)
    = (Ok ([] ++ new)%list, st')
    /\ results_data st' !! "NAS"%string = Some r'
    /\ assets r' !! "srv02"%string = Some new
    /\ new = [msg_no_backups "srv02"; msg_no_offsite "srv02"].
Proof.
  destruct (asset_record_matches_lines clock_fixed "NAS" [] agent_no_history
              (set_results_data (<["NAS"%string := mkDeviceResult [] ∅]>)
                 initial_state)
              (mkDeviceResult [] ∅) eq_refl eq_refl eq_refl)
    as (new & st' & r' & Hrun & Hentry & Hasset & _);
    [vm_compute; reflexivity |].
  exists new, st', r'. split; [exact Hrun |].
  split; [exact Hentry |]. split; [exact Hasset |].
  assert (Hconcrete :
            fst (check_agent clock_fixed "NAS" [] agent_no_history
                   (set_results_data (<["NAS"%string := mkDeviceResult [] ∅]>)
                      initial_state))
            = Ok [msg_no_backups "srv02"; msg_no_offsite "srv02"])
    by (vm_compute; reflexivity).
  rewrite Hrun in Hconcrete. cbn [fst app] in Hconcrete. congruence.
Defined.

(** ** What the passes over assets and devices leave alone *)

Lemma kept_ret {X A} (f : state -> X) (a : A) : keeps f (ret a).
Proof. intros st. reflexivity. Qed.

Lemma kept_raise {X A} (f : state -> X) (e : exn) : keeps f (@raise A e).
Proof. intros st. reflexivity. Qed.

Lemma kept_bind {X A B} (f : state -> X) (m : M A) (k : A -> M B) :
  keeps f m -> (forall a, keeps f (k a)) -> keeps f (bind m k).
Proof.
  intros Hm Hk st. unfold bind. specialize (Hm st).
  destruct (m st) as [[a | e] st1]; cbn [snd] in *.
  - rewrite Hk. exact Hm.
  - exact Hm.
Qed.

Lemma kept_for_fold {X A B} (f : state -> X) (l : list A)
  (body : B -> A -> M B) (b : B) :
  (forall b a, keeps f (body b a)) -> keeps f (for_fold l body b).
Proof.
  intros Hbody. revert b. induction l as [| x l IH]; intros b; cbn [for_fold].
  - apply kept_ret.
  - apply kept_bind; [apply Hbody | intros; apply IH].
Qed.

Lemma kept_for_each {X A} (f : state -> X) (l : list A) (body : A -> M unit) :
  (forall a, keeps f (body a)) -> keeps f (for_each l body).
Proof.
  intros Hbody. induction l as [| x l IH]; cbn [for_each].
  - apply kept_ret.
  - apply kept_bind; [apply Hbody | intros; apply IH].
Qed.

Lemma kept_check_agent {X} (f : state -> X) (clock : nat -> Z)
  (device_name : string) (errors : list pystr) (a : Agent.t) :
  blind_to_results_and_clock f ->
  keeps f (check_agent clock device_name errors a).
Proof.
  intros [Hres Hclock]. unfold check_agent, report_asset, fromtimestamp.
  repeat first
    [ apply kept_ret
    | apply kept_raise
    | (intros st; apply Hres)
    | (intros st; apply Hclock)
    | apply kept_bind; [| intros]
    | match goal with
      | |- keeps f (if ?c then _ else _) => destruct c
      | |- keeps f (match ?c with _ => _ end) => destruct c
      end ].
Qed.

Lemma blind_MSG_BODY : blind_to_results_and_clock MSG_BODY.
Proof. split; reflexivity. Qed.
Lemma blind_stdout : blind_to_results_and_clock stdout.
Proof. split; reflexivity. Qed.
Lemma blind_requests : blind_to_results_and_clock requests.
Proof. split; reflexivity. Qed.
Lemma blind_outbox : blind_to_results_and_clock outbox.
Proof. split; reflexivity. Qed.
Lemma blind_session_open : blind_to_results_and_clock session_open.
Proof. split; reflexivity. Qed.

(** The loop over the assets of a device, in every outcome. *)
Lemma agents_loop_kept {X} (f : state -> X) (clock : nat -> Z)
  (device_name : string) (l : list Agent.t) (errors : list pystr) (st : state) :
  blind_to_results_and_clock f ->
  f (snd (for_fold l (check_agent clock device_name) errors st)) = f st.
Proof.
  intros Hf. apply (kept_for_fold f). intros. apply kept_check_agent, Hf.
Qed.

(** ** The device-level checks *)

Lemma process_device_visible_errors
  (strptime : string -> option Z) (clock : nat -> Z)
  (api_assets : string -> list Agent.t) (d : Device.t) (st : state)
  (checkin : Z) :
  Device.hidden d = false ->
  checkin_of strptime d = Some checkin ->
  device_errors (Device.name d)
    (snd (process_device strptime clock api_assets d st))
  = device_level_findings (clock (clock_reads st)) checkin d.
Proof.
  intros Hvisible Hparse. unfold device_level_findings.
  destruct (Z.leb_spec (CHECKIN_LIMIT * us_per_second)
              (clock (clock_reads st) - checkin)) as [Hold | Hrecent].
  - unfold process_device. rewrite Hvisible.
    unfold checkin_of in Hparse. run_monad. rewrite Hparse. run_monad.
    assert (Hoff : fgeb_Z (total_seconds (clock (clock_reads st) - checkin))
                     CHECKIN_LIMIT = true).
    { rewrite total_seconds_geb by apply checkin_limit_range.
      apply Z.leb_le, Hold. }
    unfold ticket_findings.
    destruct (Device.activeTickets d =? 0); run_monad; rewrite Hoff; run_monad;
      unfold bind; rewrite printErrors_spec;
      unfold device_errors, errors_at, append_device_error, set_results_data,
        set_clock_reads;
      cbn [results_data snd];
      rewrite ?lookup_alter_eq, ?lookup_insert_eq; reflexivity.
  - destruct (N.eqb_spec (Device.localStorageAvailable d
                          + Device.localStorageUsed d) 0) as [H0 | H0].
    + unfold process_device. rewrite Hvisible.
      unfold checkin_of in Hparse. run_monad. rewrite Hparse. run_monad.
      assert (Hon : fgeb_Z (total_seconds (clock (clock_reads st) - checkin))
                      CHECKIN_LIMIT = false).
      { rewrite total_seconds_geb by apply checkin_limit_range.
        apply Z.leb_gt, Hrecent. }
      unfold storage_pct, ticket_findings.
      destruct (Z.eqb_spec (Z.of_N (Device.localStorageAvailable d)
                            + Z.of_N (Device.localStorageUsed d)) 0) as [Hz | Hz];
        [| lia].
      destruct (Device.activeTickets d =? 0); run_monad; rewrite Hon; run_monad;
        unfold device_errors, errors_at, append_device_error, set_results_data,
          set_clock_reads;
        cbn [results_data];
        rewrite ?lookup_alter_eq, ?lookup_insert_eq; reflexivity.
    + apply (process_device_online_errors _ _ _ _ _ checkin);
        [assumption .. | lia].
Qed.

(** X15.  For a visible device whose check-in parses, whatever happens later in the
    pass: a ticket line is recorded for the device exactly when
    [activeTickets] is not 0; it then is the first line of the device and
    carries that count. *)
Theorem ticket_line_iff
  (strptime : string -> option Z) (clock : nat -> Z)
  (api_assets : string -> list Agent.t) (d : Device.t) (st : state)
  (checkin : Z) :
  Device.hidden d = false ->
  checkin_of strptime d = Some checkin ->
  let lines :=
    device_errors (Device.name d)
      (snd (process_device strptime clock api_assets d st)) in
  ((exists n, In (msg_tickets n) lines) <-> Device.activeTickets d <> 0)
  /\ (Device.activeTickets d <> 0 ->
      exists rest, lines = msg_tickets (Device.activeTickets d) :: rest).
Proof.
  intros Hvisible Hparse lines. unfold lines.
  rewrite (process_device_visible_errors _ _ _ _ _ checkin) by assumption.
  unfold device_level_findings, ticket_findings, storage_findings.
  destruct (Z.eqb_spec (Device.activeTickets d) 0) as [H0 | H0].
  - split; [| contradiction].
    split; [| contradiction].
    intros [n Hin]. exfalso. cbn [app] in Hin. split_in; discriminate.
  - split.
    + split; [intros _; exact H0 |]. intros _. eexists. left. reflexivity.
    + intros _. eexists. reflexivity.
Qed.

Lemma ticket_line_iff_witness :
  exists rest,
    device_errors "NAS-01"
      (snd (process_device strptime_sample clock_late (fun _ => [])
              device_offline initial_state))
    = msg_tickets 1 :: rest.
Proof.
  apply (ticket_line_iff strptime_sample clock_late (fun _ => [])
           device_offline initial_state (1700000000 * us_per_second)
           eq_refl eq_refl).
  discriminate.
Defined.

(** X16.  For a visible device whose check-in parses: the critical check-in line is
    recorded exactly when the check-in is at least 1200 seconds old, so a
    device that checked in more recently never gets it. *)
Theorem checkin_line_iff
  (strptime : string -> option Z) (clock : nat -> Z)
  (api_assets : string -> list Agent.t) (d : Device.t) (st : state)
  (checkin : Z) :
  Device.hidden d = false ->
  checkin_of strptime d = Some checkin ->
  (exists text,
      In (msg_checkin text)
        (device_errors (Device.name d)
           (snd (process_device strptime clock api_assets d st))))
  <-> CHECKIN_LIMIT * us_per_second <= clock (clock_reads st) - checkin.
Proof.
  intros Hvisible Hparse.
  rewrite (process_device_visible_errors _ _ _ _ _ checkin) by assumption.
  unfold device_level_findings, ticket_findings, storage_findings.
  destruct (Z.leb_spec (CHECKIN_LIMIT * us_per_second)
              (clock (clock_reads st) - checkin)) as [Hold | Hrecent].
  - split; [intros _; exact Hold |]. intros _. eexists.
    apply in_or_app. right. left. reflexivity.
  - split; [| lia]. intros [text Hin]. exfalso. split_in; discriminate.
Qed.

Lemma checkin_line_iff_witness :
  ~ exists text,
      In (msg_checkin text)
        (device_errors "NAS-02"
           (snd (process_device strptime_sample clock_fixed (fun _ => [])
                   (device_online 4 96) initial_state))).
Proof.
  intros H.
  apply (checkin_line_iff strptime_sample clock_fixed (fun _ => [])
           (device_online 4 96) initial_state (1700000000 * us_per_second)
           eq_refl eq_refl) in H.
  vm_compute in H. apply H. reflexivity.
Defined.

Lemma pct_of_hundredths_whole (k : Z) :
  96 <= k <= 100 -> pct_of_hundredths k = float_of_Z k.
Proof.
  intros Hk.
  assert (k = 96 \/ k = 97 \/ k = 98 \/ k = 99 \/ k = 100) as Hcases by lia.
  destruct Hcases as [-> | [-> | [-> | [-> | ->]]]]; vm_compute; reflexivity.
Qed.

(** X17.  The usage in a storage line is a whole percentage.  For a visible device
    whose check-in parses, every storage line recorded for it carries an
    integer between 96 and 100, as a float: the ratio has been rounded to two
    decimals before the multiplication by 100, and the five products are
    exact. *)
Theorem storage_line_whole_percent
  (strptime : string -> option Z) (clock : nat -> Z)
  (api_assets : string -> list Agent.t) (d : Device.t) (st : state)
  (checkin : Z) (pct : float) :
  Device.hidden d = false ->
  checkin_of strptime d = Some checkin ->
  In (msg_storage pct)
    (device_errors (Device.name d)
       (snd (process_device strptime clock api_assets d st))) ->
  exists k, 96 <= k <= 100 /\ pct = float_of_Z k.
Proof.
  intros Hvisible Hparse.
  rewrite (process_device_visible_errors _ _ _ _ _ checkin) by assumption.
  unfold device_level_findings, ticket_findings.
  intros Hin. apply in_app_or in Hin. destruct Hin as [Hin | Hin];
    [split_in; discriminate |].
  destruct (_ <=? _); [split_in; discriminate |].
  destruct (N.eqb_spec (Device.localStorageAvailable d
                        + Device.localStorageUsed d) 0) as [H0 | H0];
    [destruct Hin |].
  unfold storage_findings in Hin.
  set (used := Z.of_N (Device.localStorageUsed d)) in *.
  set (available := Z.of_N (Device.localStorageAvailable d)) in *.
  destruct (format_2f_ratio used (available + used)) as [Hk _];
    [unfold used, available; lia .. |].
  set (k := format_2f (rnd_div used (available + used))) in *.
  rewrite pct_of_hundredths_gt in Hin by exact Hk.
  destruct (Z.leb_spec 96 k) as [Hge | Hlt]; [| destruct Hin].
  destruct Hin as [Hin | []]. injection Hin as <-.
  exists k. split; [lia |]. apply pct_of_hundredths_whole. lia.
Qed.

Lemma storage_line_whole_percent_witness :
  exists k, 96 <= k <= 100 /\ float_of_Z 96 = float_of_Z k.
Proof.
  apply (storage_line_whole_percent strptime_sample clock_fixed (fun _ => [])
           (device_online 4 96) initial_state (1700000000 * us_per_second)
           (float_of_Z 96) eq_refl eq_refl).
  vm_compute. left. reflexivity.
Defined.

(** ** What one device adds to the report and to the traffic *)

Lemma agent_checks_outcome (clock : nat -> Z)
  (api_assets : string -> list Agent.t) (d : Device.t) (errors : list pystr)
  (st : state) :
  let r := fst (agent_checks clock api_assets d errors st) in
  let st' := snd (agent_checks clock api_assets d errors st) in
  requests st' = (requests st ++ [GetAssets (Device.serialNumber d)])%list
  /\ outbox st' = outbox st
  /\ session_open st' = session_open st
  /\ ((MSG_BODY st' = MSG_BODY st /\ stdout st' = stdout st)
      \/ (r = Ok tt
          /\ exists line lines,
               MSG_BODY st' =
                 (MSG_BODY st
                  ++ msg_device_header (Device.name d) :: line :: lines
                  ++ [Lit nl])%list
               /\ stdout st' =
                    (stdout st
                     ++ msg_device_header (Device.name d) :: line :: lines)%list)).
Proof.
  unfold agent_checks, getAssetDetails. run_monad. unfold bind.
  set (s1 := set_requests _ st).
  pose proof (agents_loop_kept MSG_BODY clock (Device.name d)
                (api_assets (Device.serialNumber d)) errors s1 blind_MSG_BODY)
    as Hbody.
  pose proof (agents_loop_kept stdout clock (Device.name d)
                (api_assets (Device.serialNumber d)) errors s1 blind_stdout)
    as Hout.
  pose proof (agents_loop_kept requests clock (Device.name d)
                (api_assets (Device.serialNumber d)) errors s1 blind_requests)
    as Hreq.
  pose proof (agents_loop_kept outbox clock (Device.name d)
                (api_assets (Device.serialNumber d)) errors s1 blind_outbox)
    as Hbox.
  pose proof (agents_loop_kept session_open clock (Device.name d)
                (api_assets (Device.serialNumber d)) errors s1
                blind_session_open)
    as Hses.
  destruct (for_fold (api_assets (Device.serialNumber d))
              (check_agent clock (Device.name d)) errors s1)
    as [[[| line lines] | e] s2]; cbn [fst snd] in *.
  - repeat split; try assumption. left. split; assumption.
  - rewrite printErrors_spec. cbn [fst snd MSG_BODY stdout requests outbox
                                     session_open].
    repeat split; try assumption. right. split; [reflexivity |].
    exists line, lines. rewrite Hbody, Hout. split; reflexivity.
  - repeat split; try assumption. left. split; assumption.
Qed.

Lemma process_device_report
  (strptime : string -> option Z) (clock : nat -> Z)
  (api_assets : string -> list Agent.t) (d : Device.t) (st : state) :
  let r := fst (process_device strptime clock api_assets d st) in
  let st' := snd (process_device strptime clock api_assets d st) in
  (MSG_BODY st' = MSG_BODY st /\ stdout st' = stdout st)
  \/ (Device.hidden d = false /\ r = Ok tt
      /\ exists line lines,
           MSG_BODY st' =
             (MSG_BODY st ++ msg_device_header (Device.name d) :: line :: lines
              ++ [Lit nl])%list
           /\ stdout st' =
                (stdout st
                 ++ msg_device_header (Device.name d) :: line :: lines)%list).
Proof.
  unfold process_device.
  destruct (Device.hidden d); [left; split; reflexivity |].
  run_monad.
  destruct (strptime _); run_monad; [| left; split; reflexivity].
  destruct (Device.activeTickets d =? 0); run_monad;
    (destruct (fgeb_Z _ CHECKIN_LIMIT); run_monad;
     [unfold bind; rewrite printErrors_spec; cbn [fst snd MSG_BODY stdout];
      right; split; [reflexivity |]; split; [reflexivity |];
      eexists _, _; split; reflexivity |]);
    unfold storage_pct;
    (destruct (_ =? 0); run_monad; [left; split; reflexivity |]);
    (destruct (fgtb_Z _ STORAGE_PCT_THRESHOLD); run_monad);
    match goal with
    | |- context [agent_checks ?c ?a ?dev ?errs ?s] =>
        destruct (agent_checks_outcome c a dev errs s)
          as (_ & _ & _ & [H | H]);
        [left; exact H | right; split; [reflexivity | exact H]]
    end.
Qed.

(** X18.  A device never adds an empty block to the report.  The pass over a
    device, whatever the device and the outcome, either leaves the report
    buffer and the printed output as they were (in particular whenever it
    raises), or returns normally having appended one block: the header of the
    device, at least one line, and the newline entry, the header and the
    lines being printed as well. *)
Theorem device_block_never_empty
  (strptime : string -> option Z) (clock : nat -> Z)
  (api_assets : string -> list Agent.t) (d : Device.t) (st : state) :
  let r := fst (process_device strptime clock api_assets d st) in
  let st' := snd (process_device strptime clock api_assets d st) in
  (MSG_BODY st' = MSG_BODY st /\ stdout st' = stdout st)
  \/ (r = Ok tt
      /\ exists line lines,
           MSG_BODY st' =
             (MSG_BODY st ++ msg_device_header (Device.name d) :: line :: lines
              ++ [Lit nl])%list
           /\ stdout st' =
                (stdout st
                 ++ msg_device_header (Device.name d) :: line :: lines)%list).
Proof.
  destruct (process_device_report strptime clock api_assets d st)
    as [H | (_ & H)]; [left; exact H | right; exact H].
Qed.

(** X19.  At most one request per device.  The pass over a device, whatever the
    outcome, sends either no request or the single request for the assets of
    that device, and the latter only for a visible device whose check-in
    parses and is less than 1200 seconds old; it sends no mail and leaves the
    session as it is. *)
Theorem device_at_most_one_request
  (strptime : string -> option Z) (clock : nat -> Z)
  (api_assets : string -> list Agent.t) (d : Device.t) (st : state) :
  let st' := snd (process_device strptime clock api_assets d st) in
  outbox st' = outbox st
  /\ session_open st' = session_open st
  /\ (requests st' = requests st
      \/ (requests st' =
            (requests st ++ [GetAssets (Device.serialNumber d)])%list
          /\ Device.hidden d = false
          /\ exists checkin,
               checkin_of strptime d = Some checkin
               /\ clock (clock_reads st) - checkin
                    < CHECKIN_LIMIT * us_per_second)).
Proof.
  unfold process_device, checkin_of.
  destruct (Device.hidden d); [repeat split; left; reflexivity |].
  run_monad.
  destruct (strptime _) as [checkin |]; run_monad;
    [| repeat split; left; reflexivity].
  rewrite total_seconds_geb by apply checkin_limit_range.
  destruct (Device.activeTickets d =? 0); run_monad;
    (destruct (Z.leb_spec (CHECKIN_LIMIT * us_per_second)
                 (clock (clock_reads st) - checkin)) as [Hold | Hrecent];
     run_monad;
     [unfold bind; rewrite printErrors_spec;
      cbn [snd requests outbox session_open];
      repeat split; left; reflexivity |]);
    unfold storage_pct;
    (destruct (_ =? 0); run_monad; [repeat split; left; reflexivity |]);
    (destruct (fgtb_Z _ STORAGE_PCT_THRESHOLD); run_monad);
    match goal with
    | |- context [agent_checks ?c ?a ?dev ?errs ?s] =>
        destruct (agent_checks_outcome c a dev errs s) as (Hreq & Hbox & Hses & _);
        rewrite Hreq, Hbox, Hses; cbn [requests outbox session_open];
        split; [reflexivity |]; split; [reflexivity |]; right;
        split; [reflexivity |]; split; [reflexivity |];
        exists checkin; split; [reflexivity | exact Hrecent]
    end.
Qed.

(** ** Exceptions *)

Lemma only_ret {A} (P : exn -> Prop) (a : A) : raises_only P (ret a).
Proof. intros st e H. discriminate. Qed.

Lemma only_raise {A} (P : exn -> Prop) (e : exn) : P e -> raises_only P (@raise A e).
Proof. intros He st e' H. injection H as <-. exact He. Qed.

Lemma only_modify (P : exn -> Prop) (g : state -> state) :
  raises_only P (modify g).
Proof. intros st e H. discriminate. Qed.

Lemma only_bind {A B} (P : exn -> Prop) (m : M A) (k : A -> M B) :
  raises_only P m -> (forall a, raises_only P (k a)) -> raises_only P (bind m k).
Proof.
  intros Hm Hk st e. unfold bind. specialize (Hm st).
  destruct (m st) as [[a | e'] st1]; cbn [fst] in *.
  - apply Hk.
  - intros H. injection H as <-. apply Hm. reflexivity.
Qed.

Lemma only_for_fold {A B} (P : exn -> Prop) (l : list A)
  (body : B -> A -> M B) (b : B) :
  (forall b a, raises_only P (body b a)) -> raises_only P (for_fold l body b).
Proof.
  intros Hbody. revert b. induction l as [| x l IH]; intros b; cbn [for_fold].
  - apply only_ret.
  - apply only_bind; [apply Hbody | intros; apply IH].
Qed.

Lemma only_for_each {A} (P : exn -> Prop) (l : list A) (body : A -> M unit) :
  (forall a, raises_only P (body a)) -> raises_only P (for_each l body).
Proof.
  intros Hbody. induction l as [| x l IH]; cbn [for_each].
  - apply only_ret.
  - apply only_bind; [apply Hbody | intros; apply IH].
Qed.

Lemma only_datetime_now (P : exn -> Prop) (clock : nat -> Z) :
  raises_only P (datetime_now clock).
Proof. intros st e H. discriminate. Qed.

Lemma only_printErrors (P : exn -> Prop) (errors : list pystr)
  (device_name : string) :
  raises_only P (printErrors errors device_name).
Proof. intros st e. rewrite printErrors_spec. discriminate. Qed.

Ltac only_steps P :=
  repeat first
    [ apply only_ret
    | apply only_modify
    | apply only_datetime_now
    | apply only_printErrors
    | apply only_raise;
      solve [reflexivity | left; reflexivity | right; reflexivity
            | left; left; reflexivity]
    | apply only_bind; [| intros]
    | match goal with
      | |- raises_only P (if ?c then _ else _) => destruct c
      | |- raises_only P (match ?c with _ => _ end) => destruct c
      end ].

Lemma fromtimestamp_error_kind (ts : Z) :
  timestamp_exception (fromtimestamp_error ts).
Proof.
  unfold timestamp_exception, fromtimestamp_error.
  destruct (_ || _); [tauto |]. destruct (_ || _); tauto.
Qed.

Lemma only_check_agent (clock : nat -> Z) (device_name : string)
  (errors : list pystr) (a : Agent.t) :
  raises_only timestamp_exception (check_agent clock device_name errors a).
Proof.
  unfold check_agent, report_asset, fromtimestamp.
  repeat first
    [ apply only_ret
    | apply only_modify
    | apply only_datetime_now
    | apply only_raise; apply fromtimestamp_error_kind
    | apply only_bind; [| intros]
    | match goal with
      | |- raises_only _ (if ?c then _ else _) => destruct c
      | |- raises_only _ (match ?c with _ => _ end) => destruct c
      end ].
Qed.

Lemma only_process_device (strptime : string -> option Z) (clock : nat -> Z)
  (api_assets : string -> list Agent.t) (d : Device.t) :
  raises_only device_exception (process_device strptime clock api_assets d).
Proof.
  unfold process_device, agent_checks, getAssetDetails, storage_pct,
    report_device, session_get, device_exception, timestamp_exception.
  only_steps (fun e : exn =>
                (e = ValueError \/ e = OverflowError \/ e = OSError)
                \/ e = ZeroDivisionError).
  apply only_for_fold. intros errs agent st0 e0 H. left.
  exact (only_check_agent clock (Device.name d) errs agent st0 e0 H).
Qed.

(** ** The mail and the session *)

Lemma blind_main_outbox : blind_to_main_loop outbox.
Proof. repeat split. Qed.
Lemma blind_main_session_open : blind_to_main_loop session_open.
Proof. repeat split. Qed.

Ltac kept_steps f Hres Hclock Hbody Hout Hreq :=
  repeat first
    [ apply kept_ret
    | apply kept_raise
    | (intros ?st; apply Hres)
    | (intros ?st; apply Hclock)
    | (intros ?st; apply Hbody)
    | (intros ?st; apply Hout)
    | (intros ?st; apply Hreq)
    | apply kept_for_each; intros
    | apply kept_bind; [| intros]
    | match goal with
      | |- keeps f (if ?c then _ else _) => destruct c
      | |- keeps f (match ?c with _ => _ end) => destruct c
      end ].

Lemma kept_process_device {X} (f : state -> X)
  (strptime : string -> option Z) (clock : nat -> Z)
  (api_assets : string -> list Agent.t) (d : Device.t) :
  blind_to_main_loop f ->
  keeps f (process_device strptime clock api_assets d).
Proof.
  intros (Hblind & Hbody & Hout & Hreq).
  pose proof Hblind as [Hres Hclock].
  unfold process_device, agent_checks, getAssetDetails, storage_pct,
    report_device, printErrors, print, session_get.
  kept_steps f Hres Hclock Hbody Hout Hreq.
  all: try (apply kept_for_fold; intros; apply kept_check_agent, Hblind).
Qed.

Lemma kept_getDevices {X} (f : state -> X)
  (str_upper : string -> string) (api_page : Z -> api_response) :
  blind_to_main_loop f -> keeps f (getDevices str_upper api_page).
Proof.
  intros (Hblind & Hbody & Hout & Hreq).
  pose proof Hblind as [Hres Hclock].
  unfold getDevices, response_items, response_totalPages, session_get.
  kept_steps f Hres Hclock Hbody Hout Hreq.
  all: try (apply kept_for_fold; intros;
            kept_steps f Hres Hclock Hbody Hout Hreq).
Qed.

Lemma only_getDevices (str_upper : string -> string)
  (api_page : Z -> api_response) :
  raises_only (fun e => exists key, e = KeyError key)
    (getDevices str_upper api_page).
Proof.
  unfold getDevices, response_items, response_totalPages, session_get.
  repeat first
    [ apply only_ret
    | apply only_modify
    | apply only_raise; eexists; reflexivity
    | apply only_for_fold; intros
    | apply only_bind; [| intros]
    | match goal with
      | |- raises_only _ (if ?c then _ else _) => destruct c
      | |- raises_only _ (match ?c with _ => _ end) => destruct c
      end ].
Qed.

(** A loop raises what one of the passes of its body raises. *)
Lemma for_each_raises {A} (l : list A) (body : A -> M unit) (st : state)
  (e : exn) :
  fst (for_each l body st) = Raise e ->
  exists x st0, In x l /\ fst (body x st0) = Raise e.
Proof.
  revert st. induction l as [| x l IH]; intros st; cbn [for_each].
  - discriminate.
  - unfold bind. destruct (body x st) as [[[] | e'] st1] eqn:Hx.
    + intros H. destruct (IH st1 H) as (y & st0 & Hin & Hy).
      exists y, st0. split; [right; exact Hin | exact Hy].
    + cbn [fst]. intros H. injection H as <-.
      exists x, st. split; [left; reflexivity |]. rewrite Hx. reflexivity.
Qed.

(** The ways a run with credentials can go. *)
Lemma main_cases
  (SEND_EMAIL : bool) (strptime : string -> option Z)
  (str_upper : string -> string) (clock : nat -> Z)
  (api_base : api_response) (api_page : Z -> api_response)
  (api_assets : string -> list Agent.t) (smtp_relay : mail -> bool)
  (argv0 : string) (args : list string) (st : state) :
  (2 <= List.length args)%nat ->
  let r := fst (main SEND_EMAIL strptime str_upper clock api_base api_page
                  api_assets smtp_relay argv0 args st) in
  let st' := snd (main SEND_EMAIL strptime str_upper clock api_base api_page
                    api_assets smtp_relay argv0 args st) in
  (is_result_page api_base = false /\ r = Raise (SystemExit 1)
   /\ session_open st' = true /\ outbox st' = outbox st)
  \/ (is_result_page api_base = true
      /\ (exists e,
            r = Raise e
            /\ ((exists key, e = KeyError key)
                \/ (device_exception e
                    /\ exists d st0,
                         fst (process_device strptime clock api_assets d st0)
                         = Raise e)))
      /\ session_open st' = true /\ outbox st' = outbox st)
  \/ (is_result_page api_base = true /\ session_open st' = false
      /\ ((SEND_EMAIL = false /\ r = Raise (SystemExit 0)
           /\ outbox st' = outbox st)
          \/ (SEND_EMAIL = true /\ r = Raise (SystemExit 0)
              /\ outbox st' = (outbox st ++ [report_mail (MSG_BODY st')])%list)
          \/ (SEND_EMAIL = true /\ r = Raise SMTPException
              /\ outbox st' = outbox st))).
Proof.
  intros Hargs. unfold main.
  rewrite (proj2 (Nat.ltb_ge _ _) Hargs).
  assert (HD : exists s0,
             session_open s0 = true /\ outbox s0 = outbox st
             /\ Datto_init api_base st
                = (if is_result_page api_base then Ok tt
                   else Raise (SystemExit 1), s0)).
  { unfold Datto_init.
    destruct api_base as [code message | items0 totalPages0]; run_monad;
      eexists; (split; [| split; [| reflexivity]]); reflexivity. }
  destruct HD as (s0 & Hses0 & Hbox0 & HD).
  unfold bind. rewrite HD.
  destruct (is_result_page api_base).
  2:{ left. repeat split; assumption. }
  right.
  pose proof (kept_getDevices outbox str_upper api_page blind_main_outbox s0)
    as Hbox1.
  pose proof (kept_getDevices session_open str_upper api_page
                blind_main_session_open s0) as Hses1.
  pose proof (only_getDevices str_upper api_page s0) as Hexn1.
  destruct (getDevices str_upper api_page s0) as [[devices | e] s1];
    cbn [fst snd] in *.
  2:{ left. split; [reflexivity |]. split; [| split; congruence].
      exists e. split; [reflexivity |]. left. apply Hexn1. reflexivity. }
  pose proof (kept_for_each outbox devices
                (process_device strptime clock api_assets)
                (fun d => kept_process_device outbox strptime clock api_assets d
                            blind_main_outbox) s1) as Hbox2.
  pose proof (kept_for_each session_open devices
                (process_device strptime clock api_assets)
                (fun d => kept_process_device session_open strptime clock
                            api_assets d blind_main_session_open) s1) as Hses2.
  pose proof (only_for_each device_exception devices
                (process_device strptime clock api_assets)
                (only_process_device strptime clock api_assets) s1) as Hexn2.
  pose proof (for_each_raises devices
                (process_device strptime clock api_assets) s1) as Hexn3.
  destruct (for_each devices (process_device strptime clock api_assets) s1)
    as [[[] | e] s2]; cbn [fst snd] in *.
  2:{ left. split; [reflexivity |].
      split; [| split; congruence].
      exists e. split; [reflexivity |]. right.
      split; [apply Hexn2; reflexivity |].
      destruct (Hexn3 e eq_refl) as (d & st0 & _ & Hd). eauto. }
  right. split; [reflexivity |].
  unfold sessionClose, email_report, modify, ret, raise.
  destruct SEND_EMAIL.
  - fold (report_mail (MSG_BODY (set_session_open false s2))).
    destruct (smtp_relay _); cbn [fst snd session_open outbox set_session_open
                                    set_outbox MSG_BODY].
    + split; [reflexivity |]. right. left.
      split; [reflexivity |]. split; [reflexivity |]. congruence.
    + split; [reflexivity |]. right. right.
      split; [reflexivity |]. split; [reflexivity |]. congruence.
  - cbn [fst snd session_open outbox set_session_open].
    split; [reflexivity |]. left.
    split; [reflexivity |]. split; [reflexivity |]. congruence.
Qed.

(** A run without credentials stops before anything else happens. *)
Lemma main_without_credentials
  (SEND_EMAIL : bool) (strptime : string -> option Z)
  (str_upper : string -> string) (clock : nat -> Z)
  (api_base : api_response) (api_page : Z -> api_response)
  (api_assets : string -> list Agent.t) (smtp_relay : mail -> bool)
  (argv0 : string) (args : list string) (st : state) :
  (List.length args < 2)%nat ->
  let r := fst (main SEND_EMAIL strptime str_upper clock api_base api_page
                  api_assets smtp_relay argv0 args st) in
  let st' := snd (main SEND_EMAIL strptime str_upper clock api_base api_page
                    api_assets smtp_relay argv0 args st) in
  r = Raise (SystemExit 1)
  /\ session_open st' = session_open st
  /\ outbox st' = outbox st.
Proof.
  intros Hargs. unfold main.
  rewrite (proj2 (Nat.ltb_lt _ _) Hargs).
  run_monad. repeat split.
Qed.

(** X20.  A run sends at most one mail, and only as its last act: either the
    outbox is left as it was, or [SEND_EMAIL] is set, the run ends with exit
    status 0 and exactly one mail was appended, whose body is the report
    buffer as the run leaves it.  In particular no mail is sent when the run
    stops early (usage error, probe error, a missing key in a page, an
    exception in a device pass). *)
Theorem run_sends_at_most_one_mail
  (SEND_EMAIL : bool) (strptime : string -> option Z)
  (str_upper : string -> string) (clock : nat -> Z)
  (api_base : api_response) (api_page : Z -> api_response)
  (api_assets : string -> list Agent.t) (smtp_relay : mail -> bool)
  (argv0 : string) (args : list string) (st : state) :
  let r := fst (main SEND_EMAIL strptime str_upper clock api_base api_page
                  api_assets smtp_relay argv0 args st) in
  let st' := snd (main SEND_EMAIL strptime str_upper clock api_base api_page
                    api_assets smtp_relay argv0 args st) in
  outbox st' = outbox st
  \/ (SEND_EMAIL = true /\ r = Raise (SystemExit 0)
      /\ outbox st' = (outbox st ++ [report_mail (MSG_BODY st')])%list).
Proof.
  destruct (Nat.lt_ge_cases (List.length args) 2) as [Hlt | Hge].
  - left.
    apply (main_without_credentials SEND_EMAIL strptime str_upper clock
             api_base api_page api_assets smtp_relay argv0 args st Hlt).
  - destruct (main_cases SEND_EMAIL strptime str_upper clock api_base api_page
                api_assets smtp_relay argv0 args st Hge)
      as [(_ & _ & _ & Hbox) | [(_ & _ & _ & Hbox)
          | (_ & _ & [(_ & _ & Hbox) | [(Hsend & Hr & Hbox)
                                       | (_ & _ & Hbox)]])]].
    + left. exact Hbox.
    + left. exact Hbox.
    + left. exact Hbox.
    + right. split; [exact Hsend |]. split; [exact Hr | exact Hbox].
    + left. exact Hbox.
Qed.

(** X21.  With credentials given, the session is closed at the end of a run
    exactly when the loop over the devices was completed, that is when the
    run ends with exit status 0 or with the mail relay's exception: every
    earlier stop (probe error, missing key in a page, exception in a device
    pass) leaves the session open. *)
Theorem session_closed_iff_loop_completed
  (SEND_EMAIL : bool) (strptime : string -> option Z)
  (str_upper : string -> string) (clock : nat -> Z)
  (api_base : api_response) (api_page : Z -> api_response)
  (api_assets : string -> list Agent.t) (smtp_relay : mail -> bool)
  (argv0 : string) (args : list string) (st : state) :
  (2 <= List.length args)%nat ->
  let r := fst (main SEND_EMAIL strptime str_upper clock api_base api_page
                  api_assets smtp_relay argv0 args st) in
  let st' := snd (main SEND_EMAIL strptime str_upper clock api_base api_page
                    api_assets smtp_relay argv0 args st) in
  session_open st' = false
  <-> (r = Raise (SystemExit 0) \/ r = Raise SMTPException).
Proof.
  intros Hge.
  destruct (main_cases SEND_EMAIL strptime str_upper clock api_base api_page
              api_assets smtp_relay argv0 args st Hge)
    as [(_ & Hr & Hses & _) | [(_ & (e & Hr & He) & Hses & _)
        | (_ & Hses & Hlast)]];
    cbv zeta.
  - rewrite Hr, Hses. split; [discriminate |]. intros [H | H]; discriminate.
  - rewrite Hr, Hses. split; [discriminate |].
    destruct He as [[key ->] | [[[-> | [-> | ->]] | ->] _]];
      intros [H | H]; discriminate.
  - split; [intros _ | intros _; exact Hses].
    destruct Hlast as [(_ & Hr & _) | [(_ & Hr & _) | (_ & Hr & _)]];
      rewrite Hr; auto.
Qed.

Lemma session_closed_iff_loop_completed_witness :
  session_open
    (snd (main false strptime_sample str_upper_ascii clock_fixed
            (ApiPage [] 1) page_sample assets_sample (fun _ => true)
            "Datto_backup_check.py" ["user"; "secret"]%string initial_state))
  = false
  <-> (fst (main false strptime_sample str_upper_ascii clock_fixed
              (ApiPage [] 1) page_sample assets_sample (fun _ => true)
              "Datto_backup_check.py" ["user"; "secret"]%string initial_state)
       = Raise (SystemExit 0)
       \/ fst (main false strptime_sample str_upper_ascii clock_fixed
                 (ApiPage [] 1) page_sample assets_sample (fun _ => true)
                 "Datto_backup_check.py" ["user"; "secret"]%string
                 initial_state)
          = Raise SMTPException).
Proof.
  apply (session_closed_iff_loop_completed false strptime_sample
           str_upper_ascii clock_fixed (ApiPage [] 1) page_sample
           assets_sample (fun _ => true) "Datto_backup_check.py"
           ["user"; "secret"]%string initial_state).
  cbn. lia.
Defined.


(** ** The text of the check-in date *)

Lemma str_get_app_take_drop (n : nat) (s : string) (i : nat) :
  String.get i (str_take n s ++ str_drop (S n) s)%string
  = if (i <? n)%nat then String.get i s else String.get (S i) s.
Proof.
  revert s i. induction n as [| n IH]; intros s i.
  - destruct s as [| c s]; [destruct i; reflexivity |]. reflexivity.
  - destruct s as [| c s].
    + change (str_take (S n) EmptyString
              ++ str_drop (S (S n)) EmptyString)%string
        with EmptyString.
      destruct (i <? S n)%nat; destruct i; reflexivity.
    + change (str_take (S n) (String c s) ++ str_drop (S (S n)) (String c s))%string
        with (String c (str_take n s ++ str_drop (S n) s))%string.
      destruct i as [| i]; [reflexivity |].
      cbn [String.get]. rewrite IH.
      change (S i <? S n)%nat with (i <? n)%nat.
      destruct (i <? n)%nat; reflexivity.
Qed.

(** X23.  The text that is parsed as the check-in date is the
    [lastSeenDate] with the character at index 22 deleted, whatever that
    character is: the characters before index 22 stay in place, every later
    one moves one place to the front (a text of 22 characters or fewer is
    left as it is). *)
Theorem checkin_text_deletes_index_22 (s : string) (i : nat) :
  String.get i (str_take 22 s ++ str_drop 23 s)%string
  = if (i <? 22)%nat then String.get i s else String.get (S i) s.
Proof. apply str_get_app_take_drop. Qed.

(** ** When a pass raises *)

(** X24.  The checks on an asset raise exactly when the asset is checked
    (neither archived nor paused) and one of the timestamps they convert is
    outside the years 1 to 9999, and the exception is that of the first
    conversion that fails: [OverflowError] for a timestamp that does not fit
    [time_t], [OSError] for one that [gmtime] does not convert, [ValueError]
    for the others.  A screenshot timestamp of an asset that is not of type
    agent, and a null or zero timestamp, are never converted. *)
Theorem asset_checks_raise_iff (clock : nat -> Z) (device_name : string)
  (errors : list pystr) (a : Agent.t) (st : state) (e : exn) :
  (fst (check_agent clock device_name errors a st) = Raise e
   <-> agent_error a = Some e)
  /\ (agent_error a = Some e -> timestamp_exception e)
  /\ (agent_error a = None
      <-> agent_active a = false
          \/ forallb valid_timestamp (converted_timestamps a) = true).
Proof.
  unfold agent_error, agent_active.
  destruct (Agent.isArchived a || Agent.isPaused a) eqn:Hskip; cbn [negb].
  - rewrite check_agent_skipped by exact Hskip. cbn [fst].
    split; [split; discriminate |]. split; [discriminate | tauto].
  - apply orb_false_elim in Hskip as [Harch Hpaused].
    destruct (check_agent_run clock device_name errors a st Harch Hpaused)
      as (st' & Hrun & _).
    rewrite Hrun. cbn [fst].
    split; [| split].
    + destruct (first_timestamp_error (converted_timestamps a)) as [e' |].
      * split; intros H; injection H as <-; reflexivity.
      * split; discriminate.
    + apply first_timestamp_error_kind.
    + rewrite first_timestamp_error_none. split; [tauto |].
      intros [H | H]; [discriminate | exact H].
Qed.

(** X25.  The outcome of the pass over a device, as a function of the device,
    the clock and the assets.  A hidden device is passed over.  Otherwise a
    check-in date that does not parse raises [ValueError]; a check-in of 1200
    seconds or more ago ends the pass normally, whatever the storage and the
    assets are; otherwise a total storage of zero raises
    [ZeroDivisionError], whatever the assets are; otherwise the pass ends
    with the exception of the first asset whose checks raise, and ends
    normally when none does. *)
Theorem device_pass_outcome
  (strptime : string -> option Z) (clock : nat -> Z)
  (api_assets : string -> list Agent.t) (d : Device.t) (st : state) :
  fst (process_device strptime clock api_assets d st)
  = if Device.hidden d then Ok tt
    else
      match checkin_of strptime d with
      | None => Raise ValueError
      | Some checkin =>
          if CHECKIN_LIMIT * us_per_second <=? clock (clock_reads st) - checkin
          then Ok tt
          else if (Device.localStorageAvailable d
                   + Device.localStorageUsed d =? 0)%N
          then Raise ZeroDivisionError
          else match assets_error (api_assets (Device.serialNumber d)) with
               | Some e => Raise e
               | None => Ok tt
               end
      end.
Proof.
  unfold process_device, checkin_of.
  destruct (Device.hidden d); [reflexivity |].
  run_monad.
  destruct (strptime _) as [checkin |]; run_monad; [| reflexivity].
  rewrite total_seconds_geb by apply checkin_limit_range.
  assert (Hzero : (Z.of_N (Device.localStorageAvailable d)
                   + Z.of_N (Device.localStorageUsed d) =? 0)
                  = (Device.localStorageAvailable d
                     + Device.localStorageUsed d =? 0)%N).
  { destruct (Z.eqb_spec (Z.of_N (Device.localStorageAvailable d)
                          + Z.of_N (Device.localStorageUsed d)) 0);
      destruct (N.eqb_spec (Device.localStorageAvailable d
                            + Device.localStorageUsed d) 0);
      try reflexivity; lia. }
  destruct (Device.activeTickets d =? 0); run_monad;
    (destruct (CHECKIN_LIMIT * us_per_second <=? clock (clock_reads st) - checkin);
     run_monad;
     [unfold bind; rewrite printErrors_spec; reflexivity |]);
    unfold storage_pct; rewrite Hzero;
    (destruct (_ =? 0)%N; run_monad; [reflexivity |]);
    (destruct (fgtb_Z _ STORAGE_PCT_THRESHOLD); run_monad);
    match goal with
    | |- context [agent_checks ?c ?a ?dev ?errs ?s] =>
        destruct (agent_checks_run c a dev errs s) as (st' & Hrun & _);
        rewrite Hrun; cbn [fst];
        destruct (assets_error (a (Device.serialNumber dev))); reflexivity
    end.
Qed.

(** ** The entries of [results_data] *)

Lemma kept_entry_alter (k name : string)
  (g : device_result -> device_result) :
  k <> name ->
  keeps (fun st => results_data st !! k)
    (modify (set_results_data (alter g name))).
Proof. intros Hne st. cbn. apply lookup_alter_ne. congruence. Qed.

Lemma kept_entry_insert (k name : string) (r : device_result) :
  k <> name ->
  keeps (fun st => results_data st !! k)
    (modify (set_results_data (<[name := r]>))).
Proof. intros Hne st. cbn. apply lookup_insert_ne. congruence. Qed.

Ltac kept_entry_steps :=
  repeat first
    [ apply kept_ret
    | apply kept_raise
    | apply kept_entry_alter; assumption
    | apply kept_entry_insert; assumption
    | apply kept_for_each; intros
    | apply kept_for_fold; intros
    | apply kept_bind; [| intros]
    | match goal with
      | |- keeps _ (if ?c then _ else _) => destruct c
      | |- keeps _ (match ?c with _ => _ end) => destruct c
      end
    | (intros ?st; reflexivity) ].

(** X26.  The pass over a device touches one entry of [results_data] only,
    the entry under the name of that device: every entry under another name
    is after the pass what it was before, whatever the outcome of the pass,
    and a hidden device leaves all the entries as they were. *)
Theorem device_pass_touches_own_entry
  (strptime : string -> option Z) (clock : nat -> Z)
  (api_assets : string -> list Agent.t) (d : Device.t) (st : state)
  (k : string) :
  Device.hidden d = true \/ k <> Device.name d ->
  results_data (snd (process_device strptime clock api_assets d st)) !! k
  = results_data st !! k.
Proof.
  intros Hk.
  destruct (Device.hidden d) eqn:Hhidden;
    [unfold process_device; rewrite Hhidden; reflexivity |].
  destruct Hk as [Hk | Hk]; [discriminate |].
  revert st.
  change (keeps (fun st => results_data st !! k)
            (process_device strptime clock api_assets d)).
  unfold process_device. rewrite Hhidden.
  unfold agent_checks, getAssetDetails, storage_pct,
    report_device, printErrors, print, session_get, check_agent, report_asset,
    fromtimestamp, datetime_now, init_asset, append_asset_error,
    append_device_error.
  kept_entry_steps.
Qed.

Lemma device_pass_touches_own_entry_witness :
  results_data
    (snd (process_device strptime_sample clock_fixed assets_sample
            (device_online 6 94) initial_state)) !! "NAS-01"%string
  = results_data initial_state !! "NAS-01"%string.
Proof.
  apply (device_pass_touches_own_entry strptime_sample clock_fixed
           assets_sample (device_online 6 94) initial_state "NAS-01"%string).
  right. discriminate.
Defined.

(** ** The report of the whole loop *)

(** X27.  The report follows the listing.  What the loop over the devices
    adds to the report buffer, whether it runs to its end or is cut short by
    an exception, is a sequence of whole blocks (header, lines, newline
    entry), none of them without lines, and the names in their headers are,
    in the order of the list, names of devices of the list that are not
    hidden, each device giving at most one block; the same headers and lines
    are printed. *)
Theorem report_blocks_follow_listing
  (strptime : string -> option Z) (clock : nat -> Z)
  (api_assets : string -> list Agent.t) (devices : list Device.t)
  (st : state) :
  let st' :=
    snd (for_each devices (process_device strptime clock api_assets) st) in
  exists blocks : list (string * list pystr),
    MSG_BODY st' = (MSG_BODY st ++ List.concat (map report_block blocks))%list
    /\ stdout st' =
         (stdout st
          ++ List.concat
               (map (fun b => msg_device_header (fst b) :: snd b) blocks))%list
    /\ Forall (fun b => snd b <> []) blocks
    /\ sublist (map fst blocks)
         (map Device.name
            (List.filter (fun d => negb (Device.hidden d)) devices)).
Proof.
  revert st. induction devices as [| d devices IH]; intros st.
  - exists []. cbn. rewrite !app_nil_r.
    repeat split; constructor.
  - cbn [for_each]. unfold bind.
    pose proof (process_device_report strptime clock api_assets d st) as Hd.
    destruct (process_device strptime clock api_assets d st)
      as [[[] | e] s1]; cbn [fst snd] in Hd |- *.
    + destruct (IH s1) as (blocks & Hbody & Hout & Hlines & Hsub).
      destruct Hd as [[Hb Ho]
                     | (Hvisible & _ & line & lines & Hb & Ho)].
      * exists blocks. rewrite Hbody, Hout, Hb, Ho.
        repeat split; [exact Hlines |].
        cbn [List.filter]. destruct (Device.hidden d); cbn [negb map];
          [exact Hsub | apply sublist_cons, Hsub].
      * exists ((Device.name d, line :: lines) :: blocks).
        rewrite Hbody, Hout, Hb, Ho.
        cbn [map List.concat fst snd]. unfold report_block at 1.
        cbn [fst snd]. rewrite <- !app_assoc. cbn [app].
        repeat split.
        -- constructor; [discriminate | exact Hlines].
        -- cbn [List.filter]. rewrite Hvisible. cbn [negb map].
           apply sublist_skip, Hsub.
    + destruct Hd as [[Hb Ho] | (_ & Hr & _)]; [| discriminate].
      exists []. cbn [map List.concat]. rewrite !app_nil_r.
      repeat split; [exact Hb | exact Ho | constructor |].
      apply sublist_nil_l.
Qed.
